(** * Smart Variation Router: the assignment and delivery core

    A shallow embedding of
      - [src/lib/variation.ts]        (hashString, assignVariation, isValidVariation)
      - [src/lib/script-generator.ts] (generateEmbedScript, generateEmbedCode)
      - [src/app/api/s/[id]/route.ts] (script-serve GET)
      - [src/app/api/track/route.ts]  (tracking beacon GET)
      - [src/app/api/projects/[id]/route.ts] (stats GET, DELETE)
      - the table definitions of the SQLite set-up ([lib/db.ts])
    and the properties of them that the specification states.

    Layout: the code (JavaScript values, the library functions, the store,
    the routes), then the notions of the specification ([Spec]), an example
    store ([Example]), and the proofs, component by component. *)

From Stdlib Require Import ZArith Lia List Ascii String Bool.
From stdpp Require Import base decidable option list gmap.

Import ListNotations.
Local Open Scope Z_scope.

(** ** JavaScript values used by the code *)

Module Js.

(** A JavaScript string is a sequence of UTF-16 code units;
    [charCodeAt] reads one of them as a number in [0, 65536).  No result
    below depends on that bound. *)
Abbreviation jsstring := (list Z).

(** A string literal of the source, for the ASCII range. *)
Definition lit (s : string) : jsstring :=
  map (fun a => Z.of_N (N_of_ascii a)) (list_ascii_of_string s).

(** The text of a template literal of the source, line by line.  In these
    literals the apostrophe stands for the double quote (code unit 34);
    the templates of the source contain no apostrophe.  Lines are joined
    by a line feed (code unit 10). *)
Definition tpl (s : string) : jsstring :=
  map (fun c => if c =? 39 then 34 else c) (lit s).

Fixpoint text (lines : list string) : jsstring :=
  match lines with
  | [] => []
  | [l] => tpl l
  | l :: ls => tpl l ++ 10 :: text ls
  end.

(** [ToInt32] and [ToUint32] of ECMAScript, on integral numbers. *)
Definition ToInt32 (x : Z) : Z := (x + 2^31) mod 2^32 - 2^31.
Definition ToUint32 (x : Z) : Z := x mod 2^32.

(** Numbers are IEEE doubles.  An integral result of magnitude below 2^53
    is exact; beyond that it is rounded to 53 significant bits, ties to
    even (magnitudes stay far below the overflow threshold here). *)
Definition f64_round (z : Z) : Z :=
  let a := Z.abs z in
  if a <? 2^53 then z
  else
    let e := Z.log2 a - 52 in
    let q := a / 2^e in
    let r := a mod 2^e in
    let half := 2^(e - 1) in
    let q' := if r <? half then q
              else if half <? r then q + 1
              else if Z.even q then q else q + 1 in
    Z.sgn z * (q' * 2^e).

(** [a * b] *)
Definition mul (a b : Z) : Z := f64_round (a * b).

(** [a ^ b]: the operands as 32-bit patterns, XOR bit by bit, the 32
    result bits read back as a signed integer. *)
Definition xor (a b : Z) : Z := ToInt32 (Z.lxor (ToUint32 a) (ToUint32 b)).

(** [a >>> 0] *)
Definition ushr0 (a : Z) : Z := ToUint32 a.

(** [a % b] on integral operands: the sign follows the dividend. *)
Definition rem (a b : Z) : Z := Z.rem a b.

(** [arr[i]] for a number [i]: [undefined] outside the array. *)
Definition index {A} (arr : list A) (i : Z) : option A :=
  if i <? 0 then None else arr !! Z.to_nat i.

(** [x || d] on a [string | null] operand: the empty string is falsy. *)
Definition truthy (x : option jsstring) : bool :=
  match x with
  | None => false
  | Some s => negb (bool_decide (s = []))
  end.

Definition or_default (x : option jsstring) (d : jsstring) : jsstring :=
  match x with
  | Some s => if bool_decide (s = []) then d else s
  | None => d
  end.

(** A [string | null] value after a guard has excluded [null]. *)
Definition narrowed (x : option jsstring) : jsstring := default [] x.

Definition or_null (x : option jsstring) : option jsstring :=
  if truthy x then x else None.

(** [arr.includes(v)] on an array of strings. *)
Definition includes (arr : list jsstring) (v : jsstring) : bool :=
  existsb (fun x => bool_decide (x = v)) arr.

End Js.

Abbreviation jsstring := (list Z).

(** ** [src/lib/variation.ts] *)

(** [hashString]: the loop runs over the code units from left to right. *)
Definition hashString (str : jsstring) : Z :=
  let hash :=
    fold_left (fun hash c => Js.xor (Js.mul hash 33) c) str 5381 in
  Js.ushr0 hash.

Definition variations : list jsstring :=
  [Js.lit "A"; Js.lit "B"; Js.lit "C"; Js.lit "D"].

(** [assignVariation]; [None] stands for [undefined]. *)
Definition assignVariation (visitorId projectId : jsstring) : option jsstring :=
  let combined := visitorId ++ Js.lit ":" ++ projectId in
  let hash := hashString combined in
  Js.index variations (Js.rem hash 4).

Definition isValidVariation (value : jsstring) : bool :=
  Js.includes [Js.lit "A"; Js.lit "B"; Js.lit "C"; Js.lit "D"] value.

(** ** [src/lib/script-generator.ts] *)

(** The template literal of [generateEmbedScript], cut at its four
    interpolations [${projectId}], [${projectId}], [${projectId}] and
    [${apiEndpoint}]. *)

Definition script_part0 : jsstring :=
  Js.text [
   "(function(){";
   "  var O=window.__OPTIMELEON__=window.__OPTIMELEON__||{};";
   "  if(O['" ]%string.

Definition script_part1 : jsstring :=
  Js.text [
   "'])return;";
   "  O['" ]%string.

Definition script_part2 : jsstring :=
  Js.text [
   "']=true;";
   "  ";
   "  var config={";
   "    projectId:'" ]%string.

Definition script_part3 : jsstring :=
  Js.text [
   "',";
   "    api:'" ]%string.

Definition script_part4 : jsstring :=
  Js.text [
   "'";
   "  };";
   "  ";
   "  function getVisitorId(){";
   "    var k='optim_vid';";
   "    try{";
   "      var id=localStorage.getItem(k);";
   "      if(!id){";
   "        id='v_'+Date.now().toString(36)+Math.random().toString(36).substr(2,9);";
   "        localStorage.setItem(k,id);";
   "      }";
   "      return id;";
   "    }catch(e){";
   "      return 'v_'+Date.now().toString(36)+Math.random().toString(36).substr(2,9);";
   "    }";
   "  }";
   "  ";
   "  function hash(s){";
   "    var h=5381;";
   "    for(var i=0;i<s.length;i++){";
   "      h=(h*33)^s.charCodeAt(i);";
   "    }";
   "    return h>>>0;";
   "  }";
   "  ";
   "  function getVariation(vid,pid){";
   "    var vars=['A','B','C','D'];";
   "    return vars[hash(vid+':'+pid)%4];";
   "  }";
   "  ";
   "  function applyVariation(v){";
   "    // Add data attribute to document for CSS targeting";
   "    document.documentElement.setAttribute('data-optim-variation',v);";
   "    ";
   "    // Show/hide elements based on data-optim-show attribute";
   "    var els=document.querySelectorAll('[data-optim-show]');";
   "    for(var i=0;i<els.length;i++){";
   "      var el=els[i];";
   "      var showFor=el.getAttribute('data-optim-show');";
   "      if(showFor&&showFor.indexOf(v)===-1){";
   "        el.style.display='none';";
   "      }";
   "    }";
   "    ";
   "    // Update URL parameter (optional, for analytics tools)";
   "    if(window.location.search.indexOf('variation=')===-1){";
   "      var sep=window.location.search?'&':'?';";
   "      var newUrl=window.location.href+sep+'variation='+v;";
   "      try{";
   "        window.history.replaceState({},'',newUrl);";
   "      }catch(e){}";
   "    }";
   "  }";
   "  ";
   "  function track(vid,v){";
   "    try{";
   "      var img=new Image();";
   "      img.src=config.api+'/api/track?v='+encodeURIComponent(vid)+'&p='+encodeURIComponent(config.projectId)+'&var='+v+'&t='+Date.now();";
   "    }catch(e){}";
   "  }";
   "  ";
   "  function init(){";
   "    try{";
   "      var vid=getVisitorId();";
   "      var variation=getVariation(vid,config.projectId);";
   "      ";
   "      O.visitorId=vid;";
   "      O.variation=variation;";
   "      O.projectId=config.projectId;";
   "      ";
   "      applyVariation(variation);";
   "      track(vid,variation);";
   "      ";
   "      // Dispatch custom event for integrations";
   "      if(typeof CustomEvent!=='undefined'){";
   "        document.dispatchEvent(new CustomEvent('optimeleon:ready',{";
   "          detail:{visitorId:vid,variation:variation,projectId:config.projectId}";
   "        }));";
   "      }";
   "    }catch(e){";
   "      console.warn('[Optimeleon] Error:',e.message);";
   "    }";
   "  }";
   "  ";
   "  if(document.readyState==='loading'){";
   "    document.addEventListener('DOMContentLoaded',init);";
   "  }else{";
   "    init();";
   "  }";
   "})();" ]%string.

Definition generateEmbedScript (projectId apiEndpoint : jsstring) : jsstring :=
  script_part0 ++ projectId ++
  script_part1 ++ projectId ++
  script_part2 ++ projectId ++
  script_part3 ++ apiEndpoint ++
  script_part4.

(** [generateEmbedCode]: the script tag shown on the dashboard. *)
Definition generateEmbedCode (projectId apiEndpoint : jsstring) : jsstring :=
  Js.tpl "<script src='" ++ apiEndpoint ++ Js.lit "/api/s/" ++ projectId ++
  Js.tpl "'></script>".

(** ** Exceptions and the store handle *)

(** A call either returns or throws; what is thrown is only logged. *)
Inductive result (A : Type) : Type :=
| Ok (a : A)
| Throw.
Arguments Ok {A} a.
Arguments Throw {A}.

(** Handler code runs against the store: a computation takes the store,
    returns or throws, and leaves a store behind. *)
Definition M (DB A : Type) : Type := DB -> result A * DB.

#[export] Instance M_ret {DB} : MRet (M DB) :=
  fun A (a : A) db => (Ok a, db).

#[export] Instance M_bind {DB} : MBind (M DB) :=
  fun A B (k : A -> M DB B) (m : M DB A) db =>
    match m db with
    | (Ok a, db') => k a db'
    | (Throw, db') => (Throw, db')
    end.

(** A query reads the store; a failed statement changes nothing. *)
Definition query {DB A} (f : DB -> result A) : M DB A :=
  fun db => (f db, db).

Definition exec {DB} (f : DB -> result DB) : M DB unit :=
  fun db =>
    match f db with
    | Ok db' => (Ok tt, db')
    | Throw => (Throw, db)
    end.

(** [try { body } catch (error) { return fallback }] *)
Definition try_catch {DB R} (body : M DB R) (fallback : R) : DB -> R * DB :=
  fun db =>
    match body db with
    | (Ok r, db') => (r, db')
    | (Throw, db') => (fallback, db')
    end.

(** *** Rows of the two tables ([lib/db.ts]) *)

Record ProjectRow := {
  p_id : jsstring;
  p_name : jsstring;
  p_domain : jsstring;
  p_description : option jsstring;
  p_is_active : Z;
  p_created_at : jsstring;
  p_updated_at : jsstring
}.

Record EventRow := {
  e_id : jsstring;
  e_project_id : jsstring;
  e_visitor_id : jsstring;
  e_variation : jsstring;
  e_timestamp : jsstring;
  e_user_agent : option jsstring;
  e_referrer : option jsstring
}.

(** A row of [SELECT variation, COUNT( * ) as count ... GROUP BY variation]. *)
Record StatRow := {
  s_variation : jsstring;
  s_count : Z
}.

(** The statements the routes prepare and run.  Each may throw. *)
Class Database (DB : Type) := {
  (** [getDatabase()] *)
  getDatabase : DB -> result unit;
  (** [SELECT ... FROM projects WHERE id = ?], [.get(id)] *)
  select_project : jsstring -> DB -> result (option ProjectRow);
  (** [SELECT variation, COUNT( * ) as count FROM visitor_events
       WHERE project_id = ? GROUP BY variation], [.all(id)] *)
  select_stats : jsstring -> DB -> result (list StatRow);
  (** [INSERT INTO visitor_events (...) VALUES (?, ?, ?, ?, ?, ?, ?)] *)
  insert_event : EventRow -> DB -> result DB;
  (** [DELETE FROM visitor_events WHERE project_id = ?] *)
  delete_events : jsstring -> DB -> result DB;
  (** [DELETE FROM projects WHERE id = ?] *)
  delete_project : jsstring -> DB -> result DB
}.

(** *** The tables as lists of rows *)

Record Db := {
  projects : list ProjectRow;
  visitor_events : list EventRow;
  (** whether the connection enforces foreign keys *)
  foreign_keys : bool
}.

Definition has_project (id : jsstring) (db : Db) : bool :=
  existsb (fun p => bool_decide (p_id p = id)) (projects db).

Definition events_of (id : jsstring) (db : Db) : list EventRow :=
  filter (fun e => e_project_id e = id) (visitor_events db).

(** [GROUP BY variation] with [COUNT( * )]: one row per label that occurs. *)
Definition group_count (rows : list EventRow) : list StatRow :=
  map (fun v => {| s_variation := v;
                   s_count := Z.of_nat (length (filter (fun e => e_variation e = v) rows)) |})
      (remove_dups (map e_variation rows)).

(** The constraints of [visitor_events]: [id TEXT PRIMARY KEY],
    [CHECK(variation IN ('A', 'B', 'C', 'D'))] and
    [FOREIGN KEY (project_id) REFERENCES projects(id) ON DELETE CASCADE]. *)
Definition check_variation (v : jsstring) : bool :=
  bool_decide (v ∈ [Js.lit "A"; Js.lit "B"; Js.lit "C"; Js.lit "D"]).

Definition sqlite_insert_event (row : EventRow) (db : Db) : result Db :=
  if existsb (fun e => bool_decide (e_id e = e_id row)) (visitor_events db) then Throw
  else if negb (check_variation (e_variation row)) then Throw
  else if foreign_keys db && negb (has_project (e_project_id row) db) then Throw
  else Ok {| projects := projects db;
             visitor_events := visitor_events db ++ [row];
             foreign_keys := foreign_keys db |}.

Definition sqlite_delete_events (id : jsstring) (db : Db) : result Db :=
  Ok {| projects := projects db;
        visitor_events := filter (fun e => e_project_id e ≠ id) (visitor_events db);
        foreign_keys := foreign_keys db |}.

Definition sqlite_delete_project (id : jsstring) (db : Db) : result Db :=
  Ok {| projects := filter (fun p => p_id p ≠ id) (projects db);
        visitor_events :=
          if foreign_keys db && has_project id db
          then filter (fun e => e_project_id e ≠ id) (visitor_events db)
          else visitor_events db;
        foreign_keys := foreign_keys db |}.

#[export] Instance sqlite : Database Db := {
  getDatabase := fun _ => Ok tt;
  select_project := fun id db =>
    Ok (find (fun p => bool_decide (p_id p = id)) (projects db));
  select_stats := fun id db => Ok (group_count (events_of id db));
  insert_event := sqlite_insert_event;
  delete_events := sqlite_delete_events;
  delete_project := sqlite_delete_project
}.

(** A store whose every statement throws (file missing, disk error). *)
Definition broken : Database Db := {|
  getDatabase := fun _ => Throw;
  select_project := fun _ _ => Throw;
  select_stats := fun _ _ => Throw;
  insert_event := fun _ _ => Throw;
  delete_events := fun _ _ => Throw;
  delete_project := fun _ _ => Throw
|}.

(** ** Requests, responses and the environment of a call *)

Record Request := {
  (** the query parameters of [request.url], in order *)
  searchParams : list (jsstring * jsstring);
  (** the transport headers, names in lower case *)
  req_headers : list (jsstring * jsstring)
}.

(** [searchParams.get(name)] and [headers.get(name)]: the first value
    under that name, [null] when there is none. *)
Definition get (name : jsstring) (l : list (jsstring * jsstring)) : option jsstring :=
  snd <$> find (fun kv => bool_decide (fst kv = name)) l.

Record Response (B : Type) := {
  status : Z;
  headers : list (jsstring * jsstring);
  body : B
}.
Arguments status {B} _.
Arguments headers {B} _.
Arguments body {B} _.

(** What a call reads besides its request and the store. *)
Record Env := {
  (** [process.env.NEXT_PUBLIC_APP_URL] *)
  NEXT_PUBLIC_APP_URL : option jsstring;
  (** the value [nanoid(12)] returns in this call *)
  nanoid12 : jsstring;
  (** the value [new Date().toISOString()] returns in this call *)
  now_iso : jsstring
}.

(** ** [src/app/api/s/[id]/route.ts] *)

Definition no_store : jsstring := Js.lit "no-cache, no-store, must-revalidate".

Definition script_not_found : jsstring := Js.lit "/* Optimeleon: Project not found */".
Definition script_inactive : jsstring := Js.lit "/* Optimeleon: Project is inactive */".
Definition script_internal_error : jsstring := Js.lit "/* Optimeleon: Internal error */".

Definition script_GET {DB} `{Database DB} (env : Env) (id : jsstring)
  : DB -> Response jsstring * DB :=
  try_catch
    (query getDatabase;;
     project ← query (select_project id);
     match project with
     | None =>
         mret {| status := 200;
                 headers := [(Js.lit "Content-Type", Js.lit "application/javascript");
                             (Js.lit "Cache-Control", no_store)];
                 body := script_not_found |}
     | Some project =>
         if negb (p_is_active project =? 1) then
           mret {| status := 200;
                   headers := [(Js.lit "Content-Type", Js.lit "application/javascript");
                               (Js.lit "Cache-Control", no_store)];
                   body := script_inactive |}
         else
           let apiEndpoint :=
             Js.or_default (NEXT_PUBLIC_APP_URL env) (Js.lit "http://localhost:3000") in
           let script := generateEmbedScript (p_id project) apiEndpoint in
           mret {| status := 200;
                   headers := [(Js.lit "Content-Type", Js.lit "application/javascript");
                               (Js.lit "Cache-Control", Js.lit "public, max-age=300");
                               (Js.lit "Access-Control-Allow-Origin", Js.lit "*")];
                   body := script |}
     end)
    {| status := 200;
       headers := [(Js.lit "Content-Type", Js.lit "application/javascript");
                   (Js.lit "Cache-Control", Js.lit "no-cache")];
       body := script_internal_error |}.

(** ** [src/app/api/track/route.ts] *)

(** [Buffer.from(text, "base64")]: six bits per letter of the alphabet,
    eight bits out per byte; decoding stops at the padding. *)
Definition base64_value (c : Z) : option Z :=
  if (65 <=? c) && (c <=? 90) then Some (c - 65)
  else if (97 <=? c) && (c <=? 122) then Some (c - 71)
  else if (48 <=? c) && (c <=? 57) then Some (c + 4)
  else if (c =? 43) || (c =? 45) then Some 62
  else if (c =? 47) || (c =? 95) then Some 63
  else None.

Fixpoint base64_decode (acc nbits : Z) (s : jsstring) : list Z :=
  match s with
  | [] => []
  | c :: s' =>
      if c =? 61 then []
      else
        match base64_value c with
        | None => base64_decode acc nbits s'
        | Some v =>
            let acc' := acc * 64 + v in
            let nbits' := nbits + 6 in
            if 8 <=? nbits'
            then acc' / 2 ^ (nbits' - 8)
                 :: base64_decode (acc' mod 2 ^ (nbits' - 8)) (nbits' - 8) s'
            else base64_decode acc' nbits' s'
        end
  end.

Definition Buffer_from_base64 (s : jsstring) : list Z := base64_decode 0 0 s.

(** 1x1 transparent GIF pixel *)
Definition PIXEL : list Z :=
  Buffer_from_base64 (Js.lit "R0lGODlhAQABAIAAAAAAAP///yH5BAEAAAAALAAAAAABAAEAAAIBRAA7").

Definition pixel_rejected : Response (list Z) :=
  {| status := 200;
     headers := [(Js.lit "Content-Type", Js.lit "image/gif");
                 (Js.lit "Cache-Control", no_store)];
     body := PIXEL |}.

Definition pixel_recorded : Response (list Z) :=
  {| status := 200;
     headers := [(Js.lit "Content-Type", Js.lit "image/gif");
                 (Js.lit "Cache-Control", no_store);
                 (Js.lit "Access-Control-Allow-Origin", Js.lit "*")];
     body := PIXEL |}.

Definition pixel_internal_error : Response (list Z) :=
  {| status := 200;
     headers := [(Js.lit "Content-Type", Js.lit "image/gif");
                 (Js.lit "Cache-Control", Js.lit "no-cache")];
     body := PIXEL |}.

Definition track_GET {DB} `{Database DB} (env : Env) (request : Request)
  : DB -> Response (list Z) * DB :=
  try_catch
    (let visitorId := get (Js.lit "v") (searchParams request) in
     let projectId := get (Js.lit "p") (searchParams request) in
     let variation := get (Js.lit "var") (searchParams request) in
     if negb (Js.truthy visitorId) || negb (Js.truthy projectId)
        || negb (Js.truthy variation)
     then mret pixel_rejected
     else
       let visitorId := Js.narrowed visitorId in
       let projectId := Js.narrowed projectId in
       let variation := Js.narrowed variation in
       if negb (isValidVariation variation) then mret pixel_rejected
       else
         query getDatabase;;
         project ← query (select_project projectId);
         match project with
         | None => mret pixel_rejected
         | Some _ =>
             let userAgent := Js.or_null (get (Js.lit "user-agent") (req_headers request)) in
             let referrer := Js.or_null (get (Js.lit "referer") (req_headers request)) in
             exec (insert_event
                     {| e_id := Js.lit "evt_" ++ nanoid12 env;
                        e_project_id := projectId;
                        e_visitor_id := visitorId;
                        e_variation := variation;
                        e_timestamp := now_iso env;
                        e_user_agent := userAgent;
                        e_referrer := referrer |});;
             mret pixel_recorded
         end)
    pixel_internal_error.

(** ** [src/app/api/projects/[id]/route.ts] *)

(** [key in obj] for a plain object: its own keys and the property names
    it inherits from [Object.prototype]. *)
Definition object_prototype_keys : list jsstring :=
  [Js.lit "constructor"; Js.lit "__defineGetter__"; Js.lit "__defineSetter__";
   Js.lit "hasOwnProperty"; Js.lit "__lookupGetter__"; Js.lit "__lookupSetter__";
   Js.lit "isPrototypeOf"; Js.lit "propertyIsEnumerable"; Js.lit "toString";
   Js.lit "valueOf"; Js.lit "__proto__"; Js.lit "toLocaleString"].

Definition js_in (key : jsstring) (obj : gmap jsstring Z) : bool :=
  bool_decide (is_Some (obj !! key)) || bool_decide (key ∈ object_prototype_keys).

(** [obj[key] = v] with a number [v]: assigning a number to [__proto__]
    changes nothing. *)
Definition js_set (key : jsstring) (v : Z) (obj : gmap jsstring Z) : gmap jsstring Z :=
  if bool_decide (key = Js.lit "__proto__") then obj else <[key := v]> obj.

Record Stats := {
  totalVisitors : Z;
  variationCounts : gmap jsstring Z
}.

(** The initial [variationCounts] and [totalVisitors], then the body of
    [stats.forEach]. *)
Definition stats_init : Stats :=
  {| totalVisitors := 0;
     variationCounts :=
       <[Js.lit "D" := 0]> (<[Js.lit "C" := 0]> (<[Js.lit "B" := 0]> (<[Js.lit "A" := 0]> ∅))) |}.

Definition stats_step (acc : Stats) (s : StatRow) : Stats :=
  if js_in (s_variation s) (variationCounts acc) then
    {| totalVisitors := totalVisitors acc + s_count s;
       variationCounts := js_set (s_variation s) (s_count s) (variationCounts acc) |}
  else acc.

Definition aggregate (stats : list StatRow) : Stats :=
  fold_left stats_step stats stats_init.

(** The JSON bodies of the route. *)
Inductive ProjectBody : Type :=
| ErrorBody (error : jsstring)
| SuccessBody (success : bool)
| ProjectDetail (id name domain : jsstring) (description : option jsstring)
    (isActive : bool) (createdAt updatedAt embedScript : jsstring) (stats : Stats).

(** [NextResponse.json(value, { status })]; the status defaults to 200. *)
Definition json (value : ProjectBody) (st : Z) : Response ProjectBody :=
  {| status := st;
     headers := [(Js.lit "content-type", Js.lit "application/json")];
     body := value |}.

Definition project_GET {DB} `{Database DB} (env : Env) (id : jsstring)
  : DB -> Response ProjectBody * DB :=
  try_catch
    (query getDatabase;;
     project ← query (select_project id);
     match project with
     | None => mret (json (ErrorBody (Js.lit "Project not found")) 404)
     | Some project =>
         stats ← query (select_stats id);
         let result := aggregate stats in
         let apiEndpoint :=
           Js.or_default (NEXT_PUBLIC_APP_URL env) (Js.lit "http://localhost:3000") in
         let embedScript := generateEmbedCode (p_id project) apiEndpoint in
         mret (json (ProjectDetail (p_id project) (p_name project) (p_domain project)
                       (p_description project) (p_is_active project =? 1)
                       (p_created_at project) (p_updated_at project)
                       embedScript result) 200)
     end)
    (json (ErrorBody (Js.lit "Failed to get project")) 500).

Definition project_DELETE {DB} `{Database DB} (id : jsstring)
  : DB -> Response ProjectBody * DB :=
  try_catch
    (query getDatabase;;
     existing ← query (select_project id);
     match existing with
     | None => mret (json (ErrorBody (Js.lit "Project not found")) 404)
     | Some _ =>
         exec (delete_events id);;
         exec (delete_project id);;
         mret (json (SuccessBody true) 200)
     end)
    (json (ErrorBody (Js.lit "Failed to delete project")) 500).

(** ** The notions of the specification *)

Module Spec.

(** *** The hasher as the specification words it *)

(** Accumulator 5381; per character [acc := ((acc * 33) XOR c) mod 2^32];
    the result coerced to an unsigned 32-bit value. *)
Definition djb2_step (acc c : Z) : Z := Z.lxor (acc * 33) c mod 2^32.

Definition djb2_u32 (s : jsstring) : Z :=
  fold_left djb2_step s 5381 mod 2^32.

(** Bucket index 0 -> A, 1 -> B, 2 -> C, 3 -> D. *)
Definition bucket_symbol (i : Z) : option jsstring :=
  match i with
  | 0 => Some (Js.lit "A")
  | 1 => Some (Js.lit "B")
  | 2 => Some (Js.lit "C")
  | 3 => Some (Js.lit "D")
  | _ => None
  end.

(** *** Where an embedded value ends up in the generated script *)

(** The allow-list for identifiers: alphanumeric plus [_] and [-]. *)
Definition safe_char (c : Z) : bool :=
  ((48 <=? c) && (c <=? 57)) || ((65 <=? c) && (c <=? 90))
  || ((97 <=? c) && (c <=? 122)) || (c =? 95) || (c =? 45).

Definition safe_identifier (s : jsstring) : bool := forallb safe_char s.

(** The generated script has no other literal than double-quoted strings
    (no apostrophe, back-tick or regular expression, no quote inside a
    comment), so its text splits into code and string contents by the
    quote and the backslash alone. *)
Inductive lex_state : Type := Code | InString | InEscape.

Definition lex_step (st : lex_state) (c : Z) : lex_state :=
  match st with
  | Code => if c =? 34 then InString else Code
  | InString => if c =? 34 then Code else if c =? 92 then InEscape else InString
  | InEscape => InString
  end.

Definition lex (st : lex_state) (s : jsstring) : lex_state :=
  fold_left lex_step s st.

(** The characters of [s] that are code, i.e. outside every string. *)
Fixpoint code_text (st : lex_state) (s : jsstring) : jsstring :=
  match s with
  | [] => []
  | c :: s' =>
      match st with
      | Code => if c =? 34 then code_text InString s' else c :: code_text Code s'
      | _ => code_text (lex_step st c) s'
      end
  end.

(** An embedded value is inert when the code of the script is the code
    of the bare template: the value has stayed inside its literals. *)
Definition inert (script : jsstring) : Prop :=
  code_text Code script = code_text Code (generateEmbedScript [] []).

(** A value that can neither close nor extend the literal it sits in. *)
Definition quote_free (s : jsstring) : bool :=
  forallb (fun c => negb ((c =? 34) || (c =? 92))) s.

(** *** Cache directives of a response *)

Fixpoint split_on (sep : Z) (s : jsstring) : list jsstring :=
  match s with
  | [] => [[]]
  | c :: s' =>
      if c =? sep then [] :: split_on sep s'
      else match split_on sep s' with
           | [] => [[c]]
           | w :: ws => (c :: w) :: ws
           end
  end.

Fixpoint trim_left (s : jsstring) : jsstring :=
  match s with
  | 32 :: s' => trim_left s'
  | _ => s
  end.

Definition directives (value : jsstring) : list jsstring :=
  map trim_left (split_on 44 value).

Definition do_not_cache {B} (r : Response B) : bool :=
  match get (Js.lit "Cache-Control") (headers r) with
  | Some value => bool_decide (Js.lit "no-cache" ∈ directives value)
  | None => false
  end.

(** *** What a tracking call records *)

(** A parameter or header is present when the request carries it, and
    supplied when moreover its value is not the empty string. *)
Definition present {A} (x : option A) : bool :=
  match x with Some _ => true | None => false end.

Definition supplied (x : option jsstring) : bool :=
  match x with Some (_ :: _) => true | _ => false end.

Definition param (name : string) (request : Request) : option jsstring :=
  get (Js.lit name) (searchParams request).

Definition closed_set (v : jsstring) : bool :=
  bool_decide (v ∈ [Js.lit "A"; Js.lit "B"; Js.lit "C"; Js.lit "D"]).

Definition header_or_null (name : string) (request : Request) : option jsstring :=
  match get (Js.lit name) (req_headers request) with
  | Some (c :: s) => Some (c :: s)
  | _ => None
  end.

Definition event_id (env : Env) : jsstring := Js.lit "evt_" ++ nanoid12 env.

(** The row of a recorded call. *)
Definition tracked_row (env : Env) (request : Request) : EventRow :=
  {| e_id := event_id env;
     e_project_id := default [] (param "p" request);
     e_visitor_id := default [] (param "v" request);
     e_variation := default [] (param "var" request);
     e_timestamp := now_iso env;
     e_user_agent := header_or_null "user-agent" request;
     e_referrer := header_or_null "referer" request |}.

Definition append_event (row : EventRow) (db : Db) : Db :=
  {| projects := projects db;
     visitor_events := visitor_events db ++ [row];
     foreign_keys := foreign_keys db |}.

Definition one_row_appended (db db' : Db) : Prop :=
  exists row : EventRow, visitor_events db' = visitor_events db ++ [row].

(** The condition of the claim as it is worded: the three parameters are
    present, the label is in the closed set, the project exists. *)
Definition present_valid_known (request : Request) (db : Db) : bool :=
  present (param "v" request) && present (param "p" request)
  && present (param "var" request)
  && closed_set (default [] (param "var" request))
  && has_project (default [] (param "p" request)) db.

Definition recorded_iff_present (env : Env) (request : Request) (db : Db) : Prop :=
  one_row_appended db (snd (track_GET env request db))
  <-> present_valid_known request db = true.

(** The condition the code implements: the three parameters are supplied,
    the label is in the closed set, the project exists, and the store
    takes the insert (the event identifier is not in use). *)
Definition recorded (env : Env) (request : Request) (db : Db) : bool :=
  supplied (param "v" request) && supplied (param "p" request)
  && supplied (param "var" request)
  && closed_set (default [] (param "var" request))
  && has_project (default [] (param "p" request)) db
  && negb (bool_decide (event_id env ∈ map e_id (visitor_events db))).

(** The request without the parameter [name]. *)
Definition without (name : jsstring) (request : Request) : Request :=
  {| searchParams := filter (fun kv => fst kv ≠ name) (searchParams request);
     req_headers := req_headers request |}.

(** *** What the aggregator counts *)

Definition count_events (id label : jsstring) (db : Db) : Z :=
  Z.of_nat (length (filter (fun e => e_project_id e = id ∧ e_variation e = label)
                      (visitor_events db))).

(** The [CHECK] constraint on the rows of [visitor_events]. *)
Definition check_ok (db : Db) : Prop :=
  Forall (fun e => check_variation (e_variation e) = true) (visitor_events db).

Definition stats_of (b : ProjectBody) : option Stats :=
  match b with
  | ProjectDetail _ _ _ _ _ _ _ _ stats => Some stats
  | _ => None
  end.

(** The sum of the four per-variation counts of a result. *)
Definition sum4 (m : gmap jsstring Z) : Z :=
  default 0 (m !! Js.lit "A") + default 0 (m !! Js.lit "B")
  + default 0 (m !! Js.lit "C") + default 0 (m !! Js.lit "D").

End Spec.

(** ** A small store and a few calls, for evaluation *)

Module Example.

Definition project (id : string) (active : Z) : ProjectRow :=
  {| p_id := Js.lit id;
     p_name := Js.lit "Landing page";
     p_domain := Js.lit "example.com";
     p_description := None;
     p_is_active := active;
     p_created_at := Js.lit "2024-01-01T00:00:00.000Z";
     p_updated_at := Js.lit "2024-01-01T00:00:00.000Z" |}.

Definition event (id project visitor label : string) : EventRow :=
  {| e_id := Js.lit id;
     e_project_id := Js.lit project;
     e_visitor_id := Js.lit visitor;
     e_variation := Js.lit label;
     e_timestamp := Js.lit "2024-01-01T12:00:00.000Z";
     e_user_agent := None;
     e_referrer := None |}.

(** [proj_1] with three events labelled A, A, B; [proj_2] with one. *)
Definition store : Db :=
  {| projects := [project "proj_1" 1; project "proj_2" 0];
     visitor_events :=
       [event "evt_1" "proj_1" "v_1" "A";
        event "evt_2" "proj_2" "v_1" "C";
        event "evt_3" "proj_1" "v_2" "A";
        event "evt_4" "proj_1" "v_3" "B"];
     foreign_keys := true |}.

Definition env : Env :=
  {| NEXT_PUBLIC_APP_URL := None;
     nanoid12 := Js.lit "V1StGXR8_Z5j";
     now_iso := Js.lit "2024-01-02T00:00:00.000Z" |}.

Definition beacon (v p var : string) : Request :=
  {| searchParams := [(Js.lit "v", Js.lit v); (Js.lit "p", Js.lit p);
                      (Js.lit "var", Js.lit var); (Js.lit "t", Js.lit "1704153600000")];
     req_headers := [(Js.lit "user-agent", Js.lit "Mozilla/5.0")] |}.

End Example.

(** ** Arithmetic of the hasher *)

Section HashArithmetic.

Lemma lxor_mod_pow2 a b n :
  0 <= n -> Z.lxor a b mod 2^n = Z.lxor (a mod 2^n) (b mod 2^n).
Proof.
  intros Hn. apply Z.bits_inj'. intros i Hi.
  rewrite Z.lxor_spec, !Z.testbit_mod_pow2 by lia.
  rewrite Z.lxor_spec. destruct (i <? n); simpl; reflexivity.
Qed.

Lemma ToInt32_range x : - 2^31 <= Js.ToInt32 x < 2^31.
Proof. unfold Js.ToInt32. pose proof (Z.mod_pos_bound (x + 2^31) (2^32)). lia. Qed.

Lemma ToInt32_mod x : Js.ToInt32 x mod 2^32 = x mod 2^32.
Proof.
  unfold Js.ToInt32.
  rewrite Zminus_mod_idemp_l. f_equal. lia.
Qed.

Lemma f64_round_exact z : Z.abs z < 2^53 -> Js.f64_round z = z.
Proof.
  intros H. unfold Js.f64_round.
  destruct (Z.ltb_spec (Z.abs z) (2^53)); [reflexivity | lia].
Qed.

(** The accumulator of the source loop is 5381 or a signed 32-bit value. *)
Definition acc_ok (h : Z) : Prop := - 2^31 <= h < 2^31.

Lemma mul33_exact h : acc_ok h -> Js.mul h 33 = h * 33.
Proof. unfold acc_ok, Js.mul. intros H. apply f64_round_exact. lia. Qed.

Lemma xor_acc_ok a b : acc_ok (Js.xor a b).
Proof. apply ToInt32_range. Qed.

Lemma xor_mod a b : Js.xor a b mod 2^32 = Z.lxor a b mod 2^32.
Proof.
  unfold Js.xor, Js.ToUint32.
  rewrite ToInt32_mod. rewrite (lxor_mod_pow2 a b 32) by lia.
  apply Z.mod_small.
  pose proof (Z.mod_pos_bound a (2^32)). pose proof (Z.mod_pos_bound b (2^32)).
  assert (0 <= Z.lxor (a mod 2^32) (b mod 2^32)) by (apply Z.lxor_nonneg; lia).
  split; [assumption|].
  destruct (Z.eq_dec (Z.lxor (a mod 2 ^ 32) (b mod 2 ^ 32)) 0) as [->|Hne]; [lia|].
  apply Z.log2_lt_pow2; [lia|].
  eapply Z.le_lt_trans; [apply Z.log2_lxor; lia|].
  apply Z.max_lub_lt.
  - destruct (Z.eq_dec (a mod 2^32) 0) as [->|]; [simpl; lia|]. apply Z.log2_lt_pow2; lia.
  - destruct (Z.eq_dec (b mod 2^32) 0) as [->|]; [simpl; lia|]. apply Z.log2_lt_pow2; lia.
Qed.

(** One iteration of the source loop against one step of the specified
    recurrence: the signed accumulator and the unsigned one agree
    modulo 2^32. *)
Lemma step_refines h u c :
  acc_ok h -> h mod 2^32 = u mod 2^32 ->
  Js.xor (Js.mul h 33) c mod 2^32 = Spec.djb2_step u c.
Proof.
  intros Hh Hu. rewrite mul33_exact by assumption.
  rewrite xor_mod. unfold Spec.djb2_step.
  assert (E : (h * 33) mod 2^32 = (u * 33) mod 2^32)
    by (rewrite (Zmult_mod h), (Zmult_mod u); now rewrite Hu).
  rewrite (lxor_mod_pow2 (h * 33)), (lxor_mod_pow2 (u * 33)) by lia.
  now rewrite E.
Qed.

Lemma loop_refines s : forall h u,
  acc_ok h -> h mod 2^32 = u mod 2^32 ->
  fold_left (fun hash c => Js.xor (Js.mul hash 33) c) s h mod 2^32
  = fold_left Spec.djb2_step s u mod 2^32.
Proof.
  induction s as [|c s IH]; intros h u Hh Hu; simpl; [assumption|].
  apply IH; [apply xor_acc_ok|].
  rewrite (step_refines h u c Hh Hu).
  unfold Spec.djb2_step. now rewrite Z.mod_mod by lia.
Qed.

End HashArithmetic.

(** ** The hasher: [hashString] and [assignVariation] *)

Lemma hashString_refines (s : jsstring) : hashString s = Spec.djb2_u32 s.
Proof.
  unfold hashString, Spec.djb2_u32, Js.ushr0, Js.ToUint32.
  apply loop_refines; [unfold acc_ok; lia | reflexivity].
Qed.

Lemma hashString_range (s : jsstring) : 0 <= hashString s < 2^32.
Proof. unfold hashString, Js.ushr0, Js.ToUint32. apply Z.mod_pos_bound. lia. Qed.

Lemma rem4_bucket (h : Z) : 0 <= h -> Js.rem h 4 = h mod 4 /\ 0 <= Js.rem h 4 < 4.
Proof.
  intros Hh. unfold Js.rem.
  rewrite Z.rem_mod_nonneg by lia.
  split; [reflexivity | apply Z.mod_pos_bound; lia].
Qed.

Lemma index_variations (i : Z) :
  0 <= i < 4 -> Js.index variations i = Spec.bucket_symbol i.
Proof.
  intros Hi.
  assert (i = 0 \/ i = 1 \/ i = 2 \/ i = 3) as [-> | [-> | [-> | ->]]] by lia;
    reflexivity.
Qed.

(** C1.  For every string, [hashString] is the djb2 variant of the
    specification computed with exact unsigned 32-bit wrap-around: start at
    5381, per character [acc := ((acc * 33) XOR charCode) mod 2^32], the
    final value as an unsigned 32-bit integer.  The source computes on
    doubles with a signed 32-bit XOR; every product stays exact and the two
    accumulators agree modulo 2^32.  The function is total, and the empty
    string hashes to 5381. *)
Theorem hashString_is_djb2_u32 :
  (forall s : jsstring, hashString s = Spec.djb2_u32 s)
  /\ hashString (Js.lit "") = 5381.
Proof.
  split.
  - intros s. apply hashString_refines.
  - rewrite hashString_refines. reflexivity.
Qed.

(** C2.  For every pair of identifiers, [assignVariation] returns the
    symbol at index [hash mod 4] of the ordered list A, B, C, D, where the
    hash is the specified djb2 value of [visitorId ++ ":" ++ projectId];
    and it is a function of the pair: equal pairs give equal symbols. *)
Theorem assignVariation_is_bucket_symbol (visitorId projectId : jsstring) :
  assignVariation visitorId projectId
  = Spec.bucket_symbol
      (Spec.djb2_u32 (visitorId ++ Js.lit ":" ++ projectId) mod 4)
  /\ (forall visitorId' projectId' : jsstring,
        (visitorId', projectId') = (visitorId, projectId) ->
        assignVariation visitorId' projectId' = assignVariation visitorId projectId).
Proof.
  split.
  - unfold assignVariation.
    pose proof (hashString_range (visitorId ++ Js.lit ":" ++ projectId)) as Hr.
    destruct (rem4_bucket (hashString (visitorId ++ Js.lit ":" ++ projectId)))
      as [Hrem Hb]; [lia|].
    cbv zeta. rewrite index_variations by exact Hb.
    rewrite Hrem, hashString_refines. reflexivity.
  - intros v' p' E. injection E as -> ->. reflexivity.
Qed.

Lemma assignVariation_deterministic_example :
  assignVariation (Js.lit "v1") (Js.lit "p1") = Some (Js.lit "B")
  /\ assignVariation (Js.lit "v1") (Js.lit "p1")
     = assignVariation (Js.lit "v1") (Js.lit "p1").
Proof.
  split.
  - vm_compute. reflexivity.
  - apply (proj2 (assignVariation_is_bucket_symbol (Js.lit "v1") (Js.lit "p1"))).
    reflexivity.
Defined.

(** C9.  [assignVariation] is total and returns one of A, B, C, D: the
    hash is an unsigned 32-bit value, so [hash % 4] lies in [0, 4) and the
    indexing never leaves the four-element list. *)
Theorem assignVariation_total (visitorId projectId : jsstring) :
  let hash := hashString (visitorId ++ Js.lit ":" ++ projectId) in
  0 <= hash < 2^32
  /\ 0 <= Js.rem hash 4 < 4
  /\ (Z.to_nat (Js.rem hash 4) < length variations)%nat
  /\ exists symbol : jsstring,
       assignVariation visitorId projectId = Some symbol
       /\ symbol ∈ [Js.lit "A"; Js.lit "B"; Js.lit "C"; Js.lit "D"].
Proof.
  intros hash.
  pose proof (hashString_range (visitorId ++ Js.lit ":" ++ projectId)) as Hr.
  fold hash in Hr.
  destruct (rem4_bucket hash) as [_ Hb]; [lia|].
  repeat split; try lia.
  - change (length variations) with 4%nat. lia.
  - unfold assignVariation. fold hash. cbv zeta.
    rewrite index_variations by exact Hb.
    remember (Js.rem hash 4) as i eqn:Ei. clear Ei Hr.
    assert (Hi : i = 0 \/ i = 1 \/ i = 2 \/ i = 3) by lia. clear Hb.
    destruct Hi as [-> | [-> | [-> | ->]]];
      (eexists; split; [reflexivity|]); set_solver.
Qed.

(** ** The script generator *)

Section Lexing.

Import Spec.

Lemma lex_app st a b : lex st (a ++ b) = lex (lex st a) b.
Proof. unfold lex. apply fold_left_app. Qed.

Lemma code_text_app a : forall st b,
  code_text st (a ++ b) = code_text st a ++ code_text (lex st a) b.
Proof.
  induction a as [|c a IH]; intros st b; [reflexivity|].
  destruct st; simpl; try apply IH.
  destruct (c =? 34); simpl; [apply IH | f_equal; apply IH].
Qed.

(** A value without quote or backslash stays inside the literal. *)
Lemma quote_free_lex s : quote_free s = true -> lex InString s = InString.
Proof.
  induction s as [|c s IH]; [reflexivity|]. simpl. intros H.
  apply andb_prop in H as [Hc Hs]. apply negb_true_iff, orb_false_elim in Hc as [-> ->].
  apply IH, Hs.
Qed.

Lemma quote_free_code_text s : quote_free s = true -> code_text InString s = [].
Proof.
  induction s as [|c s IH]; [reflexivity|]. simpl. intros H.
  apply andb_prop in H as [Hc Hs]. apply negb_true_iff, orb_false_elim in Hc as [-> ->].
  apply IH, Hs.
Qed.

Lemma safe_identifier_quote_free s : safe_identifier s = true -> quote_free s = true.
Proof.
  unfold safe_identifier, quote_free. rewrite !forallb_forall.
  intros H c Hc. specialize (H c Hc). unfold safe_char in H.
  destruct (Z.eqb_spec c 34) as [->|]; [discriminate H|].
  destruct (Z.eqb_spec c 92) as [->|]; [discriminate H|]. reflexivity.
Qed.

(** Every value is embedded as it is; one without quote or backslash is
    inert at each of the four places. *)
Lemma generateEmbedScript_quote_free projectId apiEndpoint :
  quote_free projectId = true -> quote_free apiEndpoint = true ->
  inert (generateEmbedScript projectId apiEndpoint).
Proof.
  intros Hp Ha. unfold inert, generateEmbedScript.
  assert (L0 : lex Code script_part0 = InString) by (vm_compute; reflexivity).
  assert (L1 : lex InString script_part1 = InString) by (vm_compute; reflexivity).
  assert (L2 : lex InString script_part2 = InString) by (vm_compute; reflexivity).
  assert (L3 : lex InString script_part3 = InString) by (vm_compute; reflexivity).
  repeat (rewrite code_text_app; rewrite ?lex_app, ?L0, ?L1, ?L2, ?L3,
            ?(quote_free_lex _ Hp), ?(quote_free_lex _ Ha)).
  rewrite !(quote_free_code_text _ Hp), !(quote_free_code_text _ Ha).
  reflexivity.
Qed.

(** In particular an identifier of the allow-list is inert. *)
Lemma generateEmbedScript_safe_identifier projectId apiEndpoint :
  safe_identifier projectId = true -> quote_free apiEndpoint = true ->
  inert (generateEmbedScript projectId apiEndpoint).
Proof.
  intros Hp Ha. apply generateEmbedScript_quote_free; [|exact Ha].
  apply safe_identifier_quote_free, Hp.
Qed.

End Lexing.

(** C3, as worded, fails.  The generator neither rejects nor escapes an
    identifier with a character outside the allow-list: at the
    identifier ["+alert(1)+"] the script is returned with the identifier
    embedded as it is, its first quote closes the string literal the
    template had opened, and [+alert(1)+] is code of the returned script
    at each of the three places. *)
Theorem generateEmbedScript_embeds_unescaped :
  let projectId := Js.tpl "'+alert(1)+'" in
  let script := generateEmbedScript projectId (Js.lit "http://localhost:3000") in
  Spec.safe_identifier projectId = false
  /\ Spec.lex Spec.Code script_part0 = Spec.InString
  /\ Spec.lex Spec.Code (script_part0 ++ take 1 projectId) = Spec.Code
  /\ take (length (script_part0 ++ projectId)) script = script_part0 ++ projectId
  /\ ~ Spec.inert script
  /\ exists pre post : jsstring,
       Spec.code_text Spec.Code script
       = pre ++ Js.lit "if(O[+alert(1)+])return;" ++ post.
Proof.
  cbv zeta. split; [vm_compute; reflexivity|].
  split; [vm_compute; reflexivity|].
  split; [vm_compute; reflexivity|].
  split; [vm_compute; reflexivity|].
  split.
  - intros H. vm_compute in H. discriminate H.
  - exists (take 72 (Spec.code_text Spec.Code
                      (generateEmbedScript (Js.tpl "'+alert(1)+'")
                         (Js.lit "http://localhost:3000")))).
    exists (drop 96 (Spec.code_text Spec.Code
                      (generateEmbedScript (Js.tpl "'+alert(1)+'")
                         (Js.lit "http://localhost:3000")))).
    vm_compute. reflexivity.
Qed.

(** ** The script server *)

Section ScriptServer.

Context {DB : Type} `{Database DB}.

(** C4.  Whatever the store does, the response of script-serve has
    status 200: the not-found placeholder when the identifier resolves to
    no project, the inactivity placeholder (a different text) when the
    project is not active, the generated script for the stored identifier
    when it is active, and the internal-error placeholder when a statement
    throws. *)
Theorem script_GET_always_succeeds (env : Env) (id : jsstring) (db : DB) :
  let response := fst (script_GET env id db) in
  status response = 200
  /\ match getDatabase db, select_project id db with
     | Ok _, Ok None => body response = script_not_found
     | Ok _, Ok (Some project) =>
         if p_is_active project =? 1
         then body response
              = generateEmbedScript (p_id project)
                  (Js.or_default (NEXT_PUBLIC_APP_URL env) (Js.lit "http://localhost:3000"))
         else body response = script_inactive
     | _, _ => body response = script_internal_error
     end
  /\ script_inactive <> script_not_found
  /\ snd (script_GET env id db) = db.
Proof.
  cbv zeta. unfold script_GET, try_catch, query, mbind, M_bind, mret, M_ret.
  destruct (getDatabase db) as [[]|]; simpl.
  - destruct (select_project id db) as [[project|]|]; simpl.
    + destruct (p_is_active project =? 1); simpl; repeat split; discriminate.
    + repeat split; discriminate.
    + repeat split; discriminate.
  - repeat split; discriminate.
Qed.

End ScriptServer.

(** ** The tracking collector *)

Section TrackingResponse.

Context {DB : Type} `{Database DB}.

(** The three responses of the route. *)
Lemma track_GET_response (env : Env) (request : Request) (db : DB) :
  fst (track_GET env request db) = pixel_rejected
  \/ fst (track_GET env request db) = pixel_recorded
  \/ fst (track_GET env request db) = pixel_internal_error.
Proof.
  unfold track_GET, try_catch, query, exec, mbind, M_bind, mret, M_ret.
  destruct (_ || _); [left; reflexivity|].
  destruct (negb _); [left; reflexivity|].
  destruct (getDatabase db) as [[]|]; simpl; [|right; right; reflexivity].
  destruct (select_project _ db) as [[project|]|]; simpl;
    [|left; reflexivity|right; right; reflexivity].
  destruct (insert_event _ db); simpl;
    [right; left; reflexivity|right; right; reflexivity].
Qed.

(** Closes a guard one of whose operands is already known to be falsy. *)
Ltac guard_false :=
  simpl;
  repeat match goal with
         | |- context [Js.truthy ?x] => destruct (Js.truthy x)
         end;
  reflexivity.

(** A parameter with the empty string as value stops the call at the
    first guard, before the store is touched. *)
Lemma track_GET_unsupplied (env : Env) (request : Request) (db : DB) :
  Js.truthy (get (Js.lit "v") (searchParams request))
  && Js.truthy (get (Js.lit "p") (searchParams request))
  && Js.truthy (get (Js.lit "var") (searchParams request)) = false ->
  track_GET env request db = (pixel_rejected, db).
Proof.
  intros Hg. unfold track_GET, try_catch.
  destruct (Js.truthy (get (Js.lit "v") (searchParams request)));
    destruct (Js.truthy (get (Js.lit "p") (searchParams request)));
    destruct (Js.truthy (get (Js.lit "var") (searchParams request)));
    try discriminate Hg; reflexivity.
Qed.

Lemma get_without (name : jsstring) (l : list (jsstring * jsstring)) :
  get name (filter (fun kv => fst kv ≠ name) l) = None.
Proof.
  unfold get. induction l as [|[k v] l IH]; [reflexivity|].
  rewrite filter_cons. simpl. destruct (decide (k ≠ name)) as [Hk|Hk]; [|exact IH].
  simpl. rewrite bool_decide_eq_false_2 by exact Hk. exact IH.
Qed.

(** C6.  On every path of the tracking route (recorded, parameter
    missing, label invalid, project unknown, a statement throwing) the
    response has status 200, carries the fixed payload, and has a
    [no-cache] directive in its [Cache-Control] header; the payload is the
    42-byte GIF89a image of width 1 and height 1. *)
Theorem track_GET_always_pixel (env : Env) (request : Request) (db : DB) :
  let response := fst (track_GET env request db) in
  status response = 200
  /\ body response = PIXEL
  /\ Spec.do_not_cache response = true
  /\ PIXEL = [71; 73; 70; 56; 57; 97; 1; 0; 1; 0; 128; 0; 0; 0; 0; 0; 255; 255;
              255; 33; 249; 4; 1; 0; 0; 0; 0; 44; 0; 0; 0; 0; 1; 0; 1; 0; 0; 2;
              1; 68; 0; 59].
Proof.
  cbv zeta.
  destruct (track_GET_response env request db) as [-> | [-> | ->]];
    (split; [reflexivity|]); (split; [reflexivity|]);
    (split; [vm_compute; reflexivity|]); vm_compute; reflexivity.
Qed.

(** C10.  A call in which [v], [p] or [var] is present with the empty
    string as its value is treated as the call without that parameter:
    both return the rejection response with status 200 and leave the
    store as it was, so no row is created. *)
Theorem track_GET_empty_parameter
    (env : Env) (request : Request) (db : DB) (name : jsstring) :
  name ∈ [Js.lit "v"; Js.lit "p"; Js.lit "var"] ->
  get name (searchParams request) = Some [] ->
  track_GET env request db = track_GET env (Spec.without name request) db
  /\ track_GET env request db = (pixel_rejected, db)
  /\ status (fst (track_GET env request db)) = 200
  /\ body (fst (track_GET env request db)) = PIXEL.
Proof.
  intros Hname Hget.
  assert (E1 : track_GET env request db = (pixel_rejected, db)).
  { apply track_GET_unsupplied.
    apply elem_of_cons in Hname as [-> | Hname]; [rewrite Hget; guard_false|].
    apply elem_of_cons in Hname as [-> | Hname]; [rewrite Hget; guard_false|].
    apply list_elem_of_singleton in Hname as ->.
    rewrite Hget; guard_false. }
  assert (E2 : track_GET env (Spec.without name request) db = (pixel_rejected, db)).
  { apply track_GET_unsupplied. unfold Spec.without. simpl.
    apply elem_of_cons in Hname as [-> | Hname]; [rewrite get_without; guard_false|].
    apply elem_of_cons in Hname as [-> | Hname]; [rewrite get_without; guard_false|].
    apply list_elem_of_singleton in Hname as ->.
    rewrite get_without; guard_false. }
  rewrite E1, E2. repeat split.
Qed.

End TrackingResponse.

Section TrackingStore.

Import Spec.

Lemma existsb_bool_decide {A} `{EqDecision A} (l : list A) (v : A) :
  existsb (fun x => bool_decide (x = v)) l = bool_decide (v ∈ l).
Proof.
  induction l as [|x l IH]; cbn [existsb].
  - symmetry. apply bool_decide_eq_false_2. apply not_elem_of_nil.
  - rewrite IH. destruct (decide (x = v)) as [->|Hne].
    + rewrite bool_decide_eq_true_2 by reflexivity.
      symmetry. apply bool_decide_eq_true_2. left.
    + rewrite bool_decide_eq_false_2 by exact Hne. cbn [orb].
      apply bool_decide_ext. rewrite elem_of_cons.
      split; [intros Hin; right; exact Hin | intros [E | Hin]; [congruence | exact Hin]].
Qed.

Lemma truthy_supplied (x : option jsstring) : Js.truthy x = supplied x.
Proof. destruct x as [[|c s]|]; reflexivity. Qed.

Lemma or_null_header (name : string) (request : Request) :
  Js.or_null (get (Js.lit name) (req_headers request)) = header_or_null name request.
Proof.
  unfold header_or_null, Js.or_null.
  destruct (get (Js.lit name) (req_headers request)) as [[|c s]|]; reflexivity.
Qed.

Lemma isValidVariation_closed_set (v : jsstring) : isValidVariation v = closed_set v.
Proof. unfold isValidVariation, Js.includes. apply existsb_bool_decide. Qed.

Lemma find_has_project (id : jsstring) (db : Db) :
  has_project id db = present (find (fun p => bool_decide (p_id p = id)) (projects db)).
Proof.
  unfold has_project. induction (projects db) as [|p l IH]; [reflexivity|].
  simpl. destruct (bool_decide (p_id p = id)); [reflexivity | exact IH].
Qed.

Lemma event_id_in_use (row : EventRow) (db : Db) :
  existsb (fun e => bool_decide (e_id e = e_id row)) (visitor_events db)
  = bool_decide (e_id row ∈ map e_id (visitor_events db)).
Proof.
  rewrite <- existsb_bool_decide.
  induction (visitor_events db) as [|e l IH]; [reflexivity|].
  cbn [existsb map]. rewrite IH. reflexivity.
Qed.

(** The insert on a store that knows the project, for a label of the
    closed set: it fails only on an identifier already in use. *)
Lemma sqlite_insert_known (row : EventRow) (db : Db) :
  closed_set (e_variation row) = true ->
  has_project (e_project_id row) db = true ->
  sqlite_insert_event row db
  = if bool_decide (e_id row ∈ map e_id (visitor_events db)) then Throw
    else Ok (append_event row db).
Proof.
  intros Hv Hp. unfold sqlite_insert_event.
  rewrite event_id_in_use.
  destruct (bool_decide (e_id row ∈ map e_id (visitor_events db))); [reflexivity|].
  change (check_variation (e_variation row)) with (closed_set (e_variation row)).
  rewrite Hv, Hp. simpl. rewrite andb_false_r. reflexivity.
Qed.

Lemma append_changes (db : Db) (row : EventRow) :
  visitor_events db ++ [row] <> visitor_events db.
Proof.
  intros E. apply (f_equal length) in E. rewrite length_app in E. simpl in E. lia.
Qed.

(** The store after a tracking call. *)
Lemma track_GET_store (env : Env) (request : Request) (db : Db) :
  snd (track_GET env request db)
  = if recorded env request db
    then append_event (tracked_row env request) db
    else db.
Proof.
  unfold track_GET, try_catch, recorded, tracked_row, param.
  rewrite !truthy_supplied, !or_null_header.
  destruct (supplied (get (Js.lit "v") (searchParams request))); [|reflexivity].
  destruct (supplied (get (Js.lit "p") (searchParams request))); [|reflexivity].
  destruct (supplied (get (Js.lit "var") (searchParams request))); [|reflexivity].
  simpl negb. cbv zeta. unfold Js.narrowed.
  rewrite isValidVariation_closed_set.
  destruct (closed_set (default [] (get (Js.lit "var") (searchParams request))))
    eqn:Hvar; [|reflexivity].
  unfold query, exec, mbind, M_bind, mret, M_ret. simpl.
  rewrite find_has_project.
  destruct (find _ (projects db)) as [project|] eqn:Hfind; [|reflexivity].
  simpl. rewrite sqlite_insert_known.
  - unfold event_id; simpl.
    destruct (bool_decide (_ ∈ map e_id (visitor_events db))); reflexivity.
  - exact Hvar.
  - simpl. rewrite find_has_project, Hfind. reflexivity.
Qed.

End TrackingStore.

(** C5, as worded, fails: in the call [?v=&p=proj_1&var=A] the three
    parameters are present, the label is in the closed set and the project
    exists, yet the empty visitor identifier stops the call at the first
    guard and no row is appended. *)
Lemma track_GET_empty_visitor_not_recorded :
  ~ Spec.recorded_iff_present Example.env (Example.beacon "" "proj_1" "A") Example.store.
Proof.
  unfold Spec.recorded_iff_present. intros [_ Hclaim].
  destruct Hclaim as [row Hrow]; [vm_compute; reflexivity|].
  rewrite track_GET_store in Hrow.
  change (Spec.recorded Example.env (Example.beacon "" "proj_1" "A") Example.store)
    with false in Hrow.
  symmetry in Hrow. exact (append_changes _ _ Hrow).
Qed.

(** C5, amended.  A tracking call appends exactly one row if and only if
    [v], [p] and [var] are supplied (present and not empty), [var] is one
    of A, B, C, D, a project with identifier [p] exists, and the store
    takes the insert (the generated event identifier is not in use).  The
    row carries the visitor id, project id and label of the request, the
    time of the call, and the user-agent and referer headers when supplied
    ([null] otherwise).  In every other case the store is left as it
    was.  The projects are never touched. *)
Theorem track_GET_records (env : Env) (request : Request) (db : Db) :
  let db' := snd (track_GET env request db) in
  db' = (if Spec.recorded env request db
         then Spec.append_event (Spec.tracked_row env request) db
         else db)
  /\ (Spec.one_row_appended db db' <-> Spec.recorded env request db = true)
  /\ projects db' = projects db.
Proof.
  cbv zeta. rewrite track_GET_store.
  destruct (Spec.recorded env request db); split; try reflexivity; split;
    try reflexivity.
  - split; [reflexivity|]. intros _. eexists. reflexivity.
  - split; [|discriminate]. intros [row Hrow]. symmetry in Hrow.
    destruct (append_changes _ _ Hrow).
Qed.

(** A recorded call and a rejected one, evaluated. *)
Lemma track_GET_records_example :
  visitor_events (snd (track_GET Example.env (Example.beacon "v_9" "proj_1" "D")
                         Example.store))
  = visitor_events Example.store
    ++ [{| e_id := Js.lit "evt_V1StGXR8_Z5j";
           e_project_id := Js.lit "proj_1";
           e_visitor_id := Js.lit "v_9";
           e_variation := Js.lit "D";
           e_timestamp := Js.lit "2024-01-02T00:00:00.000Z";
           e_user_agent := Some (Js.lit "Mozilla/5.0");
           e_referrer := None |}]
  /\ snd (track_GET Example.env (Example.beacon "v_9" "proj_1" "Z") Example.store)
     = Example.store.
Proof.
  split.
  - rewrite (proj1 (track_GET_records Example.env
                      (Example.beacon "v_9" "proj_1" "D") Example.store)).
    vm_compute. reflexivity.
  - rewrite (proj1 (track_GET_records Example.env
                      (Example.beacon "v_9" "proj_1" "Z") Example.store)).
    vm_compute. reflexivity.
Defined.

(** ** The stats aggregator *)

Section Aggregator.

Import Spec.

Lemma closed_set_cases (v : jsstring) :
  check_variation v = true ->
  v = Js.lit "A" \/ v = Js.lit "B" \/ v = Js.lit "C" \/ v = Js.lit "D".
Proof.
  unfold check_variation. intros Hv. apply bool_decide_eq_true_1 in Hv.
  repeat (apply elem_of_cons in Hv as [Hv | Hv]; [tauto|]).
  apply elem_of_nil in Hv. destruct Hv.
Qed.

(** A label of the closed set is an own key once it is in the object, and
    the assignment stores the count under it. *)
Lemma stats_step_closed (acc : Stats) (v : jsstring) (n : Z) :
  check_variation v = true ->
  is_Some (variationCounts acc !! v) ->
  stats_step acc {| s_variation := v; s_count := n |}
  = {| totalVisitors := totalVisitors acc + n;
       variationCounts := <[v := n]> (variationCounts acc) |}.
Proof.
  intros Hv Hin. unfold stats_step, js_in, js_set. simpl.
  rewrite bool_decide_eq_true_2 by exact Hin. simpl.
  destruct (closed_set_cases v Hv) as [-> | [-> | [-> | ->]]]; reflexivity.
Qed.

Lemma sum4_insert (m : gmap jsstring Z) (v : jsstring) (n : Z) :
  check_variation v = true ->
  m !! v = Some 0 ->
  sum4 (<[v := n]> m) = sum4 m + n.
Proof.
  intros Hv Hm. unfold sum4.
  destruct (closed_set_cases v Hv) as [-> | [-> | [-> | ->]]];
    rewrite Hm, lookup_insert_eq, !lookup_insert_ne by discriminate; simpl; lia.
Qed.

(** The loop over the rows of the grouped query, one row per label. *)
Lemma aggregate_fold (c : jsstring -> Z) (ls : list jsstring) :
  NoDup ls ->
  Forall (fun v => check_variation v = true) ls ->
  forall acc : Stats,
    (forall v, v ∈ ls -> variationCounts acc !! v = Some 0) ->
    totalVisitors acc = sum4 (variationCounts acc) ->
    let acc' := fold_left stats_step
                  (map (fun v => {| s_variation := v; s_count := c v |}) ls) acc in
    totalVisitors acc' = sum4 (variationCounts acc')
    /\ (forall v, v ∈ ls -> variationCounts acc' !! v = Some (c v))
    /\ (forall v, v ∉ ls -> variationCounts acc' !! v = variationCounts acc !! v).
Proof.
  induction ls as [|v ls IH]; intros Hnd Hok acc Hzero Htot; simpl.
  - split; [exact Htot|]. split; [|reflexivity].
    intros v Hv. apply elem_of_nil in Hv. destruct Hv.
  - apply NoDup_cons in Hnd as [Hv Hnd]. apply Forall_cons in Hok as [Hvok Hok].
    assert (Hv0 : variationCounts acc !! v = Some 0) by (apply Hzero; left).
    rewrite stats_step_closed by (rewrite ?Hv0; eauto).
    destruct (IH Hnd Hok
                {| totalVisitors := totalVisitors acc + c v;
                   variationCounts := <[v := c v]> (variationCounts acc) |})
      as (Ht & Hin & Hout).
    + intros w Hw. simpl. rewrite lookup_insert_ne by (intros ->; exact (Hv Hw)).
      apply Hzero. right. exact Hw.
    + simpl. rewrite sum4_insert by assumption. lia.
    + split; [exact Ht|]. split.
      * intros w Hw. apply elem_of_cons in Hw as [-> | Hw]; [|apply Hin, Hw].
        rewrite (Hout v Hv). simpl. apply lookup_insert_eq.
      * intros w Hw. apply not_elem_of_cons in Hw as [Hne Hw].
        rewrite (Hout w Hw). simpl. apply lookup_insert_ne. congruence.
Qed.

Lemma filter_filter_length (id label : jsstring) (l : list EventRow) :
  length (filter (fun e => e_variation e = label) (filter (fun e => e_project_id e = id) l))
  = length (filter (fun e => e_project_id e = id ∧ e_variation e = label) l).
Proof.
  induction l as [|e l IH]; [reflexivity|].
  rewrite !filter_cons.
  destruct (decide (e_project_id e = id)) as [Hp|Hp].
  - rewrite filter_cons.
    destruct (decide (e_variation e = label)) as [Hl|Hl].
    + rewrite decide_True by tauto. simpl. rewrite IH. reflexivity.
    + rewrite decide_False by tauto. exact IH.
  - rewrite decide_False by tauto. exact IH.
Qed.

Lemma filter_absent_label (label : jsstring) (l : list EventRow) :
  label ∉ map e_variation l ->
  filter (fun e => e_variation e = label) l = [].
Proof.
  induction l as [|e l IH]; [reflexivity|]. simpl. intros Hn.
  apply not_elem_of_cons in Hn as [Hne Hn].
  rewrite filter_cons, decide_False by congruence. apply IH, Hn.
Qed.

Lemma check_ok_labels (id : jsstring) (db : Db) :
  check_ok db ->
  Forall (fun v => check_variation v = true)
         (remove_dups (map e_variation (events_of id db))).
Proof.
  unfold check_ok, events_of. intros Hok. apply Forall_forall. intros v Hv.
  apply elem_of_remove_dups, list_elem_of_In, in_map_iff in Hv as (e & <- & He).
  apply list_elem_of_In, list_elem_of_filter in He as [_ He].
  rewrite Forall_forall in Hok. apply Hok, He.
Qed.

(** The result of the aggregation over the grouped rows of a project. *)
Lemma aggregate_group_count (id : jsstring) (db : Db) :
  check_ok db ->
  let result := aggregate (group_count (events_of id db)) in
  (forall label, label ∈ [Js.lit "A"; Js.lit "B"; Js.lit "C"; Js.lit "D"] ->
     variationCounts result !! label = Some (count_events id label db))
  /\ totalVisitors result = sum4 (variationCounts result).
Proof.
  intros Hok. cbv zeta. unfold aggregate, group_count.
  pose proof (check_ok_labels id db Hok) as Hlabels.
  destruct (aggregate_fold
              (fun v => Z.of_nat (length (filter (fun e => e_variation e = v)
                                            (events_of id db))))
              (remove_dups (map e_variation (events_of id db)))
              (NoDup_remove_dups _) Hlabels stats_init) as (Ht & Hin & Hout).
  - intros v Hv. rewrite Forall_forall in Hlabels.
    destruct (closed_set_cases v (Hlabels v Hv)) as [-> | [-> | [-> | ->]]];
      vm_compute; reflexivity.
  - vm_compute. reflexivity.
  - split; [|exact Ht].
    intros label Hlabel. unfold count_events. rewrite <- filter_filter_length.
    fold (events_of id db).
    destruct (decide (label ∈ remove_dups (map e_variation (events_of id db))))
      as [Hl|Hl].
    + apply Hin, Hl.
    + rewrite (Hout label Hl).
      rewrite filter_absent_label by (rewrite <- elem_of_remove_dups; exact Hl).
      repeat (apply elem_of_cons in Hlabel as [-> | Hlabel]; [vm_compute; reflexivity|]).
      apply elem_of_nil in Hlabel. destruct Hlabel.
Qed.

End Aggregator.

Section ProjectRoute.

Import Spec.

Lemma project_GET_known (env : Env) (id : jsstring) (db : Db) (project : ProjectRow) :
  find (fun p => bool_decide (p_id p = id)) (projects db) = Some project ->
  fst (project_GET env id db)
  = json (ProjectDetail (p_id project) (p_name project) (p_domain project)
            (p_description project) (p_is_active project =? 1)
            (p_created_at project) (p_updated_at project)
            (generateEmbedCode (p_id project)
               (Js.or_default (NEXT_PUBLIC_APP_URL env) (Js.lit "http://localhost:3000")))
            (aggregate (group_count (events_of id db)))) 200.
Proof.
  intros Hfind.
  unfold project_GET, try_catch, query, mbind, M_bind, mret, M_ret. simpl.
  rewrite Hfind. reflexivity.
Qed.

Lemma project_GET_unknown (env : Env) (id : jsstring) (db : Db) :
  has_project id db = false ->
  fst (project_GET env id db) = json (ErrorBody (Js.lit "Project not found")) 404.
Proof.
  rewrite find_has_project. intros Hfind.
  unfold project_GET, try_catch, query, mbind, M_bind, mret, M_ret. simpl.
  destruct (find _ (projects db)); [discriminate Hfind | reflexivity].
Qed.

(** C7.  For an existing project, in a store whose rows satisfy the
    [CHECK] constraint of the table, the stats route answers with status
    200 and a result in which each of A, B, C, D is present and mapped to
    the number of the project's event rows with that label (zero when
    there is none), and whose total is the sum of the four counts.  For
    the three events A, A, B of the example store this is total 3, A 2,
    B 1, C 0, D 0. *)
Theorem project_GET_stats (env : Env) (id : jsstring) (db : Db) :
  has_project id db = true ->
  check_ok db ->
  let response := fst (project_GET env id db) in
  status response = 200
  /\ exists stats : Stats,
       stats_of (body response) = Some stats
       /\ (forall label,
             label ∈ [Js.lit "A"; Js.lit "B"; Js.lit "C"; Js.lit "D"] ->
             variationCounts stats !! label = Some (count_events id label db))
       /\ totalVisitors stats
          = count_events id (Js.lit "A") db + count_events id (Js.lit "B") db
            + count_events id (Js.lit "C") db + count_events id (Js.lit "D") db.
Proof.
  intros Hp Hok. cbv zeta.
  rewrite find_has_project in Hp.
  destruct (find (fun p => bool_decide (p_id p = id)) (projects db))
    as [project|] eqn:Hfind; [clear Hp | discriminate Hp].
  rewrite (project_GET_known env id db project Hfind).
  split; [reflexivity|].
  exists (aggregate (group_count (events_of id db))).
  destruct (aggregate_group_count id db Hok) as [Hcounts Htotal].
  split; [reflexivity|]. split; [exact Hcounts|].
  rewrite Htotal. unfold sum4.
  rewrite !Hcounts by set_solver.
  reflexivity.
Qed.

Lemma example_store_check_ok : check_ok Example.store.
Proof. unfold check_ok. repeat constructor. Qed.

(** The example of the claim: events A, A, B of [proj_1]. *)
Lemma project_GET_stats_example :
  exists stats : Stats,
    stats_of (body (fst (project_GET Example.env (Js.lit "proj_1") Example.store)))
    = Some stats
    /\ totalVisitors stats = 3
    /\ variationCounts stats !! Js.lit "A" = Some 2
    /\ variationCounts stats !! Js.lit "B" = Some 1
    /\ variationCounts stats !! Js.lit "C" = Some 0
    /\ variationCounts stats !! Js.lit "D" = Some 0.
Proof.
  destruct (project_GET_stats Example.env (Js.lit "proj_1") Example.store
              eq_refl example_store_check_ok)
    as (_ & stats & Hbody & Hcounts & Htotal).
  exists stats. split; [exact Hbody|].
  pose proof (Hcounts (Js.lit "A") ltac:(repeat constructor)) as HA.
  pose proof (Hcounts (Js.lit "B") ltac:(repeat constructor)) as HB.
  pose proof (Hcounts (Js.lit "C") ltac:(repeat constructor)) as HC.
  pose proof (Hcounts (Js.lit "D") ltac:(repeat constructor)) as HD.
  rewrite Htotal, HA, HB, HC, HD. vm_compute. repeat split.
Defined.

(** *** Deleting a project *)

Lemma has_project_removed (id : jsstring) (l : list ProjectRow) :
  existsb (fun p => bool_decide (p_id p = id)) (filter (fun p => p_id p ≠ id) l) = false.
Proof.
  induction l as [|p l IH]; [reflexivity|].
  rewrite filter_cons. destruct (decide (p_id p ≠ id)) as [Hne|He]; [|exact IH].
  simpl. rewrite bool_decide_eq_false_2 by exact Hne. exact IH.
Qed.

Lemma events_removed (id : jsstring) (l : list EventRow) :
  filter (fun e => e_project_id e = id) (filter (fun e => e_project_id e ≠ id) l) = [].
Proof.
  induction l as [|e l IH]; [reflexivity|].
  rewrite filter_cons. destruct (decide (e_project_id e ≠ id)) as [Hne|He]; [|exact IH].
  rewrite filter_cons, decide_False by exact Hne. exact IH.
Qed.

Lemma filter_twice (id : jsstring) (l : list EventRow) :
  filter (fun e => e_project_id e ≠ id) (filter (fun e => e_project_id e ≠ id) l)
  = filter (fun e => e_project_id e ≠ id) l.
Proof.
  induction l as [|e l IH]; [reflexivity|].
  rewrite filter_cons. destruct (decide (e_project_id e ≠ id)) as [Hne|He]; [|exact IH].
  rewrite filter_cons, decide_True by exact Hne. f_equal. exact IH.
Qed.

(** The store after the two [DELETE] statements of the route. *)
Lemma project_DELETE_known (id : jsstring) (db : Db) :
  has_project id db = true ->
  project_DELETE id db
  = (json (SuccessBody true) 200,
     {| projects := filter (fun p => p_id p ≠ id) (projects db);
        visitor_events := filter (fun e => e_project_id e ≠ id) (visitor_events db);
        foreign_keys := foreign_keys db |}).
Proof.
  intros Hp. pose proof Hp as Hfind. rewrite find_has_project in Hfind.
  unfold project_DELETE, try_catch, query, exec, mbind, M_bind, mret, M_ret. simpl.
  destruct (find _ (projects db)) as [project|]; [clear Hfind | discriminate Hfind].
  simpl. unfold sqlite_delete_project, has_project. simpl.
  fold (has_project id db). rewrite Hp, andb_true_r.
  destruct (foreign_keys db); [rewrite filter_twice|]; reflexivity.
Qed.

(** Tracking calls neither create a project nor add a row for an
    identifier that resolves to none. *)
Lemma track_GET_unknown_project (id : jsstring) (env : Env) (request : Request) (db : Db) :
  has_project id db = false ->
  has_project id (snd (track_GET env request db)) = false
  /\ events_of id (snd (track_GET env request db)) = events_of id db.
Proof.
  intros Hp. rewrite track_GET_store.
  destruct (recorded env request db) eqn:Hrec; [|split; [exact Hp | reflexivity]].
  split; [exact Hp|].
  unfold events_of, append_event. simpl. rewrite filter_app, filter_cons, filter_nil.
  change (e_project_id (tracked_row env request)) with (default [] (param "p" request)).
  destruct (decide (default [] (param "p" request) = id)) as [E|Hne];
    [|apply app_nil_r].
  unfold recorded in Hrec. rewrite E, Hp in Hrec.
  rewrite andb_false_r in Hrec. discriminate Hrec.
Qed.

Lemma tracking_calls_unknown_project (id : jsstring) (calls : list (Env * Request)) :
  forall db : Db,
    has_project id db = false ->
    let db' := fold_left (fun d call => snd (track_GET (fst call) (snd call) d)) calls db in
    has_project id db' = false /\ events_of id db' = events_of id db.
Proof.
  induction calls as [|[env request] calls IH]; intros db Hp; simpl.
  - split; [exact Hp | reflexivity].
  - destruct (track_GET_unknown_project id env request db Hp) as [Hp' He'].
    destruct (IH _ Hp') as [Hp'' He'']. simpl in Hp'', He''.
    split; [exact Hp'' | rewrite He''; exact He'].
Qed.

(** C8.  Deleting an existing project answers success, leaves no event
    row that references the project (the rows of other projects stay),
    and removes the project; from then on the stats route answers with
    the not-found error and status 404 for that identifier, also after
    any number of tracking calls, which add no row for it. *)
Theorem project_DELETE_cascades (id : jsstring) (db : Db) :
  has_project id db = true ->
  let response := fst (project_DELETE id db) in
  let db' := snd (project_DELETE id db) in
  status response = 200
  /\ body response = SuccessBody true
  /\ Forall (fun e => e_project_id e ≠ id) (visitor_events db')
  /\ visitor_events db' = filter (fun e => e_project_id e ≠ id) (visitor_events db)
  /\ has_project id db' = false
  /\ forall (calls : list (Env * Request)) (env : Env),
       let db'' := fold_left (fun d call => snd (track_GET (fst call) (snd call) d))
                     calls db' in
       events_of id db'' = []
       /\ fst (project_GET env id db'')
          = json (ErrorBody (Js.lit "Project not found")) 404.
Proof.
  intros Hp. cbv zeta. rewrite (project_DELETE_known id db Hp). simpl.
  split; [reflexivity|]. split; [reflexivity|].
  split; [apply Forall_forall; intros e He; apply list_elem_of_filter in He; tauto|].
  split; [reflexivity|].
  assert (Hgone : has_project id
                    {| projects := filter (fun p => p_id p ≠ id) (projects db);
                       visitor_events :=
                         filter (fun e => e_project_id e ≠ id) (visitor_events db);
                       foreign_keys := foreign_keys db |} = false)
    by apply has_project_removed.
  split; [exact Hgone|].
  intros calls env.
  destruct (tracking_calls_unknown_project id calls _ Hgone) as [Hp' He'].
  simpl in Hp', He'. split.
  - rewrite He'. apply events_removed.
  - apply project_GET_unknown, Hp'.
Qed.

Lemma project_DELETE_example :
  visitor_events (snd (project_DELETE (Js.lit "proj_1") Example.store))
  = [Example.event "evt_2" "proj_2" "v_1" "C"]
  /\ status (fst (project_GET Example.env (Js.lit "proj_1")
                    (snd (project_DELETE (Js.lit "proj_1") Example.store)))) = 404.
Proof.
  destruct (project_DELETE_cascades (Js.lit "proj_1") Example.store eq_refl)
    as (_ & _ & _ & Hrows & _ & Hafter).
  split.
  - rewrite Hrows. reflexivity.
  - exact (f_equal status (proj2 (Hafter [] Example.env))).
Defined.

End ProjectRoute.

(** ** Evaluation on the example store *)

(** The four paths of script-serve: unknown, inactive, active, and a store
    that throws. *)
Lemma script_GET_paths_example :
  body (fst (script_GET Example.env (Js.lit "proj_9") Example.store)) = script_not_found
  /\ body (fst (script_GET Example.env (Js.lit "proj_2") Example.store)) = script_inactive
  /\ body (fst (script_GET Example.env (Js.lit "proj_1") Example.store))
     = generateEmbedScript (Js.lit "proj_1") (Js.lit "http://localhost:3000")
  /\ fst (script_GET (H := broken) Example.env (Js.lit "proj_1") Example.store)
     = {| status := 200;
          headers := [(Js.lit "Content-Type", Js.lit "application/javascript");
                      (Js.lit "Cache-Control", Js.lit "no-cache")];
          body := script_internal_error |}.
Proof.
  pose proof (script_GET_always_succeeds (H := sqlite) Example.env (Js.lit "proj_9")
                Example.store) as (_ & H9 & _).
  pose proof (script_GET_always_succeeds (H := sqlite) Example.env (Js.lit "proj_2")
                Example.store) as (_ & H2 & _).
  pose proof (script_GET_always_succeeds (H := sqlite) Example.env (Js.lit "proj_1")
                Example.store) as (_ & H1 & _).
  pose proof (script_GET_always_succeeds (H := broken) Example.env (Js.lit "proj_1")
                Example.store) as (Hs & Hb & _).
  split; [exact H9|]. split; [exact H2|]. split; [exact H1|].
  vm_compute. reflexivity.
Defined.

(** The tracking route on a store that throws, and on a rejected label. *)
Lemma track_GET_paths_example :
  fst (track_GET (H := broken) Example.env (Example.beacon "v_9" "proj_1" "A")
         Example.store) = pixel_internal_error
  /\ Spec.do_not_cache pixel_internal_error = true
  /\ fst (track_GET Example.env (Example.beacon "v_9" "proj_1" "Z") Example.store)
     = pixel_rejected
  /\ status (fst (track_GET Example.env (Example.beacon "v_9" "proj_1" "Z")
                    Example.store)) = 200.
Proof.
  pose proof (track_GET_always_pixel (H := sqlite) Example.env
                (Example.beacon "v_9" "proj_1" "Z") Example.store) as (Hs & _).
  split; [vm_compute; reflexivity|].
  split; [vm_compute; reflexivity|].
  split; [vm_compute; reflexivity|].
  exact Hs.
Defined.

(** An empty [p] against the same call without [p]. *)
Lemma track_GET_empty_parameter_example :
  Js.lit "p" ∈ [Js.lit "v"; Js.lit "p"; Js.lit "var"]
  /\ get (Js.lit "p") (searchParams (Example.beacon "v_9" "" "A")) = Some []
  /\ track_GET Example.env (Example.beacon "v_9" "" "A") Example.store
     = track_GET Example.env (Spec.without (Js.lit "p") (Example.beacon "v_9" "" "A"))
         Example.store
  /\ snd (track_GET Example.env (Example.beacon "v_9" "" "A") Example.store)
     = Example.store.
Proof.
  assert (Hname : Js.lit "p" ∈ [Js.lit "v"; Js.lit "p"; Js.lit "var"])
    by (right; left).
  assert (Hget : get (Js.lit "p") (searchParams (Example.beacon "v_9" "" "A")) = Some [])
    by reflexivity.
  destruct (track_GET_empty_parameter (H := sqlite) Example.env
              (Example.beacon "v_9" "" "A") Example.store (Js.lit "p") Hname Hget)
    as (Hsame & Hrej & _).
  split; [exact Hname|]. split; [exact Hget|]. split; [exact Hsame|].
  rewrite Hrej. reflexivity.
Defined.

(** ** The [CHECK] constraint is an invariant of the routes *)

Section Invariant.

Import Spec.

Lemma track_GET_check_ok (env : Env) (request : Request) (db : Db) :
  check_ok db -> check_ok (snd (track_GET env request db)).
Proof.
  intros Hok. rewrite track_GET_store.
  destruct (recorded env request db) eqn:Hrec; [|exact Hok].
  unfold check_ok, append_event. simpl. apply Forall_app. split; [exact Hok|].
  constructor; [|constructor].
  unfold recorded in Hrec. repeat (apply andb_prop in Hrec as [Hrec ?]).
  assumption.
Qed.

Lemma project_DELETE_check_ok (id : jsstring) (db : Db) :
  check_ok db -> check_ok (snd (project_DELETE id db)).
Proof.
  intros Hok. destruct (has_project id db) eqn:Hp.
  - rewrite (project_DELETE_known id db Hp). unfold check_ok. simpl.
    apply Forall_forall. intros e He. apply list_elem_of_filter in He as [_ He].
    unfold check_ok in Hok. rewrite Forall_forall in Hok. apply Hok, He.
  - rewrite find_has_project in Hp.
    unfold project_DELETE, try_catch, query, mbind, M_bind, mret, M_ret. simpl.
    destruct (find _ (projects db)); [discriminate Hp | exact Hok].
Qed.

End Invariant.

(** ** The order of the grouped rows does not matter *)

Section RowOrder.

Import Spec.

(** SQL leaves the order of the groups open; the loop gives the same
    result for every order of the rows of the grouped query. *)
Lemma aggregate_any_order (id : jsstring) (db : Db) (rows : list StatRow) :
  check_ok db ->
  Permutation rows (group_count (events_of id db)) ->
  aggregate rows = aggregate (group_count (events_of id db)).
Proof.
  intros Hok Hperm. unfold group_count in *.
  set (c := fun v => Z.of_nat (length (filter (fun e => e_variation e = v)
                                         (events_of id db)))) in *.
  set (ls := remove_dups (map e_variation (events_of id db))) in *.
  apply Permutation_map_inv in Hperm as (ls' & -> & Hls).
  assert (Hnd : NoDup ls) by apply NoDup_remove_dups.
  assert (Hall : Forall (fun v => check_variation v = true) ls)
    by apply check_ok_labels, Hok.
  assert (Hinit : forall l : list jsstring,
            Forall (fun v => check_variation v = true) l ->
            forall v, v ∈ l -> variationCounts stats_init !! v = Some 0).
  { intros l Hl v Hv. rewrite Forall_forall in Hl.
    destruct (closed_set_cases v (Hl v Hv)) as [-> | [-> | [-> | ->]]];
      vm_compute; reflexivity. }
  assert (Hnd' : NoDup ls') by (rewrite <- Hls; exact Hnd).
  assert (Hall' : Forall (fun v => check_variation v = true) ls')
    by (rewrite <- Hls; exact Hall).
  destruct (aggregate_fold c ls Hnd Hall stats_init (Hinit ls Hall) eq_refl)
    as (Ht & Hin & Hout).
  destruct (aggregate_fold c ls' Hnd' Hall' stats_init (Hinit ls' Hall') eq_refl)
    as (Ht' & Hin' & Hout').
  unfold aggregate.
  assert (Hmap : variationCounts
                   (fold_left stats_step
                      (map (fun v => {| s_variation := v; s_count := c v |}) ls')
                      stats_init)
                 = variationCounts
                     (fold_left stats_step
                        (map (fun v => {| s_variation := v; s_count := c v |}) ls)
                        stats_init)).
  { apply map_eq. intros k. destruct (decide (k ∈ ls)) as [Hk|Hk].
    - rewrite (Hin k Hk). apply Hin'. rewrite <- Hls. exact Hk.
    - rewrite (Hout k Hk). apply Hout'. rewrite <- Hls. exact Hk. }
  destruct (fold_left stats_step (map _ ls') stats_init) as [t' m'].
  destruct (fold_left stats_step (map _ ls) stats_init) as [t m].
  simpl in *. subst m'. f_equal. congruence.
Qed.

End RowOrder.

(** * Further properties of the code *)

(** ** The bucket of a key *)

Section Bucket.

(** The low two bits of the accumulator: 33 is 1 modulo 4, so a step only
    XORs the low two bits of the character into them. *)
Definition low2_step (a c : Z) : Z := Z.lxor a (c mod 4).

Lemma mod_2_32_mod_4 (x : Z) : (x mod 2^32) mod 4 = x mod 4.
Proof.
  apply Z.mod_mod_divide. exists (2^30). reflexivity.
Qed.

Lemma djb2_step_low2 (u c : Z) :
  Spec.djb2_step u c mod 4 = low2_step (u mod 4) c.
Proof.
  unfold Spec.djb2_step, low2_step. rewrite mod_2_32_mod_4.
  change 4 with (2^2). rewrite lxor_mod_pow2 by lia. f_equal.
  change (2^2) with 4. rewrite Zmult_mod. change (33 mod 4) with 1.
  rewrite Z.mul_1_r. apply Z.mod_mod. lia.
Qed.

Lemma djb2_fold_low2 (s : jsstring) : forall u : Z,
  fold_left Spec.djb2_step s u mod 4 = fold_left low2_step s (u mod 4).
Proof.
  induction s as [|c s IH]; intros u; [reflexivity|].
  simpl. rewrite IH, djb2_step_low2. reflexivity.
Qed.

Lemma hashString_low2 (s : jsstring) :
  hashString s mod 4 = fold_left low2_step s 1.
Proof.
  rewrite hashString_refines. unfold Spec.djb2_u32.
  rewrite mod_2_32_mod_4, djb2_fold_low2. reflexivity.
Qed.

Lemma low2_step_swap (a x y : Z) :
  low2_step (low2_step a x) y = low2_step (low2_step a y) x.
Proof.
  unfold low2_step. rewrite !Z.lxor_assoc. f_equal. apply Z.lxor_comm.
Qed.

Lemma low2_fold_perm (s t : jsstring) :
  Permutation s t -> forall a, fold_left low2_step s a = fold_left low2_step t a.
Proof.
  induction 1 as [|x s t _ IH|x y s|s t u _ IH1 _ IH2]; intros a; simpl.
  - reflexivity.
  - apply IH.
  - rewrite low2_step_swap. reflexivity.
  - rewrite IH1. apply IH2.
Qed.

Lemma assignVariation_low2 (visitorId projectId : jsstring) :
  assignVariation visitorId projectId
  = Js.index variations
      (fold_left low2_step (visitorId ++ Js.lit ":" ++ projectId) 1).
Proof.
  unfold assignVariation. cbv zeta.
  pose proof (hashString_range (visitorId ++ Js.lit ":" ++ projectId)) as Hr.
  destruct (rem4_bucket (hashString (visitorId ++ Js.lit ":" ++ projectId)))
    as [-> _]; [lia|].
  rewrite hashString_low2. reflexivity.
Qed.

(** X1.  The bucket [hashString(s) % 4] is 1 XOR the low two bits of
    every code unit of [s]: it does not depend on the higher bits of the
    characters. *)
Theorem hashString_bucket_is_xor_of_low_bits (s : jsstring) :
  Js.rem (hashString s) 4 = fold_left (fun a c => Z.lxor a (c mod 4)) s 1
  /\ forall t : jsstring,
       map (fun c => c mod 4) s = map (fun c => c mod 4) t ->
       Js.rem (hashString s) 4 = Js.rem (hashString t) 4.
Proof.
  assert (Hrem : forall k, Js.rem (hashString k) 4 = fold_left low2_step k 1).
  { intros k. pose proof (hashString_range k) as Hr.
    destruct (rem4_bucket (hashString k)) as [-> _]; [lia|].
    apply hashString_low2. }
  split; [apply Hrem|].
  intros t Hst. rewrite !Hrem.
  assert (Hfold : forall k a,
            fold_left low2_step k a
            = fold_left Z.lxor (map (fun c => c mod 4) k) a).
  { induction k as [|c k IH]; intros a; [reflexivity | simpl; apply IH]. }
  rewrite !Hfold, Hst. reflexivity.
Qed.

(** X2.  The variation does not depend on the order of the characters of
    the key [visitorId:projectId]: two pairs whose keys are permutations
    of each other are assigned the same variation. *)
Theorem assignVariation_permutation (visitorId projectId visitorId' projectId' : jsstring) :
  Permutation (visitorId ++ Js.lit ":" ++ projectId)
              (visitorId' ++ Js.lit ":" ++ projectId') ->
  assignVariation visitorId projectId = assignVariation visitorId' projectId'.
Proof.
  intros Hperm. rewrite !assignVariation_low2.
  f_equal. apply low2_fold_perm, Hperm.
Qed.

Lemma assignVariation_permutation_example :
  Permutation (Js.lit "v_abc" ++ Js.lit ":" ++ Js.lit "proj_1")
              (Js.lit "v_cab" ++ Js.lit ":" ++ Js.lit "proj_1")
  /\ assignVariation (Js.lit "v_abc") (Js.lit "proj_1")
     = assignVariation (Js.lit "v_cab") (Js.lit "proj_1").
Proof.
  assert (Hperm : Permutation (Js.lit "v_abc" ++ Js.lit ":" ++ Js.lit "proj_1")
                              (Js.lit "v_cab" ++ Js.lit ":" ++ Js.lit "proj_1")).
  { apply Permutation_app_tail. vm_compute.
    do 2 apply perm_skip.
    apply perm_trans with (l' := [97; 99; 98]); [|apply perm_swap].
    apply perm_skip. apply perm_swap. }
  split; [exact Hperm|].
  apply (assignVariation_permutation _ _ _ _ Hperm).
Defined.

(** X3.  The separator does not keep the two identifiers apart: the pair
    is assigned the variation of the pair with the identifiers exchanged,
    and a colon inside an identifier can be read on either side. *)
Theorem assignVariation_ignores_roles (visitorId projectId extra : jsstring) :
  assignVariation visitorId projectId = assignVariation projectId visitorId
  /\ assignVariation (visitorId ++ Js.lit ":" ++ extra) projectId
     = assignVariation visitorId (extra ++ Js.lit ":" ++ projectId).
Proof.
  split.
  - rewrite !assignVariation_low2. f_equal. apply low2_fold_perm.
    etransitivity; [apply Permutation_app_comm|].
    symmetry. etransitivity; [apply Permutation_app_comm|].
    rewrite <- !app_assoc. apply Permutation_app_head, Permutation_app_comm.
  - unfold assignVariation. rewrite <- !app_assoc. reflexivity.
Qed.

(** X4.  The hash can be computed incrementally from the hash of a
    prefix: appending a text continues the unsigned recurrence from the
    32-bit value returned for the prefix. *)
Theorem hashString_app (s t : jsstring) :
  hashString (s ++ t) = fold_left Spec.djb2_step t (hashString s) mod 2^32
  /\ forall c : Z,
       hashString (s ++ [c]) = Z.lxor (hashString s * 33) c mod 2^32.
Proof.
  assert (Hcont : forall k u,
            fold_left Spec.djb2_step k (u mod 2^32) mod 2^32
            = fold_left Spec.djb2_step k u mod 2^32).
  { induction k as [|c k IH]; intros u; simpl.
    - apply Z.mod_mod. lia.
    - f_equal. f_equal. unfold Spec.djb2_step.
      rewrite (lxor_mod_pow2 (u mod 2^32 * 33)), (lxor_mod_pow2 (u * 33)) by lia.
      rewrite Zmult_mod_idemp_l. reflexivity. }
  assert (Happ : forall k, hashString (s ++ k)
                           = fold_left Spec.djb2_step k (hashString s) mod 2^32).
  { intros k. rewrite !hashString_refines. unfold Spec.djb2_u32.
    rewrite fold_left_app. symmetry. apply Hcont. }
  split; [apply Happ|].
  intros c. rewrite Happ. simpl. unfold Spec.djb2_step. apply Z.mod_mod. lia.
Qed.

End Bucket.

(** ** The script server: what is served and how it may be cached *)

Section ScriptHeaders.

Context {DB : Type} `{Database DB}.

(** X6.  Every response of script-serve is declared as JavaScript.  Only
    the full script of an active project is publicly cacheable (300
    seconds) and readable across origins; each placeholder carries a
    [no-cache] directive and no cross-origin header. *)
Theorem script_GET_cache_policy (env : Env) (id : jsstring) (db : DB) :
  let response := fst (script_GET env id db) in
  let active :=
    match getDatabase db, select_project id db with
    | Ok _, Ok (Some project) => p_is_active project =? 1
    | _, _ => false
    end in
  get (Js.lit "Content-Type") (headers response) = Some (Js.lit "application/javascript")
  /\ if active
     then get (Js.lit "Cache-Control") (headers response)
          = Some (Js.lit "public, max-age=300")
          /\ get (Js.lit "Access-Control-Allow-Origin") (headers response)
             = Some (Js.lit "*")
          /\ Spec.do_not_cache response = false
     else Spec.do_not_cache response = true
          /\ get (Js.lit "Access-Control-Allow-Origin") (headers response) = None
          /\ body response ∈ [script_not_found; script_inactive; script_internal_error].
Proof.
  cbv zeta. unfold script_GET, try_catch, query, mbind, M_bind, mret, M_ret.
  destruct (getDatabase db) as [[]|]; simpl.
  - destruct (select_project id db) as [[project|]|]; simpl.
    + destruct (p_is_active project =? 1); simpl.
      * split; [reflexivity|]. split; [reflexivity|]. split; [reflexivity|].
        vm_compute. reflexivity.
      * split; [reflexivity|]. split; [vm_compute; reflexivity|].
        split; [reflexivity|]. right; left.
    + split; [reflexivity|]. split; [vm_compute; reflexivity|].
      split; [reflexivity|]. left.
    + split; [reflexivity|]. split; [vm_compute; reflexivity|].
      split; [reflexivity|]. right; right; left.
  - split; [reflexivity|]. split; [vm_compute; reflexivity|].
    split; [reflexivity|]. right; right; left.
Qed.

End ScriptHeaders.

Lemma find_project_id (id : jsstring) (l : list ProjectRow) (project : ProjectRow) :
  find (fun p => bool_decide (p_id p = id)) l = Some project -> p_id project = id.
Proof.
  intros Hfind. apply find_some in Hfind as [_ Hid].
  apply bool_decide_eq_true_1 in Hid. exact Hid.
Qed.

(** X7.  On the tables, the script served for an active project embeds
    the requested identifier itself, and when that identifier is made of
    allow-listed characters and the configured base URL has no quote or
    backslash, the code of the served script is the code of the template:
    nothing of the two values is executed. *)
Theorem script_GET_serves_requested_id
    (env : Env) (id : jsstring) (db : Db) (project : ProjectRow) :
  find (fun p => bool_decide (p_id p = id)) (projects db) = Some project ->
  p_is_active project = 1 ->
  let apiEndpoint :=
    Js.or_default (NEXT_PUBLIC_APP_URL env) (Js.lit "http://localhost:3000") in
  body (fst (script_GET env id db)) = generateEmbedScript id apiEndpoint
  /\ (Spec.safe_identifier id = true ->
      Spec.quote_free apiEndpoint = true ->
      Spec.inert (body (fst (script_GET env id db)))).
Proof.
  intros Hfind Hactive. cbv zeta.
  assert (Hbody : body (fst (script_GET env id db))
                  = generateEmbedScript id
                      (Js.or_default (NEXT_PUBLIC_APP_URL env)
                         (Js.lit "http://localhost:3000"))).
  { unfold script_GET, try_catch, query, mbind, M_bind, mret, M_ret. simpl.
    rewrite Hfind. simpl. rewrite Hactive. simpl.
    rewrite (find_project_id id _ project Hfind). reflexivity. }
  split; [exact Hbody|].
  intros Hsafe Hurl. rewrite Hbody.
  apply generateEmbedScript_quote_free; [|exact Hurl].
  apply safe_identifier_quote_free, Hsafe.
Qed.

Lemma script_GET_serves_requested_id_example :
  Spec.inert (body (fst (script_GET Example.env (Js.lit "proj_1") Example.store))).
Proof.
  apply (script_GET_serves_requested_id Example.env (Js.lit "proj_1") Example.store
           (Example.project "proj_1" 1) eq_refl eq_refl); reflexivity.
Defined.

(** ** The tracking collector and the counts *)

Section TrackingCounts.

Import Spec.

(** The call passed the guards and reached the insert. *)
Definition reaches_insert (request : Request) (db : Db) : bool :=
  supplied (param "v" request) && supplied (param "p" request)
  && supplied (param "var" request)
  && closed_set (default [] (param "var" request))
  && has_project (default [] (param "p" request)) db.

Lemma recorded_reaches_insert (env : Env) (request : Request) (db : Db) :
  recorded env request db
  = reaches_insert request db
    && negb (bool_decide (event_id env ∈ map e_id (visitor_events db))).
Proof. reflexivity. Qed.

(** The response of a tracking call on the tables. *)
Lemma track_GET_response_store (env : Env) (request : Request) (db : Db) :
  fst (track_GET env request db)
  = if recorded env request db then pixel_recorded
    else if reaches_insert request db then pixel_internal_error
    else pixel_rejected.
Proof.
  rewrite recorded_reaches_insert.
  unfold track_GET, try_catch, reaches_insert, param.
  rewrite !truthy_supplied, !or_null_header.
  destruct (supplied (get (Js.lit "v") (searchParams request))); [|reflexivity].
  destruct (supplied (get (Js.lit "p") (searchParams request))); [|reflexivity].
  destruct (supplied (get (Js.lit "var") (searchParams request))); [|reflexivity].
  simpl negb. cbv zeta. unfold Js.narrowed.
  rewrite isValidVariation_closed_set.
  destruct (closed_set (default [] (get (Js.lit "var") (searchParams request))))
    eqn:Hvar; [|reflexivity].
  unfold query, exec, mbind, M_bind, mret, M_ret. simpl.
  rewrite find_has_project.
  destruct (find _ (projects db)) as [project|] eqn:Hfind; [|reflexivity].
  simpl. rewrite sqlite_insert_known.
  - unfold event_id; simpl.
    destruct (bool_decide (_ ∈ map e_id (visitor_events db))); reflexivity.
  - exact Hvar.
  - simpl. rewrite find_has_project, Hfind. reflexivity.
Qed.

(** X8.  The response of a tracking call tells whether the event was
    recorded: the cross-origin header is set exactly on the recording
    path.  When the call passes every guard but the generated event
    identifier is already in use, the insert throws, the event is dropped
    and the internal-error pixel is returned, still with status 200. *)
Theorem track_GET_response_discloses (env : Env) (request : Request) (db : Db) :
  let response := fst (track_GET env request db) in
  (get (Js.lit "Access-Control-Allow-Origin") (headers response) = Some (Js.lit "*")
   <-> recorded env request db = true)
  /\ (get (Js.lit "Access-Control-Allow-Origin") (headers response) = None
      <-> recorded env request db = false)
  /\ (response = pixel_internal_error
      <-> reaches_insert request db = true
          /\ event_id env ∈ map e_id (visitor_events db)).
Proof.
  cbv zeta. rewrite track_GET_response_store, recorded_reaches_insert.
  destruct (reaches_insert request db); simpl.
  - destruct (decide (event_id env ∈ map e_id (visitor_events db))) as [Hin|Hout].
    + rewrite bool_decide_eq_true_2 by exact Hin. simpl.
      split; [split; discriminate|]. split; [split; reflexivity|].
      split; [intros _; split; [reflexivity | exact Hin] | reflexivity].
    + rewrite bool_decide_eq_false_2 by exact Hout. simpl.
      split; [split; reflexivity|]. split; [split; discriminate|].
      split; [discriminate | intros [_ Hin]; destruct (Hout Hin)].
  - split; [split; discriminate|]. split; [split; reflexivity|].
    split; [discriminate | intros [Hf _]; discriminate Hf].
Qed.

Lemma count_events_append (id label : jsstring) (row : EventRow) (db : Db) :
  count_events id label (append_event row db)
  = count_events id label db
    + (if bool_decide (e_project_id row = id ∧ e_variation row = label) then 1 else 0).
Proof.
  unfold count_events, append_event. simpl.
  rewrite filter_app, length_app, filter_cons, filter_nil.
  destruct (decide (e_project_id row = id ∧ e_variation row = label)) as [Hy|Hn].
  - rewrite bool_decide_eq_true_2 by exact Hy. simpl. lia.
  - rewrite bool_decide_eq_false_2 by exact Hn. simpl. lia.
Qed.

(** X9.  A recorded call raises by one the count of its own project and
    label and leaves every other count as it was; a call that is not
    recorded changes no count. *)
Theorem track_GET_counts (env : Env) (request : Request) (db : Db) (id label : jsstring) :
  count_events id label (snd (track_GET env request db))
  = count_events id label db
    + (if recorded env request db
          && bool_decide (param "p" request = Some id)
          && bool_decide (param "var" request = Some label)
       then 1 else 0).
Proof.
  rewrite track_GET_store.
  destruct (recorded env request db) eqn:Hrec; [|simpl; lia].
  rewrite count_events_append. simpl. f_equal.
  unfold recorded in Hrec. repeat (apply andb_prop in Hrec as [Hrec ?]).
  destruct (param "p" request) as [[|c p]|]; try discriminate.
  destruct (param "var" request) as [[|c' var]|]; try discriminate.
  simpl.
  destruct (decide (c :: p = id)) as [<-|Hp].
  - rewrite (bool_decide_eq_true_2 (Some (c :: p) = Some (c :: p))) by reflexivity.
    destruct (decide (c' :: var = label)) as [<-|Hl].
    + rewrite !bool_decide_eq_true_2 by tauto. reflexivity.
    + rewrite !bool_decide_eq_false_2 by (try tauto; congruence). reflexivity.
  - rewrite (bool_decide_eq_false_2 (Some (c :: p) = Some id)) by congruence.
    rewrite bool_decide_eq_false_2 by tauto. reflexivity.
Qed.

(** X10.  No de-duplication: when a beacon has been recorded, the same
    beacon sent again is recorded again as soon as the event identifier
    generated for it is new, and the two rows differ in identifier and
    timestamp only. *)
Theorem track_GET_repeat_recorded (env1 env2 : Env) (request : Request) (db : Db) :
  recorded env1 request db = true ->
  event_id env2 ∉ event_id env1 :: map e_id (visitor_events db) ->
  let db1 := snd (track_GET env1 request db) in
  let db2 := snd (track_GET env2 request db1) in
  recorded env2 request db1 = true
  /\ visitor_events db2
     = visitor_events db ++ [tracked_row env1 request; tracked_row env2 request]
  /\ e_visitor_id (tracked_row env2 request) = e_visitor_id (tracked_row env1 request)
  /\ e_project_id (tracked_row env2 request) = e_project_id (tracked_row env1 request)
  /\ e_variation (tracked_row env2 request) = e_variation (tracked_row env1 request).
Proof.
  intros Hrec1 Hfresh. cbv zeta.
  assert (Hdb1 : snd (track_GET env1 request db)
                 = append_event (tracked_row env1 request) db)
    by (rewrite track_GET_store, Hrec1; reflexivity).
  assert (Hrec2 : recorded env2 request (snd (track_GET env1 request db)) = true).
  { rewrite Hdb1. rewrite recorded_reaches_insert in *.
    apply andb_prop in Hrec1 as [Hreach _].
    apply andb_true_intro. split.
    - exact Hreach.
    - apply negb_true_iff, bool_decide_eq_false_2.
      unfold append_event. simpl. rewrite map_app. simpl.
      intros Hin. apply Hfresh.
      apply elem_of_app in Hin as [Hin | Hin]; [right; exact Hin|].
      apply list_elem_of_singleton in Hin. rewrite Hin. left. }
  split; [exact Hrec2|].
  split; [|repeat split].
  rewrite track_GET_store, Hrec2, Hdb1. unfold append_event. simpl.
  rewrite <- app_assoc. reflexivity.
Qed.

End TrackingCounts.

Lemma track_GET_repeat_recorded_example :
  let env2 := {| NEXT_PUBLIC_APP_URL := None;
                 nanoid12 := Js.lit "Uakgb_J5m9g-";
                 now_iso := Js.lit "2024-01-02T00:00:05.000Z" |} in
  length (visitor_events
            (snd (track_GET env2 (Example.beacon "v_9" "proj_1" "D")
                    (snd (track_GET Example.env (Example.beacon "v_9" "proj_1" "D")
                            Example.store)))))
  = 6%nat.
Proof.
  cbv zeta.
  destruct (track_GET_repeat_recorded Example.env
              {| NEXT_PUBLIC_APP_URL := None;
                 nanoid12 := Js.lit "Uakgb_J5m9g-";
                 now_iso := Js.lit "2024-01-02T00:00:05.000Z" |}
              (Example.beacon "v_9" "proj_1" "D") Example.store)
    as (_ & Hrows & _).
  - reflexivity.
  - vm_compute. intros Hin.
    repeat (apply elem_of_cons in Hin as [Hin | Hin]; [discriminate Hin|]).
    apply elem_of_nil in Hin. exact Hin.
  - cbv zeta in Hrows. rewrite Hrows. reflexivity.
Defined.

(** ** The project route: error paths and what a delete leaves alone *)

Section ProjectStatuses.

Context {DB : Type} `{Database DB}.

(** X11.  The stats route never writes: the store is the same after the
    call on every path.  Its status is 500 exactly when one of its
    statements throws, 404 exactly when the project look-up succeeds and
    finds nothing, and 200 otherwise. *)
Theorem project_GET_read_only (env : Env) (id : jsstring) (db : DB) :
  snd (project_GET env id db) = db
  /\ status (fst (project_GET env id db))
     = match getDatabase db, select_project id db with
       | Ok _, Ok None => 404
       | Ok _, Ok (Some _) =>
           match select_stats id db with
           | Ok _ => 200
           | Throw => 500
           end
       | _, _ => 500
       end.
Proof.
  unfold project_GET, try_catch, query, mbind, M_bind, mret, M_ret.
  destruct (getDatabase db) as [[]|]; simpl; [|split; reflexivity].
  destruct (select_project id db) as [[project|]|]; simpl; try (split; reflexivity).
  destruct (select_stats id db); simpl; split; reflexivity.
Qed.

(** X12.  The two [DELETE] statements are not one transaction: when the
    events have been deleted and the delete of the project row throws,
    the route answers 500 and the store keeps the project without its
    events. *)
Theorem project_DELETE_not_atomic (id : jsstring) (db db1 : DB) (project : ProjectRow) :
  getDatabase db = Ok tt ->
  select_project id db = Ok (Some project) ->
  delete_events id db = Ok db1 ->
  delete_project id db1 = Throw ->
  project_DELETE id db
  = (json (ErrorBody (Js.lit "Failed to delete project")) 500, db1).
Proof.
  intros Hopen Hsel Hev Hproj.
  unfold project_DELETE, try_catch, query, exec, mbind, M_bind, mret, M_ret.
  rewrite Hopen, Hsel. simpl. rewrite Hev. simpl. rewrite Hproj. reflexivity.
Qed.

End ProjectStatuses.

(** A store whose project table refuses deletes, as a locked table would. *)
Definition projects_locked : Database Db := {|
  getDatabase := fun _ => Ok tt;
  select_project := fun id db =>
    Ok (find (fun p => bool_decide (p_id p = id)) (projects db));
  select_stats := fun id db => Ok (group_count (events_of id db));
  insert_event := sqlite_insert_event;
  delete_events := sqlite_delete_events;
  delete_project := fun _ _ => Throw
|}.

Lemma project_DELETE_not_atomic_example :
  status (fst (project_DELETE (H := projects_locked) (Js.lit "proj_1") Example.store)) = 500
  /\ has_project (Js.lit "proj_1")
       (snd (project_DELETE (H := projects_locked) (Js.lit "proj_1") Example.store)) = true
  /\ events_of (Js.lit "proj_1")
       (snd (project_DELETE (H := projects_locked) (Js.lit "proj_1") Example.store)) = [].
Proof.
  rewrite (project_DELETE_not_atomic (H := projects_locked) (Js.lit "proj_1")
             Example.store
             {| projects := projects Example.store;
                visitor_events := [Example.event "evt_2" "proj_2" "v_1" "C"];
                foreign_keys := true |}
             (Example.project "proj_1" 1) eq_refl eq_refl eq_refl eq_refl).
  repeat split.
Defined.

Section ProjectDelete.

Import Spec.

Lemma project_DELETE_unknown (id : jsstring) (db : Db) :
  has_project id db = false ->
  project_DELETE id db = (json (ErrorBody (Js.lit "Project not found")) 404, db).
Proof.
  rewrite find_has_project. intros Hfind.
  unfold project_DELETE, try_catch, query, mbind, M_bind, mret, M_ret. simpl.
  destruct (find _ (projects db)); [discriminate Hfind | reflexivity].
Qed.

(** X13.  Deleting an identifier that resolves to no project answers 404
    and changes nothing; hence a second delete of the same identifier
    answers 404 and leaves the store as the first delete left it. *)
Theorem project_DELETE_twice (id : jsstring) (db : Db) :
  (has_project id db = false ->
   project_DELETE id db = (json (ErrorBody (Js.lit "Project not found")) 404, db))
  /\ project_DELETE id (snd (project_DELETE id db))
     = (json (ErrorBody (Js.lit "Project not found")) 404, snd (project_DELETE id db)).
Proof.
  split; [apply project_DELETE_unknown|].
  apply project_DELETE_unknown.
  destruct (has_project id db) eqn:Hp.
  - rewrite (project_DELETE_known id db Hp). apply has_project_removed.
  - rewrite (project_DELETE_unknown id db Hp). exact Hp.
Qed.

Lemma find_other_project (id id' : jsstring) (l : list ProjectRow) :
  id' ≠ id ->
  find (fun p => bool_decide (p_id p = id')) (filter (fun p => p_id p ≠ id) l)
  = find (fun p => bool_decide (p_id p = id')) l.
Proof.
  intros Hne. induction l as [|p l IH]; [reflexivity|].
  rewrite filter_cons. destruct (decide (p_id p ≠ id)) as [Hp|Hp]; simpl.
  - rewrite IH. reflexivity.
  - rewrite IH. rewrite bool_decide_eq_false_2; [reflexivity|].
    intros E. apply Hp. intros E'. apply Hne. congruence.
Qed.

Lemma events_of_other_project (id id' : jsstring) (l : list EventRow) :
  id' ≠ id ->
  filter (fun e => e_project_id e = id') (filter (fun e => e_project_id e ≠ id) l)
  = filter (fun e => e_project_id e = id') l.
Proof.
  intros Hne. induction l as [|e l IH]; [reflexivity|].
  rewrite (filter_cons (fun e => e_project_id e ≠ id)).
  destruct (decide (e_project_id e ≠ id)) as [Hp|Hp].
  - rewrite !filter_cons, IH. reflexivity.
  - rewrite IH, filter_cons. rewrite decide_False; [reflexivity|].
    intros E. apply Hp. congruence.
Qed.

(** X14.  Deleting a project leaves every other project as it was: the
    stats route gives the same answer for any other identifier before and
    after the delete. *)
Theorem project_DELETE_frame (env : Env) (id id' : jsstring) (db : Db) :
  id' ≠ id ->
  fst (project_GET env id' (snd (project_DELETE id db)))
  = fst (project_GET env id' db).
Proof.
  intros Hne. destruct (has_project id db) eqn:Hp.
  - rewrite (project_DELETE_known id db Hp). simpl.
    set (db' := {| projects := filter (fun p => p_id p ≠ id) (projects db);
                   visitor_events :=
                     filter (fun e => e_project_id e ≠ id) (visitor_events db);
                   foreign_keys := foreign_keys db |}).
    assert (Hfind' : find (fun p => bool_decide (p_id p = id')) (projects db')
                     = find (fun p => bool_decide (p_id p = id')) (projects db))
      by apply (find_other_project id id' _ Hne).
    assert (Hev : events_of id' db' = events_of id' db)
      by apply (events_of_other_project id id' _ Hne).
    destruct (find (fun p => bool_decide (p_id p = id')) (projects db))
      as [project|] eqn:Hfind.
    + rewrite (project_GET_known env id' db' project Hfind').
      rewrite (project_GET_known env id' db project Hfind), Hev. reflexivity.
    + rewrite !project_GET_unknown; [reflexivity | |];
        rewrite find_has_project; [rewrite Hfind | rewrite Hfind']; reflexivity.
  - rewrite (project_DELETE_unknown id db Hp). reflexivity.
Qed.

End ProjectDelete.

Lemma project_DELETE_frame_example :
  Js.lit "proj_2" ≠ Js.lit "proj_1"
  /\ fst (project_GET Example.env (Js.lit "proj_2")
            (snd (project_DELETE (Js.lit "proj_1") Example.store)))
     = fst (project_GET Example.env (Js.lit "proj_2") Example.store).
Proof.
  assert (Hne : Js.lit "proj_2" ≠ Js.lit "proj_1") by discriminate.
  split; [exact Hne|].
  apply (project_DELETE_frame Example.env (Js.lit "proj_1") (Js.lit "proj_2")
           Example.store Hne).
Defined.

(** * The routes that write projects *)

(** ** JSON bodies as the routes read them *)

(** White space and line terminators of ECMAScript, the code units that
    [String.prototype.trim] strips. *)
Definition js_is_space (c : Z) : bool :=
  ((9 <=? c) && (c <=? 13)) || (c =? 32) || (c =? 160) || (c =? 5760)
  || ((8192 <=? c) && (c <=? 8202)) || (c =? 8232) || (c =? 8233)
  || (c =? 8239) || (c =? 8287) || (c =? 12288) || (c =? 65279).

Fixpoint js_trim_start (s : jsstring) : jsstring :=
  match s with
  | [] => []
  | c :: s' => if js_is_space c then js_trim_start s' else s
  end.

Definition js_trim (s : jsstring) : jsstring :=
  rev (js_trim_start (rev (js_trim_start s))).

(** A value read from a parsed JSON body.  Of a number the routes read
    only whether it is zero; of an object or array only that it is one. *)
Inductive JsValue : Type :=
| VUndefined
| VNull
| VBool (b : bool)
| VNumber (nonzero : bool)
| VString (s : jsstring)
| VObject.

(** What [await request.json()] gives: it throws on a malformed body;
    otherwise the body is [null], an object with its fields, or another
    value (a primitive or an array), all of whose fields read as
    [undefined]. *)
Inductive JsonBody : Type :=
| BodyMalformed
| BodyNull
| BodyObject (fields : gmap jsstring JsValue)
| BodyOther.

(** [const { name } = body], after [body = await request.json()]. *)
Definition field (name : string) (body : JsonBody) : result JsValue :=
  match body with
  | BodyMalformed => Throw
  | BodyNull => Throw
  | BodyObject fields => Ok (default VUndefined (fields !! Js.lit name))
  | BodyOther => Ok VUndefined
  end.

Definition js_truthy (v : JsValue) : bool :=
  match v with
  | VUndefined | VNull => false
  | VBool b => b
  | VNumber nonzero => nonzero
  | VString s => negb (bool_decide (s = []))
  | VObject => true
  end.

Definition is_undefined (v : JsValue) : bool :=
  match v with VUndefined => true | _ => false end.

(** [v.trim()]: a [TypeError] unless [v] is a string. *)
Definition call_trim (v : JsValue) : result jsstring :=
  match v with
  | VString s => Ok (js_trim s)
  | _ => Throw
  end.

(** [v?.trim() || null] *)
Definition optional_trim_or_null (v : JsValue) : result (option jsstring) :=
  match v with
  | VUndefined | VNull => Ok None
  | VString s => Ok (if bool_decide (js_trim s = []) then None else Some (js_trim s))
  | _ => Throw
  end.

(** [!v || typeof v !== "string" || v.trim().length === 0] *)
Definition blank (v : JsValue) : bool :=
  negb (js_truthy v)
  || match v with
     | VString s => (length (js_trim s) =? 0)%nat
     | _ => true
     end.

(** A value the store does not look at, lifted into a handler. *)
Definition lift {DB A} (r : result A) : M DB A := fun db => (r, db).

(** ** The statements that write projects *)

(** Whether the update route has pushed a column onto [updates]. *)
Definition pushed {A} (x : option A) : bool :=
  match x with Some _ => true | None => false end.

(** The [SET] clause the update route builds: the columns it was given,
    and [updated_at]. *)
Record ProjectUpdate := {
  set_name : option jsstring;
  set_domain : option jsstring;
  set_description : option (option jsstring);
  set_is_active : option Z;
  set_updated_at : jsstring
}.

Class ProjectWrites (DB : Type) := {
  (** [INSERT INTO projects (id, name, domain, description, is_active,
       created_at, updated_at) VALUES (?, ?, ?, ?, 1, ?, ?)] *)
  insert_project : ProjectRow -> DB -> result DB;
  (** [UPDATE projects SET ... WHERE id = ?] *)
  update_project : jsstring -> ProjectUpdate -> DB -> result DB
}.

(** A string bound to a statement is written as UTF-8 and read back from
    it: a surrogate pair comes back as it was, a surrogate without its
    partner comes back as U+FFFD.  The strings of a JSON body can hold
    such code units (an escape like [\ud800]); the identifiers and the
    timestamps the routes generate are ASCII text, which the binding
    leaves as it is. *)
Definition is_high_surrogate (c : Z) : bool := (55296 <=? c) && (c <=? 56319).
Definition is_low_surrogate (c : Z) : bool := (56320 <=? c) && (c <=? 57343).

Fixpoint sqlite_text (s : jsstring) : jsstring :=
  match s with
  | [] => []
  | c :: s' =>
      if is_high_surrogate c then
        match s' with
        | d :: s'' =>
            if is_low_surrogate d then c :: d :: sqlite_text s''
            else 65533 :: sqlite_text s'
        | [] => [65533]
        end
      else if is_low_surrogate c then 65533 :: sqlite_text s'
      else c :: sqlite_text s'
  end.

(** A project row as the table holds it after the row was bound. *)
Definition stored_project (row : ProjectRow) : ProjectRow :=
  {| p_id := p_id row;
     p_name := sqlite_text (p_name row);
     p_domain := sqlite_text (p_domain row);
     p_description := option_map sqlite_text (p_description row);
     p_is_active := p_is_active row;
     p_created_at := p_created_at row;
     p_updated_at := p_updated_at row |}.

(** [id TEXT PRIMARY KEY] on [projects]. *)
Definition sqlite_insert_project (row : ProjectRow) (db : Db) : result Db :=
  if has_project (p_id row) db then Throw
  else Ok {| projects := projects db ++ [stored_project row];
             visitor_events := visitor_events db;
             foreign_keys := foreign_keys db |}.

Definition apply_update (u : ProjectUpdate) (p : ProjectRow) : ProjectRow :=
  {| p_id := p_id p;
     p_name := default (p_name p) (set_name u);
     p_domain := default (p_domain p) (set_domain u);
     p_description := default (p_description p) (set_description u);
     p_is_active := default (p_is_active p) (set_is_active u);
     p_created_at := p_created_at p;
     p_updated_at := set_updated_at u |}.

(** The values of a [SET] clause as the table holds them. *)
Definition stored_update (u : ProjectUpdate) : ProjectUpdate :=
  {| set_name := option_map sqlite_text (set_name u);
     set_domain := option_map sqlite_text (set_domain u);
     set_description := option_map (option_map sqlite_text) (set_description u);
     set_is_active := set_is_active u;
     set_updated_at := set_updated_at u |}.

Definition sqlite_update_project (id : jsstring) (u : ProjectUpdate) (db : Db) : result Db :=
  Ok {| projects :=
          map (fun p =>
                 if bool_decide (p_id p = id) then apply_update (stored_update u) p
                 else p)
              (projects db);
        visitor_events := visitor_events db;
        foreign_keys := foreign_keys db |}.

#[export] Instance sqlite_writes : ProjectWrites Db := {
  insert_project := sqlite_insert_project;
  update_project := sqlite_update_project
}.

(** ** [POST /api/projects] and [PUT /api/projects/[id]] *)

Inductive CrudBody : Type :=
| CrudError (error : jsstring)
| CrudProject (id name domain : jsstring) (description : option jsstring)
    (isActive : bool) (createdAt updatedAt : jsstring)
    (embedScript : option jsstring).

Definition json_crud (value : CrudBody) (st : Z) : Response CrudBody :=
  {| status := st;
     headers := [(Js.lit "content-type", Js.lit "application/json")];
     body := value |}.

Definition generateProjectId (env : Env) : jsstring :=
  Js.lit "proj_" ++ nanoid12 env.

Definition projects_POST {DB} `{Database DB} `{ProjectWrites DB}
    (env : Env) (request_json : JsonBody) : DB -> Response CrudBody * DB :=
  try_catch
    (name ← lift (field "name" request_json);
     domain ← lift (field "domain" request_json);
     description ← lift (field "description" request_json);
     if blank name then mret (json_crud (CrudError (Js.lit "Name is required")) 400)
     else if blank domain then
       mret (json_crud (CrudError (Js.lit "Domain is required")) 400)
     else
       query getDatabase;;
       let id := generateProjectId env in
       let now := now_iso env in
       name' ← lift (call_trim name);
       domain' ← lift (call_trim domain);
       description' ← lift (optional_trim_or_null description);
       exec (insert_project
               {| p_id := id;
                  p_name := name';
                  p_domain := domain';
                  p_description := description';
                  p_is_active := 1;
                  p_created_at := now;
                  p_updated_at := now |});;
       let apiEndpoint :=
         Js.or_default (NEXT_PUBLIC_APP_URL env) (Js.lit "http://localhost:3000") in
       let embedScript := generateEmbedCode id apiEndpoint in
       mret (json_crud (CrudProject id name' domain' description' true now now
                          (Some embedScript)) 201))
    (json_crud (CrudError (Js.lit "Failed to create project")) 500).

Definition project_PUT {DB} `{Database DB} `{ProjectWrites DB}
    (env : Env) (id : jsstring) (request_json : JsonBody)
  : DB -> Response CrudBody * DB :=
  try_catch
    (name ← lift (field "name" request_json);
     domain ← lift (field "domain" request_json);
     description ← lift (field "description" request_json);
     isActive ← lift (field "isActive" request_json);
     query getDatabase;;
     existing ← query (select_project id);
     match existing with
     | None => mret (json_crud (CrudError (Js.lit "Project not found")) 404)
     | Some _ =>
         let now := now_iso env in
         name' ← (if is_undefined name then mret None
                  else s ← lift (call_trim name); mret (Some s));
         domain' ← (if is_undefined domain then mret None
                    else s ← lift (call_trim domain); mret (Some s));
         description' ← (if is_undefined description then mret None
                         else d ← lift (optional_trim_or_null description);
                              mret (Some d));
         let isActive' :=
           if is_undefined isActive then None
           else Some (if js_truthy isActive then 1 else 0) in
         if negb (pushed name') && negb (pushed domain')
            && negb (pushed description') && negb (pushed isActive')
         then mret (json_crud (CrudError (Js.lit "No fields to update")) 400)
         else
           exec (update_project id
                   {| set_name := name';
                      set_domain := domain';
                      set_description := description';
                      set_is_active := isActive';
                      set_updated_at := now |});;
           updated ← query (select_project id);
           match updated with
           | None => lift Throw
           | Some updated =>
               mret (json_crud
                       (CrudProject (p_id updated) (p_name updated) (p_domain updated)
                          (p_description updated) (p_is_active updated =? 1)
                          (p_created_at updated) (p_updated_at updated) None) 200)
           end
     end)
    (json_crud (CrudError (Js.lit "Failed to update project")) 500).

(** ** Trimming *)

Section Trim.

Lemma js_trim_start_head (s : jsstring) :
  match js_trim_start s with
  | [] => True
  | c :: _ => js_is_space c = false
  end.
Proof.
  induction s as [|c s IH]; simpl; [exact I|].
  destruct (js_is_space c) eqn:Hc; [exact IH | exact Hc].
Qed.

Lemma js_trim_start_fixed (s : jsstring) :
  match s with [] => True | c :: _ => js_is_space c = false end ->
  js_trim_start s = s.
Proof. destruct s as [|c s]; simpl; [reflexivity | intros ->; reflexivity]. Qed.

Lemma js_trim_start_nil (s : jsstring) :
  js_trim_start s = [] <-> Forall (fun c => js_is_space c = true) s.
Proof.
  induction s as [|c s IH]; simpl.
  - split; [constructor | reflexivity].
  - destruct (js_is_space c) eqn:Hc.
    + rewrite IH. split; [intros Hs; constructor; assumption|].
      intros Hs. apply Forall_cons in Hs. tauto.
    + split; [discriminate|]. intros Hs. apply Forall_cons in Hs as [Hc' _].
      congruence.
Qed.

(** The last character of what [js_trim_start] leaves is the last
    character of its argument. *)
Lemma js_trim_start_suffix (s : jsstring) :
  exists spaces : jsstring, s = spaces ++ js_trim_start s.
Proof.
  induction s as [|c s [spaces IH]]; simpl; [exists []; reflexivity|].
  destruct (js_is_space c); [|exists []; reflexivity].
  exists (c :: spaces). simpl. f_equal. exact IH.
Qed.

Lemma js_trim_nil (s : jsstring) :
  js_trim s = [] <-> Forall (fun c => js_is_space c = true) s.
Proof.
  unfold js_trim. split.
  - intros Hnil. apply (f_equal (@rev Z)) in Hnil. rewrite rev_involutive in Hnil.
    simpl in Hnil. apply js_trim_start_nil in Hnil.
    apply Forall_rev in Hnil. rewrite rev_involutive in Hnil.
    destruct (js_trim_start_suffix s) as [spaces Hs].
    destruct (js_trim_start s) as [|c t] eqn:Ht; [apply js_trim_start_nil, Ht|].
    pose proof (js_trim_start_head s) as Hhead. rewrite Ht in Hhead.
    apply Forall_cons in Hnil as [Hc _]. congruence.
  - intros Hs. apply js_trim_start_nil in Hs. rewrite Hs. reflexivity.
Qed.

(** What [js_trim] returns neither starts nor ends with white space. *)
Lemma js_trim_ends (s : jsstring) :
  match js_trim s with [] => True | c :: _ => js_is_space c = false end
  /\ match rev (js_trim s) with [] => True | c :: _ => js_is_space c = false end.
Proof.
  unfold js_trim. rewrite rev_involutive. split; [|apply js_trim_start_head].
  destruct (js_trim_start_suffix (rev (js_trim_start s))) as [spaces Hs].
  pose proof (js_trim_start_head s) as Hhead.
  destruct (js_trim_start (rev (js_trim_start s))) as [|c t] eqn:Ht;
    [exact I|].
  apply (f_equal (@rev Z)) in Hs. rewrite rev_involutive, rev_app_distr in Hs.
  rewrite Hs in Hhead.
  destruct (rev (c :: t)) as [|c' t'] eqn:Hr;
    [simpl in Hr; destruct (rev t); discriminate Hr|].
  simpl in Hhead. exact Hhead.
Qed.

Lemma js_trim_idempotent (s : jsstring) : js_trim (js_trim s) = js_trim s.
Proof.
  destruct (js_trim_ends s) as [Hfirst Hlast].
  unfold js_trim at 1.
  rewrite (js_trim_start_fixed (js_trim s)) by exact Hfirst.
  rewrite (js_trim_start_fixed (rev (js_trim s))) by exact Hlast.
  apply rev_involutive.
Qed.

(** A value is blank unless it is a string with a character that is not
    white space. *)
Lemma blank_false (v : JsValue) :
  blank v = false <-> exists s, v = VString s /\ js_trim s <> [].
Proof.
  unfold blank. split.
  - destruct v as [| |b|n|s|]; simpl; rewrite ?orb_true_r; try discriminate.
    intros Hb. apply orb_false_elim in Hb as [_ Hlen].
    exists s. split; [reflexivity|].
    intros Hnil. rewrite Hnil in Hlen. discriminate Hlen.
  - intros (s & -> & Hs). simpl.
    assert (Hne : s <> []) by (intros ->; apply Hs; reflexivity).
    rewrite bool_decide_eq_false_2 by exact Hne. simpl.
    destruct (js_trim s); [destruct (Hs eq_refl) | reflexivity].
Qed.

End Trim.

(** ** Creating a project *)

Section CreateAnyStore.

Context {DB : Type} `{Database DB} `{ProjectWrites DB}.

(** X15.  What the create route rejects before it touches the store: a
    malformed or [null] body gives 500; a body that is not an object
    gives 400; a name that is missing, not a string, empty or only white
    space gives 400 "Name is required", and then the same test on the
    domain gives 400 "Domain is required".  The store is unchanged in each
    case, whatever the store does. *)
Theorem projects_POST_rejections (env : Env) (request_json : JsonBody) (db : DB) :
  match request_json with
  | BodyMalformed | BodyNull =>
      projects_POST env request_json db
      = (json_crud (CrudError (Js.lit "Failed to create project")) 500, db)
  | BodyOther =>
      projects_POST env request_json db
      = (json_crud (CrudError (Js.lit "Name is required")) 400, db)
  | BodyObject fields =>
      if blank (default VUndefined (fields !! Js.lit "name")) then
        projects_POST env request_json db
        = (json_crud (CrudError (Js.lit "Name is required")) 400, db)
      else if blank (default VUndefined (fields !! Js.lit "domain")) then
        projects_POST env request_json db
        = (json_crud (CrudError (Js.lit "Domain is required")) 400, db)
      else True
  end.
Proof.
  destruct request_json as [| |fields|]; try reflexivity.
  unfold projects_POST, try_catch, lift, mbind, M_bind, mret, M_ret. simpl.
  destruct (blank (default VUndefined (fields !! Js.lit "name"))); [reflexivity|].
  destruct (blank (default VUndefined (fields !! Js.lit "domain"))); [reflexivity|].
  exact I.
Qed.

End CreateAnyStore.

Section CreateOnTables.

Import Spec.

(** The row the create route binds to its [INSERT]. *)
Definition created_row (env : Env) (name domain : jsstring) (description : option jsstring)
  : ProjectRow :=
  {| p_id := generateProjectId env;
     p_name := js_trim name;
     p_domain := js_trim domain;
     p_description := description;
     p_is_active := 1;
     p_created_at := now_iso env;
     p_updated_at := now_iso env |}.

Definition add_project (row : ProjectRow) (db : Db) : Db :=
  {| projects := projects db ++ [row];
     visitor_events := visitor_events db;
     foreign_keys := foreign_keys db |}.

Lemma blank_string (s : jsstring) : js_trim s <> [] -> blank (VString s) = false.
Proof. intros Hs. apply blank_false. exists s. split; [reflexivity | exact Hs]. Qed.

(** The create route on the tables, for a name and a domain that pass
    the validation. *)
Lemma projects_POST_valid (env : Env) (fields : gmap jsstring JsValue) (db : Db)
    (name domain : jsstring) :
  fields !! Js.lit "name" = Some (VString name) ->
  fields !! Js.lit "domain" = Some (VString domain) ->
  js_trim name <> [] ->
  js_trim domain <> [] ->
  projects_POST env (BodyObject fields) db
  = match optional_trim_or_null (default VUndefined (fields !! Js.lit "description")) with
    | Throw => (json_crud (CrudError (Js.lit "Failed to create project")) 500, db)
    | Ok description =>
        if has_project (generateProjectId env) db
        then (json_crud (CrudError (Js.lit "Failed to create project")) 500, db)
        else (json_crud
                (CrudProject (generateProjectId env) (js_trim name) (js_trim domain)
                   description true (now_iso env) (now_iso env)
                   (Some (generateEmbedCode (generateProjectId env)
                            (Js.or_default (NEXT_PUBLIC_APP_URL env)
                               (Js.lit "http://localhost:3000"))))) 201,
              add_project (stored_project (created_row env name domain description)) db)
    end.
Proof.
  intros Hname Hdomain Hn Hd.
  unfold projects_POST, try_catch, lift, query, exec, mbind, M_bind, mret, M_ret,
    field.
  rewrite Hname, Hdomain.
  cbn -[blank js_trim optional_trim_or_null has_project generateProjectId
        generateEmbedCode Js.or_default Js.lit lookup].
  rewrite (blank_string name Hn), (blank_string domain Hd).
  cbn -[js_trim optional_trim_or_null has_project generateProjectId
        generateEmbedCode Js.or_default Js.lit lookup].
  destruct (optional_trim_or_null (default VUndefined (fields !! Js.lit "description")))
    as [description|]; [|reflexivity].
  unfold sqlite_insert_project.
  cbn -[js_trim has_project generateProjectId generateEmbedCode Js.or_default
        Js.lit lookup].
  destruct (has_project (generateProjectId env) db); reflexivity.
Qed.

(** A string without surrogate code units. *)
Definition no_surrogate (s : jsstring) : bool :=
  forallb (fun c => negb (is_high_surrogate c || is_low_surrogate c)) s.

Lemma sqlite_text_plain (s : jsstring) : no_surrogate s = true -> sqlite_text s = s.
Proof.
  induction s as [|c s IH]; [reflexivity|]. simpl. intros Hs.
  apply andb_prop in Hs as [Hc Hs].
  apply negb_true_iff, orb_false_elim in Hc as [-> ->].
  rewrite (IH Hs). reflexivity.
Qed.

Lemma no_surrogate_trim_start (s : jsstring) :
  no_surrogate s = true -> no_surrogate (js_trim_start s) = true.
Proof.
  induction s as [|c s IH]; [reflexivity|]. intros Hs. simpl.
  destruct (js_is_space c); [|exact Hs].
  simpl in Hs. apply andb_prop in Hs as [_ Hs]. apply IH, Hs.
Qed.

Lemma no_surrogate_rev (s : jsstring) :
  no_surrogate s = true -> no_surrogate (rev s) = true.
Proof.
  unfold no_surrogate. rewrite !forallb_forall. intros Hs c Hc.
  apply Hs, in_rev, Hc.
Qed.

Lemma no_surrogate_trim (s : jsstring) :
  no_surrogate s = true -> no_surrogate (js_trim s) = true.
Proof.
  intros Hs. unfold js_trim.
  apply no_surrogate_rev, no_surrogate_trim_start, no_surrogate_rev,
    no_surrogate_trim_start, Hs.
Qed.

(** X16.  A create request with a name and a domain that are not blank,
    a description that is absent, [null] or a string, and a generated
    identifier that is not in use answers 201 and appends one project row:
    active, with the name and the domain trimmed, the description trimmed
    or [null] when it is empty, and both timestamps equal to the time of
    the call.  The response carries the trimmed strings of the request;
    the table holds them as they come back from the UTF-8 binding, which
    is the same strings when they have no surrogate code unit, and has
    U+FFFD in the place of each surrogate without its partner otherwise.
    The event rows are not touched. *)
Theorem projects_POST_creates (env : Env) (fields : gmap jsstring JsValue) (db : Db)
    (name domain : jsstring) (description : option jsstring) :
  fields !! Js.lit "name" = Some (VString name) ->
  fields !! Js.lit "domain" = Some (VString domain) ->
  js_trim name <> [] ->
  js_trim domain <> [] ->
  optional_trim_or_null (default VUndefined (fields !! Js.lit "description"))
  = Ok description ->
  has_project (generateProjectId env) db = false ->
  let response := fst (projects_POST env (BodyObject fields) db) in
  let db' := snd (projects_POST env (BodyObject fields) db) in
  status response = 201
  /\ projects db'
     = projects db
       ++ [{| p_id := generateProjectId env;
              p_name := sqlite_text (js_trim name);
              p_domain := sqlite_text (js_trim domain);
              p_description := option_map sqlite_text description;
              p_is_active := 1;
              p_created_at := now_iso env;
              p_updated_at := now_iso env |}]
  /\ visitor_events db' = visitor_events db
  /\ body response
     = CrudProject (generateProjectId env) (js_trim name) (js_trim domain)
         description true (now_iso env) (now_iso env)
         (Some (generateEmbedCode (generateProjectId env)
                  (Js.or_default (NEXT_PUBLIC_APP_URL env)
                     (Js.lit "http://localhost:3000"))))
  /\ description <> Some []
  /\ (no_surrogate name = true ->
      no_surrogate domain = true ->
      no_surrogate (default [] description) = true ->
      projects db' = projects db ++ [created_row env name domain description]).
Proof.
  intros Hname Hdomain Hn Hd Hdesc Hfresh. cbv zeta.
  rewrite (projects_POST_valid env fields db name domain Hname Hdomain Hn Hd).
  rewrite Hdesc, Hfresh.
  split; [reflexivity|]. split; [reflexivity|]. split; [reflexivity|].
  split; [reflexivity|]. split.
  - destruct (default VUndefined (fields !! Js.lit "description"))
      as [| |b|n|text|];
      simpl in Hdesc; try discriminate Hdesc;
      try (injection Hdesc as <-; discriminate).
    injection Hdesc as <-.
    destruct (decide (js_trim text = [])) as [E|E].
    + rewrite bool_decide_eq_true_2 by exact E. discriminate.
    + rewrite bool_decide_eq_false_2 by exact E. congruence.
  - intros Hpn Hpd Hpdesc. unfold add_project, stored_project, created_row.
    cbn [snd projects p_id p_name p_domain p_description p_is_active
         p_created_at p_updated_at].
    rewrite (sqlite_text_plain _ (no_surrogate_trim _ Hpn)).
    rewrite (sqlite_text_plain _ (no_surrogate_trim _ Hpd)).
    destruct description as [text|]; [|reflexivity].
    cbn [option_map]. change (default [] (Some text)) with text in Hpdesc.
    rewrite (sqlite_text_plain _ Hpdesc). reflexivity.
Qed.

(** X17.  A create request that passes the validation fails with 500 and
    leaves the store unchanged when the generated identifier is already in
    use, or when the description is neither absent, [null] nor a
    string. *)
Theorem projects_POST_fails (env : Env) (fields : gmap jsstring JsValue) (db : Db)
    (name domain : jsstring) :
  fields !! Js.lit "name" = Some (VString name) ->
  fields !! Js.lit "domain" = Some (VString domain) ->
  js_trim name <> [] ->
  js_trim domain <> [] ->
  has_project (generateProjectId env) db = true
  \/ (exists v, fields !! Js.lit "description" = Some v
                /\ v ∈ [VBool true; VBool false; VNumber true; VNumber false; VObject]) ->
  projects_POST env (BodyObject fields) db
  = (json_crud (CrudError (Js.lit "Failed to create project")) 500, db).
Proof.
  intros Hname Hdomain Hn Hd Hcause.
  rewrite (projects_POST_valid env fields db name domain Hname Hdomain Hn Hd).
  destruct Hcause as [Hused | (v & Hv & Hkind)].
  - rewrite Hused.
    destruct (optional_trim_or_null _); reflexivity.
  - rewrite Hv. simpl default.
    repeat (apply elem_of_cons in Hkind as [-> | Hkind]; [reflexivity|]).
    apply elem_of_nil in Hkind. destruct Hkind.
Qed.

End CreateOnTables.

(** ** Updating a project *)

Section UpdateOnTables.

Import Spec.

(** The columns the update route takes from a body: a field that is
    [undefined] is left out, a name or a domain must be a string, a
    description may also be [null], and any value of [isActive] is read
    by its truthiness. *)
Definition put_column (v : JsValue) : result (option jsstring) :=
  if is_undefined v then Ok None
  else match call_trim v with
       | Ok s => Ok (Some s)
       | Throw => Throw
       end.

Definition put_description (v : JsValue) : result (option (option jsstring)) :=
  if is_undefined v then Ok None
  else match optional_trim_or_null v with
       | Ok d => Ok (Some d)
       | Throw => Throw
       end.

Definition put_active (v : JsValue) : option Z :=
  if is_undefined v then None else Some (if js_truthy v then 1 else 0).

Definition update_rows (id : jsstring) (u : ProjectUpdate) (db : Db) : Db :=
  {| projects :=
       map (fun p => if bool_decide (p_id p = id) then apply_update u p else p)
           (projects db);
     visitor_events := visitor_events db;
     foreign_keys := foreign_keys db |}.

Definition put_response (p : ProjectRow) : Response CrudBody :=
  json_crud (CrudProject (p_id p) (p_name p) (p_domain p) (p_description p)
               (p_is_active p =? 1) (p_created_at p) (p_updated_at p) None) 200.

Lemma find_updated (id id' : jsstring) (u : ProjectUpdate) (l : list ProjectRow) :
  find (fun p => bool_decide (p_id p = id'))
       (map (fun p => if bool_decide (p_id p = id) then apply_update u p else p) l)
  = (fun p => if bool_decide (p_id p = id) then apply_update u p else p)
      <$> find (fun p => bool_decide (p_id p = id')) l.
Proof.
  induction l as [|p l IH]; [reflexivity|]. simpl.
  destruct (bool_decide (p_id p = id)) eqn:E; simpl;
    destruct (bool_decide (p_id p = id')); simpl; rewrite ?E;
    try reflexivity; exact IH.
Qed.

(** The update route on the tables. *)
Lemma project_PUT_tables (env : Env) (id : jsstring) (fields : gmap jsstring JsValue)
    (db : Db) :
  project_PUT env id (BodyObject fields) db
  = match find (fun p => bool_decide (p_id p = id)) (projects db) with
    | None => (json_crud (CrudError (Js.lit "Project not found")) 404, db)
    | Some project =>
        match put_column (default VUndefined (fields !! Js.lit "name")),
              put_column (default VUndefined (fields !! Js.lit "domain")),
              put_description (default VUndefined (fields !! Js.lit "description")) with
        | Ok name', Ok domain', Ok description' =>
            let isActive' := put_active (default VUndefined (fields !! Js.lit "isActive")) in
            if negb (pushed name') && negb (pushed domain')
               && negb (pushed description') && negb (pushed isActive')
            then (json_crud (CrudError (Js.lit "No fields to update")) 400, db)
            else
              let u := stored_update
                         {| set_name := name';
                            set_domain := domain';
                            set_description := description';
                            set_is_active := isActive';
                            set_updated_at := now_iso env |} in
              (put_response (apply_update u project), update_rows id u db)
        | _, _, _ => (json_crud (CrudError (Js.lit "Failed to update project")) 500, db)
        end
    end.
Proof.
  unfold project_PUT, try_catch, lift, query, exec, mbind, M_bind, mret, M_ret,
    field, put_column, put_description, put_active.
  cbn -[js_trim optional_trim_or_null call_trim is_undefined js_truthy Js.lit lookup
        find pushed negb andb].
  destruct (find (fun p => bool_decide (p_id p = id)) (projects db))
    as [project|] eqn:Hfind; [|reflexivity].
  assert (Hafter : forall u,
            find (fun p => bool_decide (p_id p = id))
                 (map (fun p => if bool_decide (p_id p = id) then apply_update u p else p)
                      (projects db))
            = Some (apply_update u project)).
  { intros u. rewrite find_updated, Hfind. simpl.
    rewrite (find_project_id id _ project Hfind).
    rewrite bool_decide_eq_true_2 by reflexivity. reflexivity. }
  destruct (is_undefined (default VUndefined (fields !! Js.lit "name")));
    [|destruct (call_trim (default VUndefined (fields !! Js.lit "name")))];
    (destruct (is_undefined (default VUndefined (fields !! Js.lit "domain")));
     [|destruct (call_trim (default VUndefined (fields !! Js.lit "domain")))]);
    (destruct (is_undefined (default VUndefined (fields !! Js.lit "description")));
     [|destruct (optional_trim_or_null
                   (default VUndefined (fields !! Js.lit "description")))]);
    try reflexivity;
    destruct (is_undefined (default VUndefined (fields !! Js.lit "isActive")));
    cbn -[js_trim js_truthy Js.lit lookup find]; try reflexivity;
    unfold sqlite_update_project; cbn -[js_trim js_truthy Js.lit lookup find];
    rewrite Hafter; reflexivity.
Qed.

End UpdateOnTables.

Section UpdateProperties.

Import Spec.

(** The store after an update request, whatever the body. *)
Lemma project_PUT_effect (env : Env) (id : jsstring) (request_json : JsonBody) (db : Db) :
  snd (project_PUT env id request_json db) = db
  \/ exists u : ProjectUpdate,
       snd (project_PUT env id request_json db) = update_rows id u db.
Proof.
  destruct request_json as [| |fields|]; try (left; reflexivity).
  - rewrite project_PUT_tables.
    destruct (find _ (projects db)); [|left; reflexivity].
    destruct (put_column (default VUndefined (fields !! Js.lit "name")));
      [|left; reflexivity].
    destruct (put_column (default VUndefined (fields !! Js.lit "domain")));
      [|left; reflexivity].
    destruct (put_description (default VUndefined (fields !! Js.lit "description")));
      [|left; reflexivity].
    cbv zeta. destruct (_ && _); [left; reflexivity|].
    right. eexists. reflexivity.
  - left. unfold project_PUT, try_catch, lift, query, mbind, M_bind, mret, M_ret.
    simpl. destruct (find _ (projects db)); reflexivity.
Qed.

Lemma update_rows_ids (id : jsstring) (u : ProjectUpdate) (db : Db) :
  map p_id (projects (update_rows id u db)) = map p_id (projects db)
  /\ map p_created_at (projects (update_rows id u db)) = map p_created_at (projects db).
Proof.
  unfold update_rows. simpl. induction (projects db) as [|p l [IH1 IH2]];
    [split; reflexivity|].
  simpl. rewrite IH1, IH2. destruct (bool_decide (p_id p = id)); split; reflexivity.
Qed.

Lemma has_project_elem (id : jsstring) (db : Db) :
  has_project id db = bool_decide (id ∈ map p_id (projects db)).
Proof.
  unfold has_project. rewrite <- existsb_bool_decide.
  induction (projects db) as [|p l IH]; [reflexivity|].
  cbn [existsb map]. rewrite IH. reflexivity.
Qed.

Lemma has_project_ids (id : jsstring) (db db' : Db) :
  map p_id (projects db') = map p_id (projects db) ->
  has_project id db' = has_project id db.
Proof. intros Hids. rewrite !has_project_elem, Hids. reflexivity. Qed.

(** X18.  An update request never touches the event rows, never changes
    the identifier or the creation time of a project, and leaves the rows
    of every other project as they were; so the statistics of every
    project are the same before and after it, whatever the body. *)
Theorem project_PUT_frame (env : Env) (id : jsstring) (request_json : JsonBody) (db : Db) :
  let db' := snd (project_PUT env id request_json db) in
  visitor_events db' = visitor_events db
  /\ map p_id (projects db') = map p_id (projects db)
  /\ map p_created_at (projects db') = map p_created_at (projects db)
  /\ (forall id' : jsstring,
        id' ≠ id ->
        find (fun p => bool_decide (p_id p = id')) (projects db')
        = find (fun p => bool_decide (p_id p = id')) (projects db))
  /\ (forall (env' : Env) (id' : jsstring),
        stats_of (body (fst (project_GET env' id' db')))
        = stats_of (body (fst (project_GET env' id' db)))).
Proof.
  cbv zeta.
  destruct (project_PUT_effect env id request_json db) as [-> | [u ->]].
  - repeat split; reflexivity.
  - destruct (update_rows_ids id u db) as [Hids Hcreated].
    split; [reflexivity|]. split; [exact Hids|]. split; [exact Hcreated|].
    assert (Hother : forall id', id' ≠ id ->
              find (fun p => bool_decide (p_id p = id')) (projects (update_rows id u db))
              = find (fun p => bool_decide (p_id p = id')) (projects db)).
    { intros id' Hne. unfold update_rows. simpl. rewrite find_updated.
      destruct (find (fun p => bool_decide (p_id p = id')) (projects db))
        as [p|] eqn:Hfind; [|reflexivity].
      simpl. rewrite (find_project_id id' _ p Hfind).
      rewrite bool_decide_eq_false_2 by exact Hne. reflexivity. }
    split; [exact Hother|].
    intros env' id'.
    assert (Hev : events_of id' (update_rows id u db) = events_of id' db)
      by reflexivity.
    destruct (find (fun p => bool_decide (p_id p = id')) (projects db))
      as [p|] eqn:Hfind.
    + assert (Hfind' : exists p', find (fun p => bool_decide (p_id p = id'))
                                    (projects (update_rows id u db)) = Some p').
      { unfold update_rows. simpl. rewrite find_updated, Hfind. simpl. eauto. }
      destruct Hfind' as [p' Hfind'].
      rewrite (project_GET_known env' id' _ p' Hfind').
      rewrite (project_GET_known env' id' db p Hfind), Hev. reflexivity.
    + rewrite !project_GET_unknown; [reflexivity | |].
      * rewrite find_has_project, Hfind. reflexivity.
      * rewrite (has_project_ids id' db _ Hids), find_has_project, Hfind. reflexivity.
Qed.


End UpdateProperties.

Section UpdateThenServe.

Import Spec.

Lemma script_GET_tables (env : Env) (id : jsstring) (db : Db) :
  body (fst (script_GET env id db))
  = match find (fun p => bool_decide (p_id p = id)) (projects db) with
    | None => script_not_found
    | Some project =>
        if p_is_active project =? 1
        then generateEmbedScript id
               (Js.or_default (NEXT_PUBLIC_APP_URL env) (Js.lit "http://localhost:3000"))
        else script_inactive
    end.
Proof.
  unfold script_GET, try_catch, query, mbind, M_bind, mret, M_ret. simpl.
  destruct (find _ (projects db)) as [project|] eqn:Hfind; [|reflexivity].
  simpl. destruct (p_is_active project =? 1); [|reflexivity].
  simpl. rewrite (find_project_id id _ project Hfind). reflexivity.
Qed.

(** X20.  Activation takes effect on the next script request: after an
    accepted update that carries [isActive], script-serve answers with
    the full script when the value is truthy and with the inactivity
    placeholder when it is falsy.  The value is read by its truthiness,
    so the string ["false"] activates the project. *)
Theorem project_PUT_activation (env env' : Env) (id : jsstring)
    (fields : gmap jsstring JsValue) (db : Db) (isActive : JsValue)
    (name' domain' : option jsstring) (description' : option (option jsstring)) :
  has_project id db = true ->
  fields !! Js.lit "isActive" = Some isActive ->
  is_undefined isActive = false ->
  put_column (default VUndefined (fields !! Js.lit "name")) = Ok name' ->
  put_column (default VUndefined (fields !! Js.lit "domain")) = Ok domain' ->
  put_description (default VUndefined (fields !! Js.lit "description")) = Ok description' ->
  let db' := snd (project_PUT env id (BodyObject fields) db) in
  status (fst (project_PUT env id (BodyObject fields) db)) = 200
  /\ body (fst (script_GET env' id db'))
     = (if js_truthy isActive
        then generateEmbedScript id
               (Js.or_default (NEXT_PUBLIC_APP_URL env') (Js.lit "http://localhost:3000"))
        else script_inactive)
  /\ js_truthy (VString (Js.lit "false")) = true.
Proof.
  intros Hp Hfield Hdef Hname Hdomain Hdesc. cbv zeta.
  rewrite find_has_project in Hp.
  rewrite project_PUT_tables, Hname, Hdomain, Hdesc, Hfield.
  destruct (find (fun p => bool_decide (p_id p = id)) (projects db))
    as [project|] eqn:Hfind; [clear Hp | discriminate Hp].
  unfold put_active. simpl default. rewrite Hdef. cbv zeta.
  replace (negb (pushed name') && negb (pushed domain') && negb (pushed description')
           && negb (pushed (Some (if js_truthy isActive then 1 else 0))))
    with false by (simpl; rewrite andb_false_r; reflexivity).
  split; [reflexivity|]. split; [|reflexivity].
  rewrite script_GET_tables. unfold update_rows. simpl projects.
  rewrite find_updated, Hfind. simpl.
  rewrite (find_project_id id _ project Hfind).
  rewrite bool_decide_eq_true_2 by reflexivity. simpl.
  destruct (js_truthy isActive); reflexivity.
Qed.

(** X21.  The update route does not repeat the validation of the create
    route: a name of white space only, which the create route refuses
    with 400, is accepted by the update route, and the project is stored
    with the empty name. *)
Theorem project_PUT_accepts_blank_name (env : Env) (id : jsstring) (db : Db)
    (name : jsstring) (project : ProjectRow) :
  find (fun p => bool_decide (p_id p = id)) (projects db) = Some project ->
  js_trim name = [] ->
  let request_json := BodyObject {[ Js.lit "name" := VString name;
                                    Js.lit "domain" := VString (Js.lit "example.com") ]} in
  status (fst (projects_POST env request_json db)) = 400
  /\ status (fst (project_PUT env id request_json db)) = 200
  /\ p_name <$> find (fun p => bool_decide (p_id p = id))
                  (projects (snd (project_PUT env id request_json db)))
     = Some [].
Proof.
  intros Hfind Hblank. cbv zeta. split.
  - unfold projects_POST, try_catch, lift, mbind, M_bind, mret, M_ret, field.
    rewrite lookup_insert_eq.
    change (default VUndefined (Some (VString name))) with (VString name).
    destruct (blank (VString name)) eqn:Hb; [reflexivity|].
    apply blank_false in Hb as (s & Hs & Hne). injection Hs as <-.
    destruct (Hne Hblank).
  - rewrite project_PUT_tables, Hfind.
    rewrite lookup_insert_eq.
    rewrite !(lookup_insert_ne _ (Js.lit "name")) by discriminate.
    rewrite lookup_singleton_eq.
    rewrite !lookup_singleton_ne by discriminate.
    simpl. split; [reflexivity|].
    rewrite find_updated, Hfind. simpl.
    rewrite (find_project_id id _ project Hfind).
    rewrite bool_decide_eq_true_2 by reflexivity. simpl.
    rewrite Hblank. reflexivity.
Qed.

End UpdateThenServe.

(** * The constraints of the tables as an invariant of the routes *)

(** The rows satisfy the [CHECK] on the label, the identifiers of the
    events and of the projects are unique, and every event row refers to
    a project row. *)
Definition store_ok (db : Db) : Prop :=
  Spec.check_ok db
  /\ NoDup (map e_id (visitor_events db))
  /\ NoDup (map p_id (projects db))
  /\ Forall (fun e => has_project (e_project_id e) db = true) (visitor_events db).

(** One call of a route. *)
Inductive Call : Type :=
| CallScript (env : Env) (id : jsstring)
| CallTrack (env : Env) (request : Request)
| CallStats (env : Env) (id : jsstring)
| CallCreate (env : Env) (request_json : JsonBody)
| CallUpdate (env : Env) (id : jsstring) (request_json : JsonBody)
| CallDelete (id : jsstring).

(** The store a call leaves behind. *)
Definition run (db : Db) (call : Call) : Db :=
  match call with
  | CallScript env id => snd (script_GET env id db)
  | CallTrack env request => snd (track_GET env request db)
  | CallStats env id => snd (project_GET env id db)
  | CallCreate env request_json => snd (projects_POST env request_json db)
  | CallUpdate env id request_json => snd (project_PUT env id request_json db)
  | CallDelete id => snd (project_DELETE id db)
  end.

(** The tables as [initializeTables] creates them. *)
Definition empty_store (foreign_keys : bool) : Db :=
  {| projects := []; visitor_events := []; foreign_keys := foreign_keys |}.

Section StoreInvariant.

Import Spec.

Lemma NoDup_map_filter {A B} (f : A -> B) (P : A -> Prop) `{forall x, Decision (P x)}
    (l : list A) :
  NoDup (map f l) -> NoDup (map f (filter P l)).
Proof.
  induction l as [|x l IH]; [intros _; constructor|].
  simpl. intros Hnd. apply NoDup_cons in Hnd as [Hx Hnd].
  rewrite filter_cons. destruct (decide (P x)); [|apply IH, Hnd].
  simpl. apply NoDup_cons. split; [|apply IH, Hnd].
  intros Hin. apply Hx.
  apply list_elem_of_In, in_map_iff in Hin as (y & Hy & Hin).
  apply list_elem_of_In, list_elem_of_filter in Hin as [_ Hin].
  apply list_elem_of_In, in_map_iff. exists y. split; [exact Hy|].
  apply list_elem_of_In, Hin.
Qed.

Lemma store_ok_track (env : Env) (request : Request) (db : Db) :
  store_ok db -> store_ok (snd (track_GET env request db)).
Proof.
  intros (Hcheck & Hev & Hpr & Href).
  split; [apply track_GET_check_ok, Hcheck|].
  rewrite track_GET_store.
  destruct (recorded env request db) eqn:Hrec; [|repeat split; assumption].
  unfold recorded in Hrec. repeat (apply andb_prop in Hrec as [Hrec ?]).
  unfold append_event. simpl. split; [|split; [exact Hpr|]].
  - rewrite map_app. simpl. apply NoDup_app. split; [exact Hev|]. split.
    + intros x Hx Hx'. apply list_elem_of_singleton in Hx'. subst x.
      match goal with
      | Hfresh : negb (bool_decide (event_id env ∈ _)) = true |- _ =>
          apply negb_true_iff, bool_decide_eq_false_1 in Hfresh; exact (Hfresh Hx)
      end.
    + apply NoDup_singleton.
  - apply Forall_app. split; [exact Href|].
    constructor; [|constructor]. simpl. assumption.
Qed.

Lemma store_ok_delete (id : jsstring) (db : Db) :
  store_ok db -> store_ok (snd (project_DELETE id db)).
Proof.
  intros (Hcheck & Hev & Hpr & Href).
  split; [apply project_DELETE_check_ok, Hcheck|].
  destruct (has_project id db) eqn:Hp.
  - rewrite (project_DELETE_known id db Hp). simpl.
    split; [apply NoDup_map_filter, Hev|].
    split; [apply NoDup_map_filter, Hpr|].
    apply Forall_forall. intros e He.
    apply list_elem_of_filter in He as [Hne He].
    rewrite Forall_forall in Href. specialize (Href e He).
    rewrite find_has_project in *. simpl.
    rewrite (find_other_project id (e_project_id e) _ Hne). exact Href.
  - rewrite find_has_project in Hp.
    unfold project_DELETE, try_catch, query, mbind, M_bind, mret, M_ret. simpl.
    destruct (find _ (projects db)); [discriminate Hp|].
    repeat split; assumption.
Qed.

Lemma projects_POST_effect (env : Env) (request_json : JsonBody) (db : Db) :
  snd (projects_POST env request_json db) = db
  \/ (has_project (generateProjectId env) db = false
      /\ exists name domain description,
           snd (projects_POST env request_json db)
           = add_project (stored_project (created_row env name domain description)) db).
Proof.
  destruct request_json as [| |fields|]; try (left; reflexivity).
  destruct (blank (default VUndefined (fields !! Js.lit "name"))) eqn:Hn.
  { left. unfold projects_POST, try_catch, lift, mbind, M_bind, mret, M_ret, field.
    rewrite Hn. reflexivity. }
  destruct (blank (default VUndefined (fields !! Js.lit "domain"))) eqn:Hd.
  { left. unfold projects_POST, try_catch, lift, mbind, M_bind, mret, M_ret, field.
    rewrite Hn, Hd. reflexivity. }
  apply blank_false in Hn as (name & Hname & Hn).
  apply blank_false in Hd as (domain & Hdomain & Hd).
  assert (Hname' : fields !! Js.lit "name" = Some (VString name))
    by (destruct (fields !! Js.lit "name"); simpl in Hname; congruence).
  assert (Hdomain' : fields !! Js.lit "domain" = Some (VString domain))
    by (destruct (fields !! Js.lit "domain"); simpl in Hdomain; congruence).
  rewrite (projects_POST_valid env fields db name domain Hname' Hdomain' Hn Hd).
  destruct (optional_trim_or_null _) as [description|]; [|left; reflexivity].
  destruct (has_project (generateProjectId env) db) eqn:Hfresh; [left; reflexivity|].
  right. split; [reflexivity|]. exists name, domain, description. reflexivity.
Qed.

Lemma store_ok_create (env : Env) (request_json : JsonBody) (db : Db) :
  store_ok db -> store_ok (snd (projects_POST env request_json db)).
Proof.
  intros Hok.
  destruct (projects_POST_effect env request_json db)
    as [-> | (Hfresh & name & domain & description & ->)]; [exact Hok|].
  destruct Hok as (Hcheck & Hev & Hpr & Href).
  split; [exact Hcheck|]. split; [exact Hev|]. unfold add_project. simpl. split.
  - rewrite map_app. simpl. apply NoDup_app. split; [exact Hpr|]. split.
    + intros x Hx Hx'. apply list_elem_of_singleton in Hx'. subst x.
      rewrite has_project_elem in Hfresh.
      apply bool_decide_eq_false_1 in Hfresh. exact (Hfresh Hx).
    + apply NoDup_singleton.
  - eapply Forall_impl; [exact Href|]. intros e He. simpl in He.
    rewrite has_project_elem in *. simpl. rewrite map_app.
    apply bool_decide_eq_true_1 in He. apply bool_decide_eq_true_2.
    apply elem_of_app. left. exact He.
Qed.

Lemma store_ok_update (env : Env) (id : jsstring) (request_json : JsonBody) (db : Db) :
  store_ok db -> store_ok (snd (project_PUT env id request_json db)).
Proof.
  intros Hok.
  destruct (project_PUT_effect env id request_json db) as [-> | [u ->]]; [exact Hok|].
  destruct Hok as (Hcheck & Hev & Hpr & Href).
  destruct (update_rows_ids id u db) as [Hids _].
  split; [exact Hcheck|]. split; [exact Hev|]. split; [rewrite Hids; exact Hpr|].
  eapply Forall_impl; [exact Href|]. intros e He.
  rewrite (has_project_ids _ db _ Hids). exact He.
Qed.

Lemma script_GET_store (env : Env) (id : jsstring) (db : Db) :
  snd (script_GET env id db) = db.
Proof.
  unfold script_GET, try_catch, query, mbind, M_bind, mret, M_ret. simpl.
  destruct (find _ (projects db)) as [project|]; [|reflexivity].
  simpl. destruct (p_is_active project =? 1); reflexivity.
Qed.

Lemma project_GET_store (env : Env) (id : jsstring) (db : Db) :
  snd (project_GET env id db) = db.
Proof.
  unfold project_GET, try_catch, query, mbind, M_bind, mret, M_ret. simpl.
  destruct (find _ (projects db)); reflexivity.
Qed.

Lemma store_ok_run (db : Db) (call : Call) : store_ok db -> store_ok (run db call).
Proof.
  intros Hok. destruct call as [env id|env request|env id|env body|env id body|id];
    simpl.
  - rewrite script_GET_store. exact Hok.
  - apply store_ok_track, Hok.
  - rewrite project_GET_store. exact Hok.
  - apply store_ok_create, Hok.
  - apply store_ok_update, Hok.
  - apply store_ok_delete, Hok.
Qed.

End StoreInvariant.

(** X22.  Every route keeps the constraints of the tables, whether or
    not the connection enforces foreign keys: labels of the closed set,
    unique event and project identifiers, and no event row without its
    project.  Hence they hold in every store reached from the empty
    tables by any sequence of calls. *)
Theorem routes_keep_store_ok :
  (forall (db : Db) (call : Call), store_ok db -> store_ok (run db call))
  /\ forall (foreign_keys : bool) (calls : list Call),
       store_ok (fold_left run calls (empty_store foreign_keys)).
Proof.
  split; [apply store_ok_run|].
  intros fk calls.
  assert (Hall : forall db, store_ok db -> store_ok (fold_left run calls db)).
  { induction calls as [|call calls IH]; intros db Hok; [exact Hok|].
    simpl. apply IH, store_ok_run, Hok. }
  apply Hall. unfold store_ok, Spec.check_ok, empty_store. simpl.
  repeat split; constructor.
Qed.

Section ReachableStats.

Import Spec.

Lemma reachable_store_ok (foreign_keys : bool) (calls : list Call) :
  store_ok (fold_left run calls (empty_store foreign_keys)).
Proof.
  assert (Hall : forall db, store_ok db -> store_ok (fold_left run calls db)).
  { induction calls as [|call calls IH]; intros db Hok; [exact Hok|].
    simpl. apply IH, store_ok_run, Hok. }
  apply Hall. unfold store_ok, check_ok, empty_store. simpl.
  repeat split; constructor.
Qed.

(** With labels of the closed set, the four counts of a project add up
    to the number of its event rows. *)
Lemma counts_add_up (id : jsstring) (db : Db) :
  check_ok db ->
  count_events id (Js.lit "A") db + count_events id (Js.lit "B") db
  + count_events id (Js.lit "C") db + count_events id (Js.lit "D") db
  = Z.of_nat (length (events_of id db)).
Proof.
  unfold check_ok, count_events, events_of.
  induction (visitor_events db) as [|e l IH]; intros Hok; [reflexivity|].
  apply Forall_cons in Hok as [He Hok]. specialize (IH Hok).
  rewrite !filter_cons.
  destruct (decide (e_project_id e = id)) as [Hp|Hp].
  - destruct (closed_set_cases _ He) as [Hl | [Hl | [Hl | Hl]]]; rewrite Hl;
      repeat (first [rewrite decide_True by (split; [exact Hp | reflexivity])
                    |rewrite decide_False by (intros [_ Hx]; discriminate Hx)]);
      simpl length; lia.
  - rewrite !decide_False by tauto. exact IH.
Qed.

(** X23.  In every store reached from the empty tables by calls of the
    routes, the stats route answers 200 for each existing project, its
    total is the number of event rows of the project, and each of the
    four counts is the number of those rows with that label. *)
Theorem project_GET_total_on_reachable_store
    (foreign_keys : bool) (calls : list Call) (env : Env) (id : jsstring) :
  let db := fold_left run calls (empty_store foreign_keys) in
  has_project id db = true ->
  status (fst (project_GET env id db)) = 200
  /\ exists stats : Stats,
       stats_of (body (fst (project_GET env id db))) = Some stats
       /\ totalVisitors stats = Z.of_nat (length (events_of id db))
       /\ forall label,
            label ∈ [Js.lit "A"; Js.lit "B"; Js.lit "C"; Js.lit "D"] ->
            variationCounts stats !! label = Some (count_events id label db).
Proof.
  cbv zeta. intros Hp.
  destruct (reachable_store_ok foreign_keys calls) as (Hcheck & _).
  rewrite find_has_project in Hp.
  destruct (find (fun p => bool_decide (p_id p = id))
              (projects (fold_left run calls (empty_store foreign_keys))))
    as [project|] eqn:Hfind; [clear Hp | discriminate Hp].
  rewrite (project_GET_known env id _ project Hfind).
  split; [reflexivity|].
  exists (aggregate (group_count
                       (events_of id (fold_left run calls (empty_store foreign_keys))))).
  destruct (aggregate_group_count id _ Hcheck) as [Hcounts Htotal].
  split; [reflexivity|]. split; [|exact Hcounts].
  rewrite Htotal. unfold sum4. rewrite !Hcounts by set_solver. simpl.
  apply counts_add_up, Hcheck.
Qed.

End ReachableStats.

(** * A created project across the routes *)

Section CreatedProject.

Import Spec.

Lemma find_added (row : ProjectRow) (db : Db) :
  has_project (p_id row) db = false ->
  find (fun p => bool_decide (p_id p = p_id row)) (projects (add_project row db))
  = Some row.
Proof.
  rewrite find_has_project. unfold add_project. simpl. intros Hnone.
  induction (projects db) as [|p l IH]; simpl in *.
  - rewrite bool_decide_eq_true_2 by reflexivity. reflexivity.
  - destruct (bool_decide (p_id p = p_id row)); [discriminate Hnone | apply IH, Hnone].
Qed.

Lemma no_events_without_project (id : jsstring) (db : Db) :
  store_ok db -> has_project id db = false -> events_of id db = [].
Proof.
  intros (_ & _ & _ & Href) Hp. unfold events_of.
  induction (visitor_events db) as [|e l IH]; [reflexivity|].
  apply Forall_cons in Href as [He Href].
  rewrite filter_cons, decide_False; [apply IH, Href|].
  intros E. rewrite E in He. congruence.
Qed.

Lemma safe_generateProjectId (env : Env) :
  safe_identifier (nanoid12 env) = true ->
  safe_identifier (generateProjectId env) = true.
Proof.
  intros Hsafe. unfold generateProjectId, safe_identifier.
  rewrite forallb_app. apply andb_true_intro. split; [reflexivity | exact Hsafe].
Qed.

(** The store after a create request that is accepted. *)
Lemma projects_POST_accepted (env : Env) (fields : gmap jsstring JsValue) (db : Db)
    (name domain : jsstring) (description : option jsstring) :
  fields !! Js.lit "name" = Some (VString name) ->
  fields !! Js.lit "domain" = Some (VString domain) ->
  js_trim name <> [] ->
  js_trim domain <> [] ->
  optional_trim_or_null (default VUndefined (fields !! Js.lit "description"))
  = Ok description ->
  has_project (generateProjectId env) db = false ->
  snd (projects_POST env (BodyObject fields) db)
  = add_project (stored_project (created_row env name domain description)) db.
Proof.
  intros Hname Hdomain Hn Hd Hdesc Hfresh.
  rewrite (projects_POST_valid env fields db name domain Hname Hdomain Hn Hd).
  rewrite Hdesc, Hfresh. reflexivity.
Qed.

(** X24.  A project is live as soon as it is created: the next script
    request for the generated identifier gets the full script, not a
    placeholder; and when [nanoid] returns characters of its alphabet and
    the base URL has no quote or backslash, nothing of the two embedded
    values is code of that script. *)
Theorem projects_POST_then_script (env env' : Env) (fields : gmap jsstring JsValue)
    (db : Db) (name domain : jsstring) (description : option jsstring) :
  fields !! Js.lit "name" = Some (VString name) ->
  fields !! Js.lit "domain" = Some (VString domain) ->
  js_trim name <> [] ->
  js_trim domain <> [] ->
  optional_trim_or_null (default VUndefined (fields !! Js.lit "description"))
  = Ok description ->
  has_project (generateProjectId env) db = false ->
  let db' := snd (projects_POST env (BodyObject fields) db) in
  let apiEndpoint :=
    Js.or_default (NEXT_PUBLIC_APP_URL env') (Js.lit "http://localhost:3000") in
  body (fst (script_GET env' (generateProjectId env) db'))
  = generateEmbedScript (generateProjectId env) apiEndpoint
  /\ (safe_identifier (nanoid12 env) = true ->
      quote_free apiEndpoint = true ->
      inert (body (fst (script_GET env' (generateProjectId env) db')))).
Proof.
  intros Hname Hdomain Hn Hd Hdesc Hfresh. cbv zeta.
  rewrite (projects_POST_accepted env fields db name domain description
             Hname Hdomain Hn Hd Hdesc Hfresh).
  assert (Hbody : body (fst (script_GET env' (generateProjectId env)
                               (add_project
                                  (stored_project
                                     (created_row env name domain description)) db)))
                  = generateEmbedScript (generateProjectId env)
                      (Js.or_default (NEXT_PUBLIC_APP_URL env')
                         (Js.lit "http://localhost:3000"))).
  { pose proof (find_added (stored_project (created_row env name domain description))
                  db Hfresh) as Hfind.
    change (p_id (stored_project (created_row env name domain description)))
      with (generateProjectId env) in Hfind.
    rewrite script_GET_tables, Hfind. reflexivity. }
  split; [exact Hbody|].
  intros Hsafe Hurl. rewrite Hbody.
  apply generateEmbedScript_quote_free; [|exact Hurl].
  apply safe_identifier_quote_free, safe_generateProjectId, Hsafe.
Qed.

(** X25.  A project created in a store that satisfies the constraints
    starts with empty statistics (total 0 and 0 for each of A, B, C, D),
    and a beacon for it with a visitor, a label of the closed set and a
    new event identifier is recorded. *)
Theorem projects_POST_then_stats_and_tracking
    (env env' : Env) (fields : gmap jsstring JsValue) (db : Db)
    (name domain : jsstring) (description : option jsstring) (request : Request) :
  store_ok db ->
  fields !! Js.lit "name" = Some (VString name) ->
  fields !! Js.lit "domain" = Some (VString domain) ->
  js_trim name <> [] ->
  js_trim domain <> [] ->
  optional_trim_or_null (default VUndefined (fields !! Js.lit "description"))
  = Ok description ->
  has_project (generateProjectId env) db = false ->
  let id := generateProjectId env in
  let db' := snd (projects_POST env (BodyObject fields) db) in
  status (fst (project_GET env' id db')) = 200
  /\ stats_of (body (fst (project_GET env' id db'))) = Some stats_init
  /\ (param "p" request = Some id ->
      supplied (param "v" request) = true ->
      closed_set (default [] (param "var" request)) = true ->
      event_id env' ∉ map e_id (visitor_events db) ->
      recorded env' request db' = true).
Proof.
  intros Hok Hname Hdomain Hn Hd Hdesc Hfresh. cbv zeta.
  rewrite (projects_POST_accepted env fields db name domain description
             Hname Hdomain Hn Hd Hdesc Hfresh).
  pose proof (find_added (stored_project (created_row env name domain description))
                db Hfresh) as Hfind.
  change (p_id (stored_project (created_row env name domain description)))
    with (generateProjectId env) in Hfind.
  rewrite (project_GET_known env' _ _ _ Hfind).
  assert (Hnone : events_of (generateProjectId env)
                    (add_project
                       (stored_project (created_row env name domain description)) db)
                  = [])
    by (apply (no_events_without_project _ db Hok Hfresh)).
  rewrite Hnone. split; [reflexivity|]. split; [reflexivity|].
  intros Hparam Hv Hvar Hid. unfold recorded. rewrite Hparam, Hv, Hvar.
  assert (Hlabel : supplied (param "var" request) = true).
  { destruct (param "var" request) as [[|c s]|]; try reflexivity;
      vm_compute in Hvar; discriminate Hvar. }
  rewrite Hlabel. simpl default.
  rewrite (find_has_project (generateProjectId env)), Hfind.
  simpl. rewrite bool_decide_eq_false_2 by exact Hid.
  unfold generateProjectId. reflexivity.
Qed.

End CreatedProject.

(** * The generator on allow-listed identifiers; the assigned label on its way back *)

Section AllowListed.

Import Spec.

(** X5.  An identifier made of allow-listed characters, embedded with a
    base URL that has no quote or backslash, stays inside the string
    literals of the template at each of its three places: the code of the
    generated script is the code of the bare template, and the script
    ends outside every string literal. *)
Theorem generateEmbedScript_allow_listed (projectId apiEndpoint : jsstring) :
  safe_identifier projectId = true ->
  quote_free apiEndpoint = true ->
  inert (generateEmbedScript projectId apiEndpoint)
  /\ lex Code (generateEmbedScript projectId apiEndpoint) = Code.
Proof.
  intros Hsafe Hurl.
  pose proof (safe_identifier_quote_free projectId Hsafe) as Hp.
  split; [apply generateEmbedScript_quote_free; assumption|].
  unfold generateEmbedScript.
  rewrite !lex_app.
  assert (L0 : lex Code script_part0 = InString) by (vm_compute; reflexivity).
  assert (L1 : lex InString script_part1 = InString) by (vm_compute; reflexivity).
  assert (L2 : lex InString script_part2 = InString) by (vm_compute; reflexivity).
  assert (L3 : lex InString script_part3 = InString) by (vm_compute; reflexivity).
  assert (L4 : lex InString script_part4 = Code) by (vm_compute; reflexivity).
  rewrite L0, (quote_free_lex _ Hp), L1, (quote_free_lex _ Hp), L2,
    (quote_free_lex _ Hp), L3, (quote_free_lex _ Hurl), L4.
  reflexivity.
Qed.

(** X26.  The label a client computes with [assignVariation] is one the
    collector accepts: a beacon that carries a visitor identifier and the
    identifier of an existing project, both not empty, together with the
    variation assigned to that pair, is recorded as soon as its event
    identifier is new. *)
Theorem assigned_variation_is_recorded
    (env : Env) (request : Request) (db : Db) (visitorId projectId : jsstring) :
  param "v" request = Some visitorId ->
  param "p" request = Some projectId ->
  param "var" request = assignVariation visitorId projectId ->
  visitorId <> [] ->
  projectId <> [] ->
  has_project projectId db = true ->
  event_id env ∉ map e_id (visitor_events db) ->
  (exists label, assignVariation visitorId projectId = Some label
                 /\ isValidVariation label = true)
  /\ recorded env request db = true
  /\ fst (track_GET env request db) = pixel_recorded.
Proof.
  intros Hv Hp Hvar Hvne Hpne Hproj Hfresh.
  unfold assignVariation in *. cbv zeta in *.
  pose proof (hashString_range (visitorId ++ Js.lit ":" ++ projectId)) as Hr.
  destruct (rem4_bucket (hashString (visitorId ++ Js.lit ":" ++ projectId)))
    as [_ Hb]; [lia|].
  rewrite index_variations in * by exact Hb.
  assert (Hlabel : exists label,
            bucket_symbol (Js.rem (hashString (visitorId ++ Js.lit ":" ++ projectId)) 4)
            = Some label
            /\ isValidVariation label = true /\ label <> []).
  { remember (Js.rem (hashString (visitorId ++ Js.lit ":" ++ projectId)) 4) as i eqn:Ei.
    clear Ei Hr Hvar.
    assert (Hi : i = 0 \/ i = 1 \/ i = 2 \/ i = 3) by lia. clear Hb.
    destruct Hi as [-> | [-> | [-> | ->]]]; eexists;
      (split; [reflexivity|]); split; (reflexivity || discriminate). }
  destruct Hlabel as (label & Hsym & Hvalid & Hlne).
  rewrite Hsym in *.
  split; [exists label; split; [reflexivity | exact Hvalid]|].
  assert (Hrec : recorded env request db = true).
  { unfold recorded. rewrite Hv, Hp, Hvar. simpl default.
    rewrite <- isValidVariation_closed_set, Hvalid, Hproj.
    rewrite bool_decide_eq_false_2 by exact Hfresh.
    destruct visitorId; [congruence|]. destruct projectId; [congruence|].
    destruct label; [congruence|]. reflexivity. }
  split; [exact Hrec|].
  rewrite track_GET_response_store, Hrec. reflexivity.
Qed.

End AllowListed.

(** * [GET /api/projects]: the list with statistics *)

Record ListEntry := {
  l_id : jsstring;
  l_name : jsstring;
  l_domain : jsstring;
  l_description : option jsstring;
  l_isActive : bool;
  l_createdAt : jsstring;
  l_updatedAt : jsstring;
  l_stats : Stats
}.

Inductive ListBody : Type :=
| ListError (error : jsstring)
| ListProjects (projects : list ListEntry).

Definition json_list (value : ListBody) (st : Z) : Response ListBody :=
  {| status := st;
     headers := [(Js.lit "content-type", Js.lit "application/json")];
     body := value |}.

Class ProjectList (DB : Type) := {
  (** [SELECT ... FROM projects ORDER BY created_at DESC], [.all()] *)
  select_projects : DB -> result (list ProjectRow)
}.

(** [array.map(callback)] with a callback that runs statements. *)
Fixpoint map_rows {DB A B} (f : A -> M DB B) (l : list A) : M DB (list B) :=
  match l with
  | [] => mret []
  | x :: l' => y ← f x; ys ← map_rows f l'; mret (y :: ys)
  end.

Definition projects_GET {DB} `{Database DB} `{ProjectList DB}
  : DB -> Response ListBody * DB :=
  try_catch
    (query getDatabase;;
     projects ← query select_projects;
     projectsWithStats ←
       map_rows (fun p =>
                   stats ← query (select_stats (p_id p));
                   let result := aggregate stats in
                   mret {| l_id := p_id p;
                           l_name := p_name p;
                           l_domain := p_domain p;
                           l_description := p_description p;
                           l_isActive := p_is_active p =? 1;
                           l_createdAt := p_created_at p;
                           l_updatedAt := p_updated_at p;
                           l_stats := result |})
                projects;
     mret (json_list (ListProjects projectsWithStats) 200))
    (json_list (ListError (Js.lit "Failed to list projects")) 500).

Section ListRoute.

Context {DB : Type} `{Database DB} `{ProjectList DB}.

Definition list_entry (p : ProjectRow) (stats : list StatRow) : ListEntry :=
  {| l_id := p_id p;
     l_name := p_name p;
     l_domain := p_domain p;
     l_description := p_description p;
     l_isActive := p_is_active p =? 1;
     l_createdAt := p_created_at p;
     l_updatedAt := p_updated_at p;
     l_stats := aggregate stats |}.

(** The entries of the rows, as long as no statistics query throws. *)
Fixpoint list_entries (db : DB) (rows : list ProjectRow) : result (list ListEntry) :=
  match rows with
  | [] => Ok []
  | p :: rows' =>
      match select_stats (p_id p) db with
      | Throw => Throw
      | Ok stats =>
          match list_entries db rows' with
          | Throw => Throw
          | Ok entries => Ok (list_entry p stats :: entries)
          end
      end
  end.

Lemma map_rows_entries (db : DB) (rows : list ProjectRow) :
  map_rows (fun p =>
              stats ← query (select_stats (p_id p));
              let result := aggregate stats in
              mret {| l_id := p_id p;
                      l_name := p_name p;
                      l_domain := p_domain p;
                      l_description := p_description p;
                      l_isActive := p_is_active p =? 1;
                      l_createdAt := p_created_at p;
                      l_updatedAt := p_updated_at p;
                      l_stats := result |})
           rows db
  = (list_entries db rows, db).
Proof.
  induction rows as [|p rows IH]; [reflexivity|].
  cbn [map_rows list_entries].
  unfold mbind, M_bind, query, mret, M_ret in *. cbv zeta.
  destruct (select_stats (p_id p) db) as [stats|]; [|reflexivity].
  rewrite IH. destruct (list_entries db rows); reflexivity.
Qed.

Lemma projects_GET_result (db : DB) :
  projects_GET db
  = match getDatabase db, select_projects db with
    | Ok _, Ok rows =>
        match list_entries db rows with
        | Ok entries => (json_list (ListProjects entries) 200, db)
        | Throw => (json_list (ListError (Js.lit "Failed to list projects")) 500, db)
        end
    | _, _ => (json_list (ListError (Js.lit "Failed to list projects")) 500, db)
    end.
Proof.
  unfold projects_GET, try_catch.
  unfold mbind at 1. unfold M_bind at 1. unfold query at 1.
  destruct (getDatabase db) as [[]|]; [|reflexivity].
  unfold mbind at 1. unfold M_bind at 1. unfold query at 1.
  destruct (select_projects db) as [rows|]; [|reflexivity].
  unfold mbind at 1. unfold M_bind at 1.
  rewrite map_rows_entries.
  destruct (list_entries db rows); reflexivity.
Qed.

(** X27.  The list route never writes.  When its statements succeed it
    answers 200 with one entry per project row, in the order of the rows,
    and the statistics of each entry are those the detail route reports
    for the same identifier. *)
Theorem projects_GET_agrees_with_detail (db : DB) (rows : list ProjectRow) :
  getDatabase db = Ok tt ->
  select_projects db = Ok rows ->
  Forall (fun p => select_project (p_id p) db = Ok (Some p)
                   /\ exists stats, select_stats (p_id p) db = Ok stats) rows ->
  snd (projects_GET db) = db
  /\ status (fst (projects_GET db)) = 200
  /\ exists entries : list ListEntry,
       body (fst (projects_GET db)) = ListProjects entries
       /\ map l_id entries = map p_id rows
       /\ Forall (fun entry =>
                    forall env : Env,
                      Spec.stats_of (body (fst (project_GET env (l_id entry) db)))
                      = Some (l_stats entry))
                 entries.
Proof.
  intros Hopen Hrows Hall. rewrite projects_GET_result, Hopen, Hrows.
  assert (Hentries : exists entries,
            list_entries db rows = Ok entries
            /\ map l_id entries = map p_id rows
            /\ Forall (fun entry =>
                         forall env : Env,
                           Spec.stats_of (body (fst (project_GET env (l_id entry) db)))
                           = Some (l_stats entry))
                      entries).
  { clear Hrows. induction rows as [|p rows IH].
    - exists []. repeat split; constructor.
    - apply Forall_cons in Hall as [[Hsel [stats Hstats]] Hall].
      destruct (IH Hall) as (entries & Hl & Hids & Hst).
      exists (list_entry p stats :: entries). simpl.
      rewrite Hstats, Hl. split; [reflexivity|]. split; [f_equal; exact Hids|].
      constructor; [|exact Hst].
      intros env. simpl.
      unfold project_GET, try_catch, query, mbind, M_bind, mret, M_ret.
      rewrite Hopen, Hsel. simpl. rewrite Hstats. reflexivity. }
  destruct Hentries as (entries & Hl & Hids & Hst).
  rewrite Hl. split; [reflexivity|]. split; [reflexivity|].
  exists entries. split; [reflexivity|]. split; assumption.
Qed.

End ListRoute.

(** * The generated script: which elements it hides *)

(** The part of [applyVariation] in the template of [generateEmbedScript]
    that walks the elements carrying [data-optim-show]. *)

(** An element of the page: its [data-optim-show] attribute, if it has
    one, and its [style.display]. *)
Record Element := {
  data_optim_show : option jsstring;
  style_display : jsstring
}.

Fixpoint starts_with (needle s : jsstring) : bool :=
  match needle, s with
  | [], _ => true
  | _ :: _, [] => false
  | c :: needle', d :: s' => (c =? d) && starts_with needle' s'
  end.

(** [s.indexOf(needle)]: the first position at which [needle] occurs,
    [-1] when there is none. *)
Fixpoint indexOf_from (k : Z) (s needle : jsstring) : Z :=
  if starts_with needle s then k
  else match s with
       | [] => -1
       | _ :: s' => indexOf_from (k + 1) s' needle
       end.

Definition indexOf (s needle : jsstring) : Z := indexOf_from 0 s needle.

(** The body of the loop, on one element; [querySelectorAll] selects the
    elements that have the attribute. *)
Definition apply_show (v : jsstring) (el : Element) : Element :=
  match data_optim_show el with
  | None => el
  | Some showFor =>
      if Js.truthy (Some showFor) && (indexOf showFor v =? -1)
      then {| data_optim_show := data_optim_show el; style_display := Js.lit "none" |}
      else el
  end.

Definition applyVariation_elements (v : jsstring) (document : list Element)
  : list Element :=
  map (apply_show v) document.

(** [items.join(",")], the way a list of labels is written in the
    attribute. *)
Fixpoint comma_join (items : list jsstring) : jsstring :=
  match items with
  | [] => []
  | [item] => item
  | item :: items' => item ++ 44 :: comma_join items'
  end.

Section ShowHide.

Lemma indexOf_from_letter (c : Z) (s : jsstring) : forall k : Z,
  0 <= k -> (indexOf_from k s [c] = -1 <-> c ∉ s).
Proof.
  induction s as [|d s IH]; intros k Hk; simpl.
  - split; [intros _; apply not_elem_of_nil | reflexivity].
  - destruct (Z.eqb_spec c d) as [->|Hne]; simpl.
    + split; [lia|]. intros Hn. destruct Hn. left.
    + rewrite IH by lia. rewrite not_elem_of_cons. tauto.
Qed.

Lemma letter_in_comma_join (c : Z) (items : list jsstring) :
  c <> 44 ->
  Forall (fun item => exists d, item = [d]) items ->
  (c ∈ comma_join items <-> [c] ∈ items).
Proof.
  intros Hc. induction items as [|item items IH]; intros Hall.
  - simpl. split; intros Hin; [apply elem_of_nil in Hin | apply elem_of_nil in Hin];
      destruct Hin.
  - apply Forall_cons in Hall as [[d ->] Hall]. specialize (IH Hall).
    destruct items as [|item' items].
    + simpl. rewrite !list_elem_of_singleton. split; congruence.
    + change (comma_join ([d] :: item' :: items))
        with (d :: 44 :: comma_join (item' :: items)).
      rewrite !elem_of_cons, IH. rewrite elem_of_cons.
      split.
      * intros [-> | [E | Hin]]; [left; reflexivity | destruct (Hc E) | right; exact Hin].
      * intros [E | Hin]; [left; congruence | right; right; exact Hin].
Qed.

(** The element with [style.display] set to ["none"]. *)
Definition hidden (el : Element) : Element :=
  {| data_optim_show := data_optim_show el; style_display := Js.lit "none" |}.

(** X28.  For a one-letter variation, the script hides an element
    exactly when its [data-optim-show] attribute is not empty and the
    letter occurs nowhere in it; an element without the attribute or with
    an empty one is never touched.  For an attribute that is a
    comma-separated list of one-letter labels this is: hidden exactly
    when the list is not empty and the variation is not in it. *)
Theorem apply_show_hides (c : Z) (el : Element) :
  apply_show [c] el
  = match data_optim_show el with
    | Some (d :: s) => if bool_decide (c ∈ d :: s) then el else hidden el
    | _ => el
    end
  /\ forall items : list jsstring,
       c <> 44 ->
       Forall (fun item => exists d, item = [d]) items ->
       data_optim_show el = Some (comma_join items) ->
       apply_show [c] el
       = if bool_decide (items <> [] /\ [c] ∉ items) then hidden el else el.
Proof.
  assert (Hfirst : apply_show [c] el
                   = match data_optim_show el with
                     | Some (d :: s) =>
                         if bool_decide (c ∈ d :: s) then el else hidden el
                     | _ => el
                     end).
  { unfold apply_show, indexOf.
    destruct (data_optim_show el) as [[|d s]|] eqn:Hattr; try reflexivity.
    pose proof (indexOf_from_letter c (d :: s) 0 ltac:(lia)) as Hidx.
    change (Js.truthy (Some (d :: s))) with true. rewrite andb_true_l.
    destruct (Z.eqb_spec (indexOf_from 0 (d :: s) [c]) (-1)) as [E|E].
    - rewrite bool_decide_eq_false_2 by (apply Hidx, E).
      unfold hidden. rewrite Hattr. reflexivity.
    - rewrite bool_decide_eq_true_2; [reflexivity|].
      destruct (decide (c ∈ d :: s)) as [Hin|Hout]; [exact Hin|].
      destruct E. apply Hidx, Hout. }
  split; [exact Hfirst|].
  intros items Hc Hitems Hattr. rewrite Hfirst, Hattr.
  pose proof (letter_in_comma_join c items Hc Hitems) as Hjoin.
  destruct items as [|item items].
  - change (comma_join []) with (@nil Z).
    destruct (bool_decide ([] <> [] /\ [c] ∉ [])) eqn:Hb; [|reflexivity].
    apply bool_decide_eq_true_1 in Hb as [Hb _]. destruct (Hb eq_refl).
  - destruct (comma_join (item :: items)) as [|d s] eqn:Hj.
    + apply Forall_cons in Hitems as [[d ->] _].
      destruct items; discriminate Hj.
    + destruct (decide (c ∈ d :: s)) as [Hin|Hout].
      * rewrite bool_decide_eq_true_2 by exact Hin.
        rewrite bool_decide_eq_false_2; [reflexivity|].
        intros [_ Hn]. apply Hn, Hjoin, Hin.
      * rewrite bool_decide_eq_false_2 by exact Hout.
        rewrite bool_decide_eq_true_2; [reflexivity|].
        split; [discriminate|]. intros Hin. apply Hout, Hjoin, Hin.
Qed.

End ShowHide.

(** * Evaluation of the further properties *)

Module Demo.

(** A create request, and the calls that follow it. *)
Definition create_fields : gmap jsstring JsValue :=
  {[ Js.lit "name" := VString (Js.lit "  Landing page ");
     Js.lit "domain" := VString (Js.lit "example.com");
     Js.lit "description" := VString (Js.lit "   ") ]}.

Definition created_id : jsstring := Js.lit "proj_V1StGXR8_Z5j".

Definition env_at (id time : string) : Env :=
  {| NEXT_PUBLIC_APP_URL := Some (Js.lit "https://optim.example");
     nanoid12 := Js.lit id;
     now_iso := Js.lit time |}.

Definition beacon (v var : string) : Request :=
  {| searchParams := [(Js.lit "v", Js.lit v); (Js.lit "p", created_id);
                      (Js.lit "var", Js.lit var)];
     req_headers := [] |}.

Definition calls : list Call :=
  [CallCreate Example.env (BodyObject create_fields);
   CallTrack (env_at "aaaaaaaaaaaa" "2024-01-03T00:00:00.000Z") (beacon "v_1" "A");
   CallTrack (env_at "bbbbbbbbbbbb" "2024-01-03T00:00:01.000Z") (beacon "v_1" "A");
   CallTrack (env_at "cccccccccccc" "2024-01-03T00:00:02.000Z") (beacon "v_2" "Z")].

(** A store that lists the project rows in the order of the table. *)
Definition listed_in_table_order : ProjectList Db :=
  {| select_projects := fun db => Ok (projects db) |}.

End Demo.

Lemma generateEmbedScript_allow_listed_example :
  Spec.safe_identifier Demo.created_id = true
  /\ Spec.quote_free (Js.lit "http://localhost:3000") = true
  /\ Spec.inert (generateEmbedScript Demo.created_id (Js.lit "http://localhost:3000")).
Proof.
  split; [reflexivity|]. split; [reflexivity|].
  apply (generateEmbedScript_allow_listed Demo.created_id
           (Js.lit "http://localhost:3000") eq_refl eq_refl).
Defined.

Lemma demo_name : Demo.create_fields !! Js.lit "name"
                  = Some (VString (Js.lit "  Landing page ")).
Proof. vm_compute. reflexivity. Qed.

Lemma demo_domain : Demo.create_fields !! Js.lit "domain"
                    = Some (VString (Js.lit "example.com")).
Proof. vm_compute. reflexivity. Qed.

Lemma demo_description :
  optional_trim_or_null (default VUndefined (Demo.create_fields !! Js.lit "description"))
  = Ok None.
Proof. vm_compute. reflexivity. Qed.

Lemma demo_name_not_blank : js_trim (Js.lit "  Landing page ") <> [].
Proof. vm_compute. discriminate. Qed.

Lemma demo_domain_not_blank : js_trim (Js.lit "example.com") <> [].
Proof. vm_compute. discriminate. Qed.

(** A name with a surrogate that has no partner, as the JSON text
    ["a\ud800b"] gives it. *)
Definition surrogate_fields : gmap jsstring JsValue :=
  {[ Js.lit "name" := VString [97; 55296; 98];
     Js.lit "domain" := VString (Js.lit "example.com") ]}.

(** A create request on the example store: the name is trimmed, the
    description of white space becomes [null]; and a name with a lone
    surrogate is answered as it was sent and stored with U+FFFD. *)
Lemma projects_POST_creates_example :
  status (fst (projects_POST Example.env (BodyObject Demo.create_fields) Example.store))
  = 201
  /\ projects (snd (projects_POST Example.env (BodyObject Demo.create_fields)
                      Example.store))
     = projects Example.store
       ++ [{| p_id := Demo.created_id;
              p_name := Js.lit "Landing page";
              p_domain := Js.lit "example.com";
              p_description := None;
              p_is_active := 1;
              p_created_at := Js.lit "2024-01-02T00:00:00.000Z";
              p_updated_at := Js.lit "2024-01-02T00:00:00.000Z" |}]
  /\ p_name <$> last (projects (snd (projects_POST Example.env
                                       (BodyObject surrogate_fields) Example.store)))
     = Some [97; 65533; 98].
Proof.
  destruct (projects_POST_creates Example.env Demo.create_fields Example.store
              _ _ None demo_name demo_domain demo_name_not_blank
              demo_domain_not_blank demo_description eq_refl)
    as (Hstatus & Hrows & _).
  assert (Hsname : surrogate_fields !! Js.lit "name" = Some (VString [97; 55296; 98]))
    by (vm_compute; reflexivity).
  assert (Hsdomain : surrogate_fields !! Js.lit "domain"
                     = Some (VString (Js.lit "example.com")))
    by (vm_compute; reflexivity).
  assert (Hsdesc : optional_trim_or_null
                     (default VUndefined (surrogate_fields !! Js.lit "description"))
                   = Ok None)
    by (vm_compute; reflexivity).
  assert (Hsn : js_trim [97; 55296; 98] <> []) by (vm_compute; discriminate).
  destruct (projects_POST_creates Example.env surrogate_fields Example.store
              _ _ None Hsname Hsdomain Hsn demo_domain_not_blank Hsdesc eq_refl)
    as (_ & Hsrows & _).
  split; [exact Hstatus|]. split; [rewrite Hrows; vm_compute; reflexivity|].
  rewrite Hsrows. vm_compute. reflexivity.
Defined.

(** The same request when the generated identifier is already taken. *)
Lemma projects_POST_fails_example :
  projects_POST Example.env (BodyObject Demo.create_fields)
    (snd (projects_POST Example.env (BodyObject Demo.create_fields) Example.store))
  = (json_crud (CrudError (Js.lit "Failed to create project")) 500,
     snd (projects_POST Example.env (BodyObject Demo.create_fields) Example.store)).
Proof.
  apply (projects_POST_fails Example.env Demo.create_fields _ _ _
           demo_name demo_domain demo_name_not_blank demo_domain_not_blank).
  left. vm_compute. reflexivity.
Defined.

Lemma project_PUT_activation_example :
  body (fst (script_GET Example.env (Js.lit "proj_1")
               (snd (project_PUT Example.env (Js.lit "proj_1")
                       (BodyObject {[ Js.lit "isActive" := VBool false ]})
                       Example.store))))
  = script_inactive
  /\ body (fst (script_GET Example.env (Js.lit "proj_2")
                  (snd (project_PUT Example.env (Js.lit "proj_2")
                          (BodyObject {[ Js.lit "isActive" := VString (Js.lit "false") ]})
                          Example.store))))
     = generateEmbedScript (Js.lit "proj_2") (Js.lit "http://localhost:3000").
Proof.
  assert (Hfield : forall v : JsValue,
            ({[ Js.lit "isActive" := v ]} : gmap jsstring JsValue) !! Js.lit "isActive"
            = Some v) by (intros v; apply lookup_singleton_eq).
  assert (Hother : forall (v : JsValue) (name : string),
            Js.lit name <> Js.lit "isActive" ->
            default VUndefined
              (({[ Js.lit "isActive" := v ]} : gmap jsstring JsValue) !! Js.lit name)
            = VUndefined)
    by (intros v name Hne; rewrite lookup_singleton_ne by congruence; reflexivity).
  assert (Hcol : forall (v : JsValue) (name : string),
            Js.lit name <> Js.lit "isActive" ->
            put_column
              (default VUndefined
                 (({[ Js.lit "isActive" := v ]} : gmap jsstring JsValue) !! Js.lit name))
            = Ok None)
    by (intros v name Hne; rewrite (Hother v name Hne); reflexivity).
  assert (Hdesc : forall v : JsValue,
            put_description
              (default VUndefined
                 (({[ Js.lit "isActive" := v ]} : gmap jsstring JsValue)
                    !! Js.lit "description"))
            = Ok None)
    by (intros v; rewrite (Hother v "description"%string) by discriminate; reflexivity).
  destruct (project_PUT_activation Example.env Example.env (Js.lit "proj_1")
              {[ Js.lit "isActive" := VBool false ]} Example.store (VBool false)
              None None None eq_refl (Hfield _) eq_refl
              (Hcol _ "name"%string ltac:(discriminate))
              (Hcol _ "domain"%string ltac:(discriminate)) (Hdesc _))
    as (_ & Hoff & _).
  destruct (project_PUT_activation Example.env Example.env (Js.lit "proj_2")
              {[ Js.lit "isActive" := VString (Js.lit "false") ]} Example.store
              (VString (Js.lit "false"))
              None None None eq_refl (Hfield _) eq_refl
              (Hcol _ "name"%string ltac:(discriminate))
              (Hcol _ "domain"%string ltac:(discriminate)) (Hdesc _))
    as (_ & Hon & _).
  split; [exact Hoff | exact Hon].
Defined.

Lemma project_PUT_accepts_blank_name_example :
  p_name <$> find (fun p => bool_decide (p_id p = Js.lit "proj_1"))
               (projects
                  (snd (project_PUT Example.env (Js.lit "proj_1")
                          (BodyObject {[ Js.lit "name" := VString (Js.lit "   ");
                                         Js.lit "domain" := VString (Js.lit "example.com") ]})
                          Example.store)))
  = Some [].
Proof.
  apply (project_PUT_accepts_blank_name Example.env (Js.lit "proj_1") Example.store
           (Js.lit "   ") (Example.project "proj_1" 1) eq_refl eq_refl).
Defined.

Lemma demo_created : has_project Demo.created_id
                       (fold_left run Demo.calls (empty_store true)) = true.
Proof. vm_compute. reflexivity. Qed.

(** Create, two accepted beacons and a rejected one: total 2, A 2. *)
Lemma project_GET_total_on_reachable_store_example :
  exists stats : Stats,
    Spec.stats_of (body (fst (project_GET Example.env Demo.created_id
                                (fold_left run Demo.calls (empty_store true)))))
    = Some stats
    /\ totalVisitors stats = 2
    /\ variationCounts stats !! Js.lit "A" = Some 2.
Proof.
  destruct (project_GET_total_on_reachable_store true Demo.calls Example.env
              Demo.created_id demo_created)
    as (_ & stats & Hbody & Htotal & Hcounts).
  exists stats. split; [exact Hbody|].
  pose proof (Hcounts (Js.lit "A") ltac:(repeat constructor)) as HA.
  rewrite Htotal, HA. vm_compute. split; reflexivity.
Defined.

Lemma projects_POST_then_script_example :
  Spec.inert
    (body (fst (script_GET Example.env Demo.created_id
                  (snd (projects_POST Example.env (BodyObject Demo.create_fields)
                          Example.store))))).
Proof.
  destruct (projects_POST_then_script Example.env Example.env Demo.create_fields
              Example.store _ _ None demo_name demo_domain demo_name_not_blank
              demo_domain_not_blank demo_description eq_refl)
    as (_ & Hinert).
  apply Hinert; reflexivity.
Defined.

Lemma example_store_ok : store_ok Example.store.
Proof.
  unfold store_ok, Spec.check_ok. simpl.
  split; [repeat constructor|].
  split; [apply (bool_decide_unpack _); vm_compute; exact I|].
  split; [apply (bool_decide_unpack _); vm_compute; exact I|].
  repeat constructor.
Qed.

Lemma projects_POST_then_stats_and_tracking_example :
  Spec.stats_of
    (body (fst (project_GET Example.env Demo.created_id
                  (snd (projects_POST Example.env (BodyObject Demo.create_fields)
                          Example.store)))))
  = Some stats_init
  /\ Spec.recorded (Demo.env_at "aaaaaaaaaaaa" "2024-01-03T00:00:00.000Z")
       (Demo.beacon "v_1" "A")
       (snd (projects_POST Example.env (BodyObject Demo.create_fields) Example.store))
     = true.
Proof.
  destruct (projects_POST_then_stats_and_tracking Example.env
              (Demo.env_at "aaaaaaaaaaaa" "2024-01-03T00:00:00.000Z")
              Demo.create_fields Example.store _ _ None (Demo.beacon "v_1" "A")
              example_store_ok demo_name demo_domain demo_name_not_blank
              demo_domain_not_blank demo_description eq_refl)
    as (_ & Hstats & Hrec).
  split.
  - exact Hstats.
  - apply Hrec; try reflexivity.
    vm_compute. intros Hin.
    repeat (apply elem_of_cons in Hin as [Hin | Hin]; [discriminate Hin|]).
    apply elem_of_nil in Hin. exact Hin.
Defined.

Lemma assigned_variation_is_recorded_example :
  assignVariation (Js.lit "v1") (Js.lit "proj_1") = Some (Js.lit "B")
  /\ Spec.recorded Example.env (Example.beacon "v1" "proj_1" "B") Example.store = true.
Proof.
  split; [vm_compute; reflexivity|].
  apply (assigned_variation_is_recorded Example.env (Example.beacon "v1" "proj_1" "B")
           Example.store (Js.lit "v1") (Js.lit "proj_1")).
  - reflexivity.
  - reflexivity.
  - vm_compute. reflexivity.
  - discriminate.
  - discriminate.
  - reflexivity.
  - vm_compute. intros Hin.
    repeat (apply elem_of_cons in Hin as [Hin | Hin]; [discriminate Hin|]).
    apply elem_of_nil in Hin. exact Hin.
Defined.

Lemma projects_GET_agrees_with_detail_example :
  status (fst (projects_GET (H0 := Demo.listed_in_table_order) Example.store)) = 200
  /\ exists entries : list ListEntry,
       body (fst (projects_GET (H0 := Demo.listed_in_table_order) Example.store))
       = ListProjects entries
       /\ map l_id entries = [Js.lit "proj_1"; Js.lit "proj_2"].
Proof.
  destruct (projects_GET_agrees_with_detail (H := sqlite)
              (H0 := Demo.listed_in_table_order) Example.store (projects Example.store) eq_refl eq_refl)
    as (_ & Hstatus & entries & Hbody & Hids & _).
  - repeat constructor; eexists; reflexivity.
  - split; [exact Hstatus|]. exists entries. split; [exact Hbody | exact Hids].
Defined.


(** * Which identifiers reach the generator *)

(** [nanoid] returns characters of its alphabet, the letters, the digits,
    [_] and [-]: the create calls of a run are taken with such values. *)
Definition nanoid_alphabet (call : Call) : Prop :=
  match call with
  | CallCreate env _ => Spec.safe_identifier (nanoid12 env) = true
  | _ => True
  end.

Definition ids_allow_listed (db : Db) : Prop :=
  Forall (fun id => Spec.safe_identifier id = true) (map p_id (projects db)).

Section ReachedIdentifiers.

Import Spec.

Lemma Forall_map_filter {A B} (f : A -> B) (Q : B -> Prop) (P : A -> Prop)
    `{forall x, Decision (P x)} (l : list A) :
  Forall Q (map f l) -> Forall Q (map f (filter P l)).
Proof.
  induction l as [|x l IH]; [intros _; constructor|].
  simpl. intros Hall. apply Forall_cons in Hall as [Hx Hall].
  rewrite filter_cons. destruct (decide (P x)); [|apply IH, Hall].
  simpl. constructor; [exact Hx | apply IH, Hall].
Qed.

Lemma ids_allow_listed_run (db : Db) (call : Call) :
  nanoid_alphabet call -> ids_allow_listed db -> ids_allow_listed (run db call).
Proof.
  unfold ids_allow_listed.
  intros Hnano Hok.
  destruct call as [env id|env request|env id|env body|env id body|id]; simpl.
  - rewrite script_GET_store. exact Hok.
  - rewrite track_GET_store.
    destruct (recorded env request db); exact Hok.
  - rewrite project_GET_store. exact Hok.
  - destruct (projects_POST_effect env body db)
      as [-> | (_ & name & domain & description & ->)]; [exact Hok|].
    unfold add_project. simpl. rewrite map_app. apply Forall_app.
    split; [exact Hok|]. constructor; [|constructor].
    simpl. apply safe_generateProjectId, Hnano.
  - destruct (project_PUT_effect env id body db) as [-> | [u ->]]; [exact Hok|].
    destruct (update_rows_ids id u db) as [-> _]. exact Hok.
  - destruct (has_project id db) eqn:Hp.
    + rewrite (project_DELETE_known id db Hp). simpl.
      apply Forall_map_filter, Hok.
    + rewrite (project_DELETE_unknown id db Hp). exact Hok.
Qed.

Lemma ids_allow_listed_reachable (foreign_keys : bool) (calls : list Call) :
  Forall nanoid_alphabet calls ->
  ids_allow_listed (fold_left run calls (empty_store foreign_keys)).
Proof.
  assert (Hall : forall db, Forall nanoid_alphabet calls -> ids_allow_listed db ->
                            ids_allow_listed (fold_left run calls db)).
  { induction calls as [|call calls IH]; intros db Hnano Hok; [exact Hok|].
    apply Forall_cons in Hnano as [Hcall Hnano].
    simpl. apply IH; [exact Hnano|]. apply ids_allow_listed_run; assumption. }
  intros Hnano. apply Hall; [exact Hnano|]. constructor.
Qed.

(** C3, amended.  The generator performs no rejection and no escaping; an
    identifier made of allow-listed characters (with a base URL free of
    quote and backslash) stays inside the string literals of the script,
    so nothing of it is executable content.  And only such identifiers
    reach the generator: script-serve passes it the identifier of a stored
    project, and in every store reached from the empty tables through the
    routes, with [nanoid] returning characters of its alphabet, every
    project identifier is allow-listed.  So whatever identifier is
    requested, the response of script-serve is a placeholder or the inert
    script of an allow-listed identifier. *)
Theorem script_GET_embeds_allow_listed_ids
    (foreign_keys : bool) (calls : list Call) (env : Env) (id : jsstring) :
  Forall nanoid_alphabet calls ->
  quote_free (Js.or_default (NEXT_PUBLIC_APP_URL env) (Js.lit "http://localhost:3000"))
  = true ->
  let db := fold_left run calls (empty_store foreign_keys) in
  let script := body (fst (script_GET env id db)) in
  (forall projectId apiEndpoint : jsstring,
     safe_identifier projectId = true ->
     quote_free apiEndpoint = true ->
     inert (generateEmbedScript projectId apiEndpoint))
  /\ Forall (fun p => safe_identifier (p_id p) = true) (projects db)
  /\ (script = script_not_found
      \/ script = script_inactive
      \/ (safe_identifier id = true
          /\ script
             = generateEmbedScript id
                 (Js.or_default (NEXT_PUBLIC_APP_URL env)
                    (Js.lit "http://localhost:3000"))
          /\ inert script)).
Proof.
  intros Hnano Hurl. cbv zeta.
  pose proof (ids_allow_listed_reachable foreign_keys calls Hnano) as Hids.
  unfold ids_allow_listed in Hids. rewrite Forall_map in Hids.
  split.
  { intros projectId apiEndpoint Hsafe Hq.
    apply generateEmbedScript_quote_free; [|exact Hq].
    apply safe_identifier_quote_free, Hsafe. }
  split; [exact Hids|].
  rewrite script_GET_tables.
  destruct (find (fun p => bool_decide (p_id p = id))
              (projects (fold_left run calls (empty_store foreign_keys))))
    as [project|] eqn:Hfind; [|left; reflexivity].
  destruct (p_is_active project =? 1); [|right; left; reflexivity].
  right; right.
  assert (Hsafe : safe_identifier id = true).
  { pose proof (find_project_id id _ project Hfind) as <-.
    apply find_some in Hfind as [Hin _].
    rewrite Forall_forall in Hids. apply Hids, list_elem_of_In, Hin. }
  split; [exact Hsafe|]. split; [reflexivity|].
  apply generateEmbedScript_quote_free; [|exact Hurl].
  apply safe_identifier_quote_free, Hsafe.
Qed.

End ReachedIdentifiers.

(** After the calls of [Demo.calls]: the created project gets its inert
    script, and a request for the identifier ["+alert(1)+"] gets the
    not-found placeholder. *)
Lemma script_GET_embeds_allow_listed_ids_example :
  Forall nanoid_alphabet Demo.calls
  /\ Spec.inert (body (fst (script_GET Example.env Demo.created_id
                              (fold_left run Demo.calls (empty_store true)))))
  /\ body (fst (script_GET Example.env (Js.tpl "'+alert(1)+'")
                  (fold_left run Demo.calls (empty_store true))))
     = script_not_found.
Proof.
  assert (Hnano : Forall nanoid_alphabet Demo.calls)
    by (repeat (constructor; [first [reflexivity | exact I]|]); constructor).
  split; [exact Hnano|].
  destruct (script_GET_embeds_allow_listed_ids true Demo.calls Example.env
              Demo.created_id Hnano eq_refl)
    as (_ & _ & [Hbody | [Hbody | (_ & _ & Hinert)]]).
  - vm_compute in Hbody. discriminate Hbody.
  - vm_compute in Hbody. discriminate Hbody.
  - split; [exact Hinert|]. vm_compute. reflexivity.
Defined.
